(** * pencil-chess: the cross-context synchronisation handlers

    A shallow embedding of the message handlers of the three components
    (offline host, embedded board, online game) and of the storage
    service, with the collaborators the code delegates to (chess.js,
    ngx-chess-board, localStorage, JSON) taken as interfaces. *)

From Stdlib Require Import String Ascii List Bool Arith Lia.
From stdpp Require Import base option gmap strings.
Import ListNotations.
Local Open Scope string_scope.
Local Open Scope list_scope.

(** ** types/messages.ts *)

Inductive Role := white | black.
Inductive Turn := w | b.

Inductive WireMessage :=
| IFRAME_READY
| ROLE_ASSIGN (role : Role)
| REQUEST_SYNC
| SYNC_STATE (fen : string) (pgn : option string)
| BOARD_UPDATE (fen : string)
| TURN (turn : Turn)
| RESET
| GAME_OVER (winner : Role) (reason : string).

#[global] Instance Role_eq_dec : EqDecision Role.
Proof. solve_decision. Defined.
#[global] Instance Turn_eq_dec : EqDecision Turn.
Proof. solve_decision. Defined.
#[global] Instance WireMessage_eq_dec : EqDecision WireMessage.
Proof. solve_decision. Defined.

(** [event.data] as the handlers test it: anything that is not an object
    with a [type] field is dropped before the [switch]. *)
Inductive Data :=
| NotAMessage
| Msg (m : WireMessage).

(** A browsing context ([Window]); the handlers only compare references. *)
Definition Window := nat.

(** [MessageEvent]: origin, source window (may be null) and payload. *)
Record MessageEvent := {
  ev_origin : string;
  ev_source : option Window;
  ev_data : Data;
}.

(** [winner.toUpperCase()] *)
Definition toUpperCase (r : Role) : string :=
  match r with white => "WHITE" | black => "BLACK" end.

(** [r === 'white'] and [r === 'black'] on a [Role | null]. *)
Definition is_role (o : option Role) (r : Role) : bool :=
  match o with
  | Some r' => bool_decide (r' = r)
  | None => false
  end.

(** ** Collaborators *)

(** chess.js, as the components use it.  [load] validates the position
    before it touches the object, so a throwing [load] ([None]) leaves the
    game as it was.  [fen] always gives the six fields of a position, never
    the empty string. *)
Class RulesEngine := {
  Chess : Type;
  newChess : Chess;
  chess_load : Chess -> string -> option Chess;
  chess_turn : Chess -> Turn;
  chess_isCheckmate : Chess -> bool;
  chess_fen : Chess -> string;
  chess_pgn : Chess -> string;
  chess_fen_nonempty : forall c, chess_fen c <> EmptyString;
}.

(** ngx-chess-board, as the components use it.  [reverse] toggles the
    orientation; [reset], and [setFEN] with a position, redraw the board from
    white's side, which is why the components clear [isReversed] after them;
    [setFEN] with the empty string leaves the orientation as it is. *)
Class BoardWidget := {
  Board : Type;
  getFEN : Board -> string;
  setFEN : Board -> string -> Board;
  reverse : Board -> Board;
  reset : Board -> Board;
  reverted : Board -> bool;
  reverted_reverse : forall bd, reverted (reverse bd) = negb (reverted bd);
  reverted_setFEN : forall bd f, f <> EmptyString -> reverted (setFEN bd f) = false;
  reverted_setFEN_empty : forall bd, reverted (setFEN bd EmptyString) = reverted bd;
  reverted_reset : forall bd, reverted (reset bd) = false;
}.

(** A call made on the board widget, logged with the value that
    [applyingRemote] had when it was made. *)
Inductive BoardCall :=
| CallSetFEN (fen : string)
| CallReverse
| CallReset.

Definition BoardLog := list (BoardCall * bool).

(** [JSON.stringify] / [JSON.parse] at the type of the stored record;
    [parse] is [None] where [JSON.parse] throws, as it does on the empty
    string. *)
Class JsonCodec (T : Type) := {
  stringify : T -> string;
  parse : string -> option T;
  parse_empty : parse EmptyString = None;
}.

(** [window.localStorage].  Every call throws when access to the store is
    denied; [setItem] throws when the entry does not fit the quota. *)
Record LocalStorage := {
  items : gmap string string;
  denied : bool;
  quota : nat;
}.

Definition entry_size (k v : string) : nat := String.length k + String.length v.

Definition used (m : gmap string string) : nat :=
  map_fold (fun k v acc => entry_size k v + acc) 0 m.

Definition getItem (ls : LocalStorage) (k : string) : option (option string) :=
  if denied ls then None else Some (items ls !! k).

Definition setItem (ls : LocalStorage) (k v : string) : option LocalStorage :=
  if denied ls then None
  else if Nat.leb (used (<[k:=v]> (items ls))) (quota ls)
       then Some {| items := <[k:=v]> (items ls); denied := denied ls; quota := quota ls |}
       else None.

Definition removeItem (ls : LocalStorage) (k : string) : option LocalStorage :=
  if denied ls then None
  else Some {| items := delete k (items ls); denied := denied ls; quota := quota ls |}.

(** ** services/storage.service.ts *)

Module StorageService.
Section WithCodec.
Context {T : Type} {C : JsonCodec T}.
Variable key : string.

Definition load (ls : LocalStorage) : option T :=
  match getItem ls key with
  | Some (Some raw) =>
      if bool_decide (raw = EmptyString) then None
      else match parse raw with
           | Some v => Some v
           | None => None
           end
  | Some None => None
  | None => None
  end.

Definition save (state : T) (ls : LocalStorage) : LocalStorage :=
  match setItem ls key (stringify state) with
  | Some ls' => ls'
  | None => ls
  end.

Definition clear (ls : LocalStorage) : LocalStorage :=
  match removeItem ls key with
  | Some ls' => ls'
  | None => ls
  end.

End WithCodec.
End StorageService.

(** ** features/game-host/game-host.component.ts *)

Module GameHost.

Record SavedState := { fen : string }.

(** The [STORAGE_KEY] the component provides. *)
Definition STORAGE_KEY : string := "offline-game-state".

Section WithCollaborators.
Context {E : RulesEngine} {C : JsonCodec SavedState}.

Record State := mkHost {
  chess : Chess;  (* private chess *)
  currentTurnText : string;
  overlayVisible : bool;
  overlayText : string;
  origin : string;  (* window.location.origin *)
  window1 : option Window;  (* frame1's contentWindow, or null *)
  window2 : option Window;  (* frame2's contentWindow, or null *)
  storage : LocalStorage;  (* the browser's store, behind the StorageService *)
  posted : list (Window * WireMessage);  (* postMessage calls, in order *)
}.

Definition set_chess (v : Chess) (s : State) : State :=
  {| chess := v; currentTurnText := currentTurnText s;
     overlayVisible := overlayVisible s; overlayText := overlayText s;
     origin := origin s; window1 := window1 s; window2 := window2 s;
     storage := storage s; posted := posted s |}.

Definition set_currentTurnText (v : string) (s : State) : State :=
  {| chess := chess s; currentTurnText := v;
     overlayVisible := overlayVisible s; overlayText := overlayText s;
     origin := origin s; window1 := window1 s; window2 := window2 s;
     storage := storage s; posted := posted s |}.

Definition set_overlayVisible (v : bool) (s : State) : State :=
  {| chess := chess s; currentTurnText := currentTurnText s;
     overlayVisible := v; overlayText := overlayText s; origin := origin s;
     window1 := window1 s; window2 := window2 s; storage := storage s;
     posted := posted s |}.

Definition set_overlayText (v : string) (s : State) : State :=
  {| chess := chess s; currentTurnText := currentTurnText s;
     overlayVisible := overlayVisible s; overlayText := v;
     origin := origin s; window1 := window1 s; window2 := window2 s;
     storage := storage s; posted := posted s |}.

Definition set_storage (v : LocalStorage) (s : State) : State :=
  {| chess := chess s; currentTurnText := currentTurnText s;
     overlayVisible := overlayVisible s; overlayText := overlayText s;
     origin := origin s; window1 := window1 s; window2 := window2 s;
     storage := v; posted := posted s |}.

Definition set_posted (v : list (Window * WireMessage)) (s : State) : State :=
  {| chess := chess s; currentTurnText := currentTurnText s;
     overlayVisible := overlayVisible s; overlayText := overlayText s;
     origin := origin s; window1 := window1 s; window2 := window2 s;
     storage := storage s; posted := v |}.


(** [ngAfterViewInit]: restore the last unfinished game. *)
Definition ngAfterViewInit (s : State) : State :=
  match StorageService.load STORAGE_KEY (storage s) with
  | Some saved =>
      if bool_decide (fen saved = EmptyString) then s
      else match chess_load (chess s) (fen saved) with
           | Some c => set_chess c s
           | None => s
           end
  | None => s
  end.

Definition otherWindow (src : Window) (s : State) : option Window :=
  if bool_decide (Some src = window1 s) then window2 s else window1 s.

Definition currentTurnWindow (s : State) : option Window :=
  match chess_turn (chess s) with
  | w => window1 s
  | b => window2 s
  end.

Definition postTo (target : option Window) (msg : WireMessage) (s : State) : State :=
  match target with
  | Some t => set_posted (posted s ++ [(t, msg)]) s
  | None => s
  end.

Definition postToBoth (msg : WireMessage) (s : State) : State :=
  postTo (window2 s) msg (postTo (window1 s) msg s).

Definition syncStateTo (target : Window) (s : State) : State :=
  postTo (Some target) (SYNC_STATE (chess_fen (chess s)) None) s.

Definition broadcastTurn (s : State) : State :=
  let turn := chess_turn (chess s) in
  let s1 :=
    set_currentTurnText
      (match turn with w => "White to move" | b => "Black to move" end) s in
  postToBoth (TURN turn) s1.

(** The winner at a checkmate position: the side that is not to move. *)
Definition winnerOf (t : Turn) : Role :=
  match t with w => black | b => white end.

Definition onMessage (event : MessageEvent) (s : State) : State :=
  if negb (bool_decide (ev_origin event = origin s)) then s
  else
    match ev_source event with
    | None => s
    | Some srcWin =>
        match ev_data event with
        | NotAMessage => s
        | Msg IFRAME_READY =>
            let role := if bool_decide (Some srcWin = window1 s) then white else black in
            let s1 := postTo (Some srcWin) (ROLE_ASSIGN role) s in
            let s2 := syncStateTo srcWin s1 in
            broadcastTurn s2
        | Msg REQUEST_SYNC =>
            let s1 := syncStateTo srcWin s in
            broadcastTurn s1
        | Msg (BOARD_UPDATE data_fen) =>
            let isFromCurrentTurn := bool_decide (Some srcWin = currentTurnWindow s) in
            if negb isFromCurrentTurn then s
            else
              match chess_load (chess s) data_fen with
              | None => s
              | Some c =>
                  let s1 := set_chess c s in
                  let s2 :=
                    set_storage
                      (StorageService.save STORAGE_KEY {| fen := data_fen |} (storage s1))
                      s1 in
                  if chess_isCheckmate (chess s2) then
                    let winner := winnerOf (chess_turn (chess s2)) in
                    let s3 := postToBoth (GAME_OVER winner "checkmate") s2 in
                    let s4 := set_overlayText (toUpperCase winner +:+ " wins by checkmate") s3 in
                    set_overlayVisible true s4
                  else
                    let s3 := postTo (otherWindow srcWin s2) (SYNC_STATE data_fen None) s2 in
                    broadcastTurn s3
              end
        | Msg _ => s
        end
    end.

Definition newGame (s : State) : State :=
  let s1 := set_chess newChess s in
  let s2 := set_storage (StorageService.clear STORAGE_KEY (storage s1)) s1 in
  let s3 := set_overlayVisible false s2 in
  let s4 := set_overlayText EmptyString s3 in
  let fen := chess_fen (chess s4) in
  let s5 := postToBoth RESET s4 in
  let s6 := postToBoth (SYNC_STATE fen None) s5 in
  broadcastTurn s6.

(** Open confirmation overlay. *)
Definition openOverlay (s : State) : State :=
  let s1 := set_overlayText "Do you want to reset the game?" s in
  set_overlayVisible true s1.

(** What identifies the children: the two frames' windows and the origin. *)
Definition wiring (s : State) : option Window * option Window * string :=
  (window1 s, window2 s, origin s).

(** What [postToBoth msg] adds to the posted messages: one copy per loaded frame. *)
Definition bothChildren (msg : WireMessage) (s : State) : list (Window * WireMessage) :=
  match window1 s with Some t => [(t, msg)] | None => [] end
  ++ match window2 s with Some t => [(t, msg)] | None => [] end.

(** The messages addressed to one child, in the order they were posted. *)
Definition deliveredTo (t : Window) (s : State) : list WireMessage :=
  map snd (List.filter (fun p => bool_decide (fst p = t)) (posted s)).

End WithCollaborators.
End GameHost.

(** ** features/board-embed/board-embed.component.ts *)

Module BoardEmbed.
Section WithCollaborators.
Context {W : BoardWidget}.

Record State := mkEmbed {
  role : option Role;  (* white or black, assigned by parent *)
  moveDisabled : bool;  (* true when it is not this side's turn *)
  applyingRemote : bool;  (* true while applying SYNC/RESET *)
  isReversed : bool;  (* tracks visual rotation for black *)
  board : Board;  (* the ngx-chess-board view *)
  calls : BoardLog;  (* calls made on the view, in order *)
  origin : string;  (* window.location.origin *)
  sent : list WireMessage;  (* window.parent.postMessage calls, in order *)
}.

Definition set_role (v : option Role) (s : State) : State :=
  {| role := v; moveDisabled := moveDisabled s;
     applyingRemote := applyingRemote s; isReversed := isReversed s;
     board := board s; calls := calls s; origin := origin s;
     sent := sent s |}.

Definition set_moveDisabled (v : bool) (s : State) : State :=
  {| role := role s; moveDisabled := v; applyingRemote := applyingRemote s;
     isReversed := isReversed s; board := board s; calls := calls s;
     origin := origin s; sent := sent s |}.

Definition set_applyingRemote (v : bool) (s : State) : State :=
  {| role := role s; moveDisabled := moveDisabled s; applyingRemote := v;
     isReversed := isReversed s; board := board s; calls := calls s;
     origin := origin s; sent := sent s |}.

Definition set_isReversed (v : bool) (s : State) : State :=
  {| role := role s; moveDisabled := moveDisabled s;
     applyingRemote := applyingRemote s; isReversed := v; board := board s;
     calls := calls s; origin := origin s; sent := sent s |}.

Definition set_board (v : Board) (s : State) : State :=
  {| role := role s; moveDisabled := moveDisabled s;
     applyingRemote := applyingRemote s; isReversed := isReversed s;
     board := v; calls := calls s; origin := origin s; sent := sent s |}.

Definition set_calls (v : BoardLog) (s : State) : State :=
  {| role := role s; moveDisabled := moveDisabled s;
     applyingRemote := applyingRemote s; isReversed := isReversed s;
     board := board s; calls := v; origin := origin s; sent := sent s |}.

Definition set_sent (v : list WireMessage) (s : State) : State :=
  {| role := role s; moveDisabled := moveDisabled s;
     applyingRemote := applyingRemote s; isReversed := isReversed s;
     board := board s; calls := calls s; origin := origin s; sent := v |}.


(** One call on the view: apply it and log it with the current guard. *)
Definition callBoard (c : BoardCall) (s : State) : State :=
  let bd :=
    match c with
    | CallSetFEN f => setFEN (board s) f
    | CallReverse => reverse (board s)
    | CallReset => reset (board s)
    end in
  set_calls (calls s ++ [(c, applyingRemote s)]) (set_board bd s).

Definition darkDisabled (s : State) : bool :=
  is_role (role s) white || moveDisabled s || applyingRemote s.

Definition lightDisabled (s : State) : bool :=
  is_role (role s) black || moveDisabled s || applyingRemote s.

(** [ngAfterViewInit]: announce readiness and ask for the current state. *)
Definition ngAfterViewInit (s : State) : State :=
  set_sent (sent s ++ [IFRAME_READY; REQUEST_SYNC]) s.

(** A local drag finished: report the new FEN to the parent. *)
Definition onUserMove (s : State) : State :=
  if applyingRemote s then s
  else
    let fen := getFEN (board s) in
    set_sent (sent s ++ [BOARD_UPDATE fen]) s.

(** Rotate board exactly once if I'm black; no-op for white. *)
Definition ensureOrientation (s : State) : State :=
  let shouldBeReversed := is_role (role s) black in
  if negb (eqb shouldBeReversed (isReversed s)) then
    set_isReversed shouldBeReversed (callBoard CallReverse s)
  else s.

Definition isMyTurn (r : Role) (t : Turn) : bool :=
  match r, t with
  | white, w => true
  | black, b => true
  | _, _ => false
  end.

Definition onMessage (event : MessageEvent) (s : State) : State :=
  if negb (bool_decide (ev_origin event = origin s)) then s
  else
    match ev_data event with
    | NotAMessage => s
    | Msg (ROLE_ASSIGN r) =>
        ensureOrientation (set_role (Some r) s)
    | Msg (SYNC_STATE msg_fen _) =>
        let s1 := set_applyingRemote true s in
        let s2 := callBoard (CallSetFEN msg_fen) s1 in
        let s3 := set_isReversed false s2 in
        let s4 := ensureOrientation s3 in
        set_applyingRemote false s4
    | Msg (TURN t) =>
        match role s with
        | None => s
        | Some r => set_moveDisabled (negb (isMyTurn r t)) s
        end
    | Msg RESET =>
        let s1 := set_applyingRemote true s in
        let s2 := callBoard CallReset s1 in
        let s3 := set_applyingRemote false s2 in
        let s4 := set_isReversed false s3 in
        let s5 := ensureOrientation s4 in
        set_moveDisabled (negb (is_role (role s5) white)) s5
    | Msg (GAME_OVER _ _) =>
        set_moveDisabled true s
    | Msg _ => s
    end.

(** The component as constructed, around a given view. *)
Definition init (bd : Board) (org : string) : State :=
  {| role := None; moveDisabled := true; applyingRemote := false;
     isReversed := false; board := bd; calls := []; origin := org; sent := [] |}.

(** The host's messages, delivered in order. *)
Definition deliver (org : string) (msgs : list WireMessage) (s : State) : State :=
  fold_left
    (fun st m => onMessage {| ev_origin := org; ev_source := None; ev_data := Msg m |} st)
    msgs s.

(** How many times [board.reverse()] was called. *)
Definition flips (s : State) : nat :=
  length (List.filter (fun c => match fst c with CallReverse => true | _ => false end) (calls s)).

(** The invariant behind the defensive check of TURN: without a role, moves
    are disabled. *)
Definition roleless_disabled (s : State) : Prop :=
  role s = None -> moveDisabled s = true.

(** What can happen to the component: a window message, the view's
    move-completed notification, or the lifecycle hook. *)
Inductive Input :=
| Message (event : MessageEvent)
| UserMove
| ViewInit.

Definition step (s : State) (i : Input) : State :=
  match i with
  | Message event => onMessage event s
  | UserMove => onUserMove s
  | ViewInit => ngAfterViewInit s
  end.

Definition run (inputs : list Input) (s : State) : State :=
  fold_left step inputs s.

(** The input is not a SYNC_STATE whose position is the empty string (the
    host sends the engine's [fen()], which never is). *)
Definition carriesPosition (i : Input) : Prop :=
  match i with
  | Message event =>
      match ev_data event with
      | Msg (SYNC_STATE msg_fen _) => msg_fen <> EmptyString
      | _ => True
      end
  | _ => True
  end.

End WithCollaborators.
End BoardEmbed.

(** ** features/online-game/online-game.component.ts *)

Module OnlineGame.

Inductive Status := waiting | live | ended.

(** [PlayersDoc]: each slot holds the occupant's id, or is null or absent. *)
Record PlayersDoc := {
  white_slot : option string;
  black_slot : option string;
}.

Record GameDoc := {
  doc_fen : string;
  doc_pgn : option string;
  doc_turn : Turn;
  doc_status : option Status;
  doc_winner : option Role;
  doc_players : option PlayersDoc;
}.

(** The argument of [update]: the fields it names are overwritten. *)
Record Patch := {
  patch_fen : option string;
  patch_pgn : option string;
  patch_turn : option Turn;
  patch_status : option Status;
  patch_winner : option Role;
  patch_players : option PlayersDoc;
}.

Inductive RemoteWrite :=
| RemoteSet (path : string) (doc : GameDoc)
| RemoteUpdate (path : string) (patch : Patch).

(** How the promise of an awaited remote call ends. *)
Inductive Settled (A : Type) :=
| Resolved (a : A)
| Rejected.

Arguments Resolved {A} a.
Arguments Rejected {A}.

(** What [onUserMove] has left to do when the write it awaits resolves. *)
Inductive Continuation :=
| ThenGameOver (winner : Role)
| ThenGate.

(** What the database holds after [update(ref, patch)]. *)
Definition applyPatch (p : Patch) (d : GameDoc) : GameDoc :=
  {| doc_fen := default (doc_fen d) (patch_fen p);
     doc_pgn := match patch_pgn p with Some x => Some x | None => doc_pgn d end;
     doc_turn := default (doc_turn d) (patch_turn p);
     doc_status := match patch_status p with Some x => Some x | None => doc_status d end;
     doc_winner := match patch_winner p with Some x => Some x | None => doc_winner d end;
     doc_players := match patch_players p with Some x => Some x | None => doc_players d end |}.

Record OnlineLocalState := {
  saved_code : string;
  saved_role : Role;
  saved_clientId : string;
}.

(** The [STORAGE_KEY] the component provides. *)
Definition STORAGE_KEY : string := "online-game-state".

(** [!!slot?.id] *)
Definition taken (slot : option string) : bool :=
  match slot with
  | Some id => negb (bool_decide (id = EmptyString))
  | None => false
  end.

(** [val.players || {}] *)
Definition playersOf (val : GameDoc) : PlayersDoc :=
  default {| white_slot := None; black_slot := None |} (doc_players val).

Definition bothTaken (ps : PlayersDoc) : bool :=
  taken (white_slot ps) && taken (black_slot ps).

Section WithCollaborators.
Context {E : RulesEngine} {W : BoardWidget} {C : JsonCodec OnlineLocalState}.

Record State := mkOnline {
  code : string;
  statusText : string;
  overlayVisible : bool;
  overlayText : string;
  chess : Chess;  (* single source of truth for position/turn *)
  role : option Role;  (* assigned role on create/join *)
  applyingRemote : bool;  (* true while applying remote updates *)
  bothJoined : bool;  (* both player slots filled *)
  moveDisabled : bool;  (* disables local drags when not allowed *)
  isReversed : bool;  (* track if the board is flipped for black *)
  gameRef : option string;  (* ref(db, games/code), or null *)
  unsub : option string;  (* the ref the RTDB listener is attached to, or null *)
  clientId : string;
  board : Board;  (* the ngx-chess-board view *)
  calls : BoardLog;  (* calls made on the view, in order *)
  storage : LocalStorage;  (* the browser's store, behind the StorageService *)
  writes : list RemoteWrite;  (* set/update calls on the database, in order *)
}.

Definition set_code (v : string) (s : State) : State :=
  {| code := v; statusText := statusText s;
     overlayVisible := overlayVisible s; overlayText := overlayText s;
     chess := chess s; role := role s; applyingRemote := applyingRemote s;
     bothJoined := bothJoined s; moveDisabled := moveDisabled s;
     isReversed := isReversed s; gameRef := gameRef s; unsub := unsub s;
     clientId := clientId s; board := board s; calls := calls s;
     storage := storage s; writes := writes s |}.

Definition set_bothJoined (v : bool) (s : State) : State :=
  {| code := code s; statusText := statusText s;
     overlayVisible := overlayVisible s; overlayText := overlayText s;
     chess := chess s; role := role s; applyingRemote := applyingRemote s;
     bothJoined := v; moveDisabled := moveDisabled s;
     isReversed := isReversed s; gameRef := gameRef s; unsub := unsub s;
     clientId := clientId s; board := board s; calls := calls s;
     storage := storage s; writes := writes s |}.

Definition set_statusText (v : string) (s : State) : State :=
  {| code := code s; statusText := v; overlayVisible := overlayVisible s;
     overlayText := overlayText s; chess := chess s; role := role s;
     applyingRemote := applyingRemote s; bothJoined := bothJoined s;
     moveDisabled := moveDisabled s; isReversed := isReversed s;
     gameRef := gameRef s; unsub := unsub s; clientId := clientId s;
     board := board s; calls := calls s; storage := storage s;
     writes := writes s |}.

Definition set_overlayVisible (v : bool) (s : State) : State :=
  {| code := code s; statusText := statusText s; overlayVisible := v;
     overlayText := overlayText s; chess := chess s; role := role s;
     applyingRemote := applyingRemote s; bothJoined := bothJoined s;
     moveDisabled := moveDisabled s; isReversed := isReversed s;
     gameRef := gameRef s; unsub := unsub s; clientId := clientId s;
     board := board s; calls := calls s; storage := storage s;
     writes := writes s |}.

Definition set_overlayText (v : string) (s : State) : State :=
  {| code := code s; statusText := statusText s;
     overlayVisible := overlayVisible s; overlayText := v; chess := chess s;
     role := role s; applyingRemote := applyingRemote s;
     bothJoined := bothJoined s; moveDisabled := moveDisabled s;
     isReversed := isReversed s; gameRef := gameRef s; unsub := unsub s;
     clientId := clientId s; board := board s; calls := calls s;
     storage := storage s; writes := writes s |}.

Definition set_chess (v : Chess) (s : State) : State :=
  {| code := code s; statusText := statusText s;
     overlayVisible := overlayVisible s; overlayText := overlayText s;
     chess := v; role := role s; applyingRemote := applyingRemote s;
     bothJoined := bothJoined s; moveDisabled := moveDisabled s;
     isReversed := isReversed s; gameRef := gameRef s; unsub := unsub s;
     clientId := clientId s; board := board s; calls := calls s;
     storage := storage s; writes := writes s |}.

Definition set_role (v : option Role) (s : State) : State :=
  {| code := code s; statusText := statusText s;
     overlayVisible := overlayVisible s; overlayText := overlayText s;
     chess := chess s; role := v; applyingRemote := applyingRemote s;
     bothJoined := bothJoined s; moveDisabled := moveDisabled s;
     isReversed := isReversed s; gameRef := gameRef s; unsub := unsub s;
     clientId := clientId s; board := board s; calls := calls s;
     storage := storage s; writes := writes s |}.

Definition set_applyingRemote (v : bool) (s : State) : State :=
  {| code := code s; statusText := statusText s;
     overlayVisible := overlayVisible s; overlayText := overlayText s;
     chess := chess s; role := role s; applyingRemote := v;
     bothJoined := bothJoined s; moveDisabled := moveDisabled s;
     isReversed := isReversed s; gameRef := gameRef s; unsub := unsub s;
     clientId := clientId s; board := board s; calls := calls s;
     storage := storage s; writes := writes s |}.

Definition set_moveDisabled (v : bool) (s : State) : State :=
  {| code := code s; statusText := statusText s;
     overlayVisible := overlayVisible s; overlayText := overlayText s;
     chess := chess s; role := role s; applyingRemote := applyingRemote s;
     bothJoined := bothJoined s; moveDisabled := v;
     isReversed := isReversed s; gameRef := gameRef s; unsub := unsub s;
     clientId := clientId s; board := board s; calls := calls s;
     storage := storage s; writes := writes s |}.

Definition set_isReversed (v : bool) (s : State) : State :=
  {| code := code s; statusText := statusText s;
     overlayVisible := overlayVisible s; overlayText := overlayText s;
     chess := chess s; role := role s; applyingRemote := applyingRemote s;
     bothJoined := bothJoined s; moveDisabled := moveDisabled s;
     isReversed := v; gameRef := gameRef s; unsub := unsub s;
     clientId := clientId s; board := board s; calls := calls s;
     storage := storage s; writes := writes s |}.

Definition set_gameRef (v : option string) (s : State) : State :=
  {| code := code s; statusText := statusText s;
     overlayVisible := overlayVisible s; overlayText := overlayText s;
     chess := chess s; role := role s; applyingRemote := applyingRemote s;
     bothJoined := bothJoined s; moveDisabled := moveDisabled s;
     isReversed := isReversed s; gameRef := v; unsub := unsub s;
     clientId := clientId s; board := board s; calls := calls s;
     storage := storage s; writes := writes s |}.

Definition set_unsub (v : option string) (s : State) : State :=
  {| code := code s; statusText := statusText s;
     overlayVisible := overlayVisible s; overlayText := overlayText s;
     chess := chess s; role := role s; applyingRemote := applyingRemote s;
     bothJoined := bothJoined s; moveDisabled := moveDisabled s;
     isReversed := isReversed s; gameRef := gameRef s; unsub := v;
     clientId := clientId s; board := board s; calls := calls s;
     storage := storage s; writes := writes s |}.

Definition set_board (v : Board) (s : State) : State :=
  {| code := code s; statusText := statusText s;
     overlayVisible := overlayVisible s; overlayText := overlayText s;
     chess := chess s; role := role s; applyingRemote := applyingRemote s;
     bothJoined := bothJoined s; moveDisabled := moveDisabled s;
     isReversed := isReversed s; gameRef := gameRef s; unsub := unsub s;
     clientId := clientId s; board := v; calls := calls s;
     storage := storage s; writes := writes s |}.

Definition set_calls (v : BoardLog) (s : State) : State :=
  {| code := code s; statusText := statusText s;
     overlayVisible := overlayVisible s; overlayText := overlayText s;
     chess := chess s; role := role s; applyingRemote := applyingRemote s;
     bothJoined := bothJoined s; moveDisabled := moveDisabled s;
     isReversed := isReversed s; gameRef := gameRef s; unsub := unsub s;
     clientId := clientId s; board := board s; calls := v;
     storage := storage s; writes := writes s |}.

Definition set_storage (v : LocalStorage) (s : State) : State :=
  {| code := code s; statusText := statusText s;
     overlayVisible := overlayVisible s; overlayText := overlayText s;
     chess := chess s; role := role s; applyingRemote := applyingRemote s;
     bothJoined := bothJoined s; moveDisabled := moveDisabled s;
     isReversed := isReversed s; gameRef := gameRef s; unsub := unsub s;
     clientId := clientId s; board := board s; calls := calls s;
     storage := v; writes := writes s |}.

Definition set_writes (v : list RemoteWrite) (s : State) : State :=
  {| code := code s; statusText := statusText s;
     overlayVisible := overlayVisible s; overlayText := overlayText s;
     chess := chess s; role := role s; applyingRemote := applyingRemote s;
     bothJoined := bothJoined s; moveDisabled := moveDisabled s;
     isReversed := isReversed s; gameRef := gameRef s; unsub := unsub s;
     clientId := clientId s; board := board s; calls := calls s;
     storage := storage s; writes := v |}.


(** One call on the view: apply it and log it with the current guard. *)
Definition callBoard (c : BoardCall) (s : State) : State :=
  let bd :=
    match c with
    | CallSetFEN f => setFEN (board s) f
    | CallReverse => reverse (board s)
    | CallReset => reset (board s)
    end in
  set_calls (calls s ++ [(c, applyingRemote s)]) (set_board bd s).

(** [await update(this.gameRef, patch)] *)
Definition remoteUpdate (p : Patch) (s : State) : State :=
  match gameRef s with
  | Some path => set_writes (writes s ++ [RemoteUpdate path p]) s
  | None => s
  end.

Definition darkDisabled (s : State) : bool :=
  is_role (role s) white || moveDisabled s || applyingRemote s.

Definition lightDisabled (s : State) : bool :=
  is_role (role s) black || moveDisabled s || applyingRemote s.

(** Keep black facing the player; white stays default. *)
Definition orientForRole (s : State) : State :=
  let shouldBeReversed := is_role (role s) black in
  if negb (eqb shouldBeReversed (isReversed s)) then
    set_isReversed shouldBeReversed (callBoard CallReverse s)
  else s.

(** Show winner, freeze UI, and clear local session. *)
Definition handleGameOver (winner : Role) (s : State) : State :=
  let s1 := set_moveDisabled true s in
  let s2 := set_overlayText (toUpperCase winner +:+ " wins by checkmate") s1 in
  let s3 := set_overlayVisible true s2 in
  set_storage (StorageService.clear STORAGE_KEY (storage s3)) s3.

(** Attach the realtime listener to the current ref (replacing an old one). *)
Definition listenForUpdates (s : State) : State :=
  match gameRef s with
  | None => s
  | Some path => set_unsub (Some path) s
  end.

Definition persistSession (s : State) : State :=
  match role s with
  | Some r =>
      set_storage
        (StorageService.save STORAGE_KEY
           {| saved_code := code s; saved_role := r; saved_clientId := clientId s |}
           (storage s)) s
  | None => s
  end.

(** [joinGame], given what [get(this.gameRef)] returned ([None]: the
    snapshot does not exist), in a run where the calls it awaits resolve. *)
Definition joinGame (snap : option GameDoc) (s : State) : State :=
  match role s with
  | Some _ => s
  | None =>
      if bool_decide (code s = EmptyString) then set_statusText "Enter a game code first." s
      else
        let s0 := set_gameRef (Some ("games/" +:+ code s)) s in
        match snap with
        | None => set_gameRef None (set_statusText "Game not found." s0)
        | Some val =>
            let players := playersOf val in
            let whiteTaken := taken (white_slot players) in
            let blackTaken := taken (black_slot players) in
            let finish (s2 : State) : State :=
              let s3 := persistSession s2 in
              let s4 := listenForUpdates s3 in
              let s5 := set_statusText ("Joined game: " +:+ code s4) s4 in
              let s6 := set_moveDisabled true s5 in
              let s7 := set_isReversed false s6 in
              orientForRole s7 in
            if whiteTaken && blackTaken then
              set_gameRef None (set_statusText "This game already has two players." s0)
            else if whiteTaken && negb blackTaken then
              let s1 := set_role (Some black) s0 in
              finish
                (remoteUpdate
                   {| patch_fen := None; patch_pgn := None; patch_turn := None;
                      patch_status := Some live; patch_winner := None;
                      patch_players :=
                        Some {| white_slot := white_slot players;
                                black_slot := Some (clientId s1) |} |} s1)
            else if negb whiteTaken then
              let s1 := set_role (Some white) s0 in
              finish
                (remoteUpdate
                   {| patch_fen := None; patch_pgn := None; patch_turn := None;
                      patch_status := Some waiting; patch_winner := None;
                      patch_players :=
                        Some {| white_slot := Some (clientId s1);
                                black_slot := black_slot players |} |} s1)
            else
              set_gameRef None (set_statusText "Unable to join right now." s0)
        end
  end.

(** [createGame], given the room code that [makeCode] drew, in a run where
    the [set] it awaits resolves. *)
Definition createGame (newCode : string) (s : State) : State :=
  match role s with
  | Some _ => s
  | None =>
      let s1 := set_role (Some white) s in
      let s2 := set_code newCode s1 in
      let s3 := persistSession s2 in
      let s4 := set_chess newChess s3 in
      let s5 := set_gameRef (Some ("games/" +:+ code s4)) s4 in
      let fen := chess_fen (chess s5) in
      let pgn := chess_pgn (chess s5) in
      let s6 :=
        match gameRef s5 with
        | Some path =>
            set_writes
              (writes s5
               ++ [RemoteSet path
                     {| doc_fen := fen; doc_pgn := Some pgn; doc_turn := w;
                        doc_status := Some waiting; doc_winner := None;
                        doc_players :=
                          Some {| white_slot := Some (clientId s5);
                                  black_slot := None |} |}]) s5
        | None => s5
        end in
      let s7 := listenForUpdates s6 in
      let s8 :=
        set_statusText
          ("Game code: " +:+ code s7 +:+ " — share it with your friend") s7 in
      let s9 := set_moveDisabled true s8 in
      let s10 := set_isReversed false s9 in
      orientForRole s10
  end.

(** Reset local UI to the pre-game state (does not delete remote doc). *)
Definition resetLocalUI (s : State) : State :=
  let s1 := set_unsub None s in
  let s2 := set_gameRef None s1 in
  let s3 := set_storage (StorageService.clear STORAGE_KEY (storage s2)) s2 in
  let s4 := set_role None s3 in
  let s5 := set_code EmptyString s4 in
  let s6 := set_statusText "Create a game or join one." s5 in
  let s7 := set_overlayVisible false s6 in
  let s8 := set_overlayText EmptyString s7 in
  let s9 := set_bothJoined false s8 in
  let s10 := set_moveDisabled true s9 in
  let s11 := set_isReversed false s10 in
  let s12 := set_chess newChess s11 in
  let s13 := set_applyingRemote true s12 in
  let s14 := callBoard CallReset s13 in
  set_applyingRemote false s14.

(** [leaveGame], given how [get(this.gameRef)] and, when it is called,
    [update(this.gameRef, ...)] end.  Neither [await] is inside a [try]: a
    rejected call ends the handler there, before [resetLocalUI]. *)
Definition leaveGame (fetched : Settled (option GameDoc)) (updated : Settled unit)
    (s : State) : State :=
  match role s, gameRef s with
  | Some r, Some _ =>
      match fetched with
      | Rejected => s
      | Resolved snap =>
          match snap with
          | Some val =>
              let players := playersOf val in
              let leave (ps : PlayersDoc) :=
                let s1 :=
                  remoteUpdate
                    {| patch_fen := None; patch_pgn := None; patch_turn := None;
                       patch_status := Some waiting; patch_winner := None;
                       patch_players := Some ps |} s in
                match updated with
                | Rejected => s1
                | Resolved _ => resetLocalUI s1
                end in
              if bool_decide (r = white)
                 && bool_decide (white_slot players = Some (clientId s)) then
                leave {| white_slot := None; black_slot := black_slot players |}
              else if bool_decide (r = black)
                      && bool_decide (black_slot players = Some (clientId s)) then
                leave {| white_slot := white_slot players; black_slot := None |}
              else resetLocalUI s
          | None => resetLocalUI s
          end
      end
  | _, _ => resetLocalUI s
  end.

(** What the database holds at a room's path after one more write to it
    (the handlers update a room only after they have fetched or set it). *)
Definition applyWrite (d : option GameDoc) (wr : RemoteWrite) : option GameDoc :=
  match wr with
  | RemoteSet _ doc => Some doc
  | RemoteUpdate _ p => option_map (applyPatch p) d
  end.

(** The writes a handler added to the log, applied to the room. *)
Definition afterHandler (d : option GameDoc) (before after : State) : option GameDoc :=
  fold_left applyWrite (drop (length (writes before)) (writes after)) d.

(** The winner at a checkmate position: the side that is not to move. *)
Definition winnerOf (nextTurn : Turn) : Role :=
  match nextTurn with w => black | b => white end.

(** The guards of [onUserMove] all pass. *)
Definition mayReport (s : State) : Prop :=
  applyingRemote s = false
  /\ is_Some (gameRef s)
  /\ is_Some (role s)
  /\ bothJoined s = true
  /\ moveDisabled s = false.

(** User dragged a piece: trust board FEN, validate, then write to RTDB.
    The handler runs to a [return] or to its [await update(...)]: there it
    has issued the write and gives control back, and what follows the
    [await] is left for the time the write resolves. *)
Definition onUserMoveAwait (s : State) : State * option Continuation :=
  if applyingRemote s || negb (bool_decide (is_Some (gameRef s)))
     || negb (bool_decide (is_Some (role s))) then (s, None)
  else if negb (bothJoined s) || moveDisabled s then (s, None)
  else
    let fenAfter := getFEN (board s) in
    match chess_load (chess s) fenAfter with
    | None =>
        let s1 := set_applyingRemote true s in
        let s2 := callBoard (CallSetFEN (chess_fen (chess s1))) s1 in
        let s3 := set_isReversed false s2 in
        let s4 := orientForRole s3 in
        (set_applyingRemote false s4, None)
    | Some c =>
        let s1 := set_chess c s in
        let pgn := chess_pgn (chess s1) in
        let nextTurn := chess_turn (chess s1) in
        if chess_isCheckmate (chess s1) then
          let winner := winnerOf nextTurn in
          let s2 :=
            remoteUpdate
              {| patch_fen := Some fenAfter; patch_pgn := Some pgn;
                 patch_turn := Some nextTurn; patch_status := Some ended;
                 patch_winner := Some winner; patch_players := None |} s1 in
          (s2, Some (ThenGameOver winner))
        else
          let s2 :=
            remoteUpdate
              {| patch_fen := Some fenAfter; patch_pgn := Some pgn;
                 patch_turn := Some nextTurn; patch_status := Some live;
                 patch_winner := None; patch_players := None |} s1 in
          (s2, Some ThenGate)
    end.

(** The component when [onUserMove] gives control back. *)
Definition onUserMove (s : State) : State := fst (onUserMoveAwait s).


(** How many times [board.reverse()] was called. *)
Definition flips (s : State) : nat :=
  length (List.filter (fun c => match fst c with CallReverse => true | _ => false end) (calls s)).

(** Turn gating of the subscription callback: it is my side to move. *)
Definition myTurn (r : Role) (t : Turn) : bool :=
  match r, t with
  | white, w => true
  | black, b => true
  | _, _ => false
  end.

(** The callback [listenForUpdates] hands to [onValue], block by block.
    First: track presence of both players to enable play. *)
Definition trackPresence (val : GameDoc) (s : State) : State :=
  let players := playersOf val in
  let whitePresent := taken (white_slot players) in
  let blackPresent := taken (black_slot players) in
  set_bothJoined (whitePresent && blackPresent) s.

(** Sync board from server; re-apply black orientation if setFEN reset it. *)
Definition syncBoard (val : GameDoc) (s : State) : State :=
  if bool_decide (doc_fen val = EmptyString) then s
  else
    let s1 := set_applyingRemote true s in
    let s2 := callBoard (CallSetFEN (doc_fen val)) s1 in
    let s3 := set_isReversed false s2 in
    let s4 := orientForRole s3 in
    let s5 := set_applyingRemote false s4 in
    match chess_load (chess s5) (doc_fen val) with
    | Some c => set_chess c s5
    | None => s5
    end.

(** Turn gating: can move only if both joined and it's my side. *)
Definition gateTurn (val : GameDoc) (s : State) : State :=
  match role s with
  | Some r => set_moveDisabled (negb (bothJoined s) || negb (myTurn r (doc_turn val))) s
  | None => set_moveDisabled true s
  end.

(** Game over, or the status line. *)
Definition announce (val : GameDoc) (s : State) : State :=
  match doc_status val, doc_winner val with
  | Some ended, Some winner => handleGameOver winner s
  | _, _ =>
      if negb (bothJoined s) then
        set_statusText
          (if is_role (role s) white
           then "Game code: " +:+ code s +:+ " — share it with your friend"
           else "Waiting for the host…") s
      else
        set_statusText
          ("Game: " +:+ code s +:+ " — "
           +:+ (match doc_turn val with w => "White" | b => "Black" end)
           +:+ " to move") s
  end.

(** The callback, given [snap.val()] ([None]: the room holds no value). *)
Definition onSnapshot (snap : option GameDoc) (s : State) : State :=
  match snap with
  | None => s
  | Some val => announce val (gateTurn val (syncBoard val (trackPresence val s)))
  end.

(** Generate or reuse a stable client id, given the id the random source
    would produce. *)
Definition ensureClientId (fresh : string) (ls : LocalStorage) : string :=
  match StorageService.load STORAGE_KEY ls with
  | Some saved =>
      if bool_decide (saved_clientId saved = EmptyString) then fresh
      else saved_clientId saved
  | None => fresh
  end.

End WithCollaborators.
End OnlineGame.

(** ** Test doubles for the collaborators

    Small executable stand-ins, used to run the handlers on concrete
    inputs.  They agree with the libraries on the inputs used below. *)

Module Doubles.

Fixpoint split_on (sep : ascii) (s : string) : list string :=
  match s with
  | EmptyString => [EmptyString]
  | String c rest =>
      if bool_decide (c = sep) then EmptyString :: split_on sep rest
      else match split_on sep rest with
           | hd :: tl => String c hd :: tl
           | [] => [String c EmptyString]
           end
  end.

(** Squares a rank character stands for; [None] for a foreign character. *)
Definition squares (c : ascii) : option nat :=
  let n := nat_of_ascii c in
  if (49 <=? n)%nat && (n <=? 56)%nat then Some (n - 48)
  else if existsb (fun p => bool_decide (p = c)) (list_ascii_of_string "pnbrqkPNBRQK")
       then Some 1
       else None.

Fixpoint rank_width (s : string) : option nat :=
  match s with
  | EmptyString => Some 0
  | String c rest =>
      match squares c, rank_width rest with
      | Some n, Some m => Some (n + m)
      | _, _ => None
      end
  end.

Definition count_char (c : ascii) (s : string) : nat :=
  length (List.filter (fun x => bool_decide (x = c)) (list_ascii_of_string s)).

(** A subset of chess.js's [validateFen]: six fields, a side to move,
    eight ranks of eight squares, one king each. *)
Definition valid_fen (s : string) : bool :=
  match split_on " "%char s with
  | [placement; side; _; _; _; _] =>
      let ranks := split_on "/"%char placement in
      (bool_decide (side = "w") || bool_decide (side = "b"))
      && bool_decide (length ranks = 8)
      && forallb (fun r => bool_decide (rank_width r = Some 8)) ranks
      && bool_decide (count_char "K"%char placement = 1)
      && bool_decide (count_char "k"%char placement = 1)
  | _ => false
  end.

Definition side_of (s : string) : Turn :=
  match split_on " "%char s with
  | _ :: side :: _ => if bool_decide (side = "b") then b else w
  | _ => w
  end.

Definition start_fen : string :=
  "rnbqkbnr/pppppppp/8/8/8/8/PPPPPPPP/RNBQKBNR w KQkq - 0 1".

(** After 1. f3 e5 2. g4 Qh4#: white is to move and is mated. *)
Definition fools_mate_fen : string :=
  "rnb1kbnr/pppp1ppp/8/4p3/6Pq/5P2/PPPPP2P/RNBQKBNR w KQkq - 1 3".

(** After 1. e4 e5 2. Qh5 Nc6 3. Bc4 Nf6 4. Qxf7#: black is to move and is mated. *)
Definition scholars_mate_fen : string :=
  "r1bqkb1r/pppp1Qpp/2n2n2/4p3/2B1P3/8/PPPP1PPP/RNB1K1NR b KQkq - 0 4".

(** The position before white's mating move in the scholar's mate. *)
Definition before_mate_fen : string :=
  "r1bqkb1r/pppp1ppp/2n2n2/4p2Q/2B1P3/8/PPPP1PPP/RNB1K1NR w KQkq - 4 4".

(** The checkmates this double knows. *)
Definition known_mates : list string := [fools_mate_fen; scholars_mate_fen].

(** [fen()] of the double: the position it holds (the empty string is not a
    position [load] can produce; the start position stands in for it). *)
Definition fen_of (c : string) : string :=
  match c with
  | EmptyString => start_fen
  | String _ _ => c
  end.

#[export] Instance TableEngine : RulesEngine := {|
  Chess := string;
  newChess := start_fen;
  chess_load := fun _ s => if valid_fen s then Some s else None;
  chess_turn := side_of;
  chess_isCheckmate := fun c => existsb (fun m => bool_decide (m = c)) known_mates;
  chess_fen := fen_of;
  chess_pgn := fun _ => EmptyString;
  chess_fen_nonempty := ltac:(intros c; destruct c; discriminate);
|}.

Record View := { shown : string; flipped : bool }.

(** [setFEN] of the double: a position is drawn from white's side; the empty
    string is refused, and the orientation and what [getFEN] reports stay as
    they are. *)
Definition drawn (v : View) (f : string) : View :=
  match f with
  | EmptyString => v
  | String _ _ => {| shown := f; flipped := false |}
  end.

#[export] Instance PlainBoard : BoardWidget := {|
  Board := View;
  getFEN := shown;
  setFEN := drawn;
  reverse := fun v => {| shown := shown v; flipped := negb (flipped v) |};
  reset := fun _ => {| shown := start_fen; flipped := false |};
  reverted := flipped;
  reverted_reverse := fun _ => eq_refl;
  reverted_setFEN :=
    ltac:(intros v f Hf; destruct f; [exfalso; apply Hf; reflexivity | reflexivity]);
  reverted_setFEN_empty := fun _ => eq_refl;
  reverted_reset := fun _ => eq_refl;
|}.

Definition dq : ascii := "034"%char.

Definition quoted (s : string) : string := String dq (s +:+ String dq EmptyString).

#[export] Instance SavedStateCodec : JsonCodec GameHost.SavedState := {|
  stringify := fun st => "{" +:+ quoted "fen" +:+ ":" +:+ quoted (GameHost.fen st) +:+ "}";
  parse := fun raw =>
    match split_on dq raw with
    | ["{"; "fen"; ":"; f; "}"] => Some {| GameHost.fen := f |}
    | _ => None
    end;
  parse_empty := eq_refl;
|}.

Definition role_name (r : Role) : string :=
  match r with white => "white" | black => "black" end.

#[export] Instance OnlineLocalStateCodec : JsonCodec OnlineGame.OnlineLocalState := {|
  stringify := fun st =>
    "{" +:+ quoted "code" +:+ ":" +:+ quoted (OnlineGame.saved_code st)
    +:+ "," +:+ quoted "role" +:+ ":" +:+ quoted (role_name (OnlineGame.saved_role st))
    +:+ "," +:+ quoted "clientId" +:+ ":" +:+ quoted (OnlineGame.saved_clientId st) +:+ "}";
  parse := fun raw =>
    match split_on dq raw with
    | ["{"; "code"; ":"; c; ","; "role"; ":"; r; ","; "clientId"; ":"; i; "}"] =>
        if bool_decide (r = "white") then
          Some {| OnlineGame.saved_code := c; OnlineGame.saved_role := white;
                  OnlineGame.saved_clientId := i |}
        else if bool_decide (r = "black") then
          Some {| OnlineGame.saved_code := c; OnlineGame.saved_role := black;
                  OnlineGame.saved_clientId := i |}
        else None
    | _ => None
    end;
  parse_empty := eq_refl;
|}.

(** An empty store with room for [q] characters. *)
Definition emptyStore (q : nat) : LocalStorage :=
  {| items := ∅; denied := false; quota := q |}.

End Doubles.

(** ** Fixtures: concrete states and events over the doubles *)

Module Fixtures.
Import Doubles.

Definition here : string := "http://localhost:4200".

(** The position after 1. f3 e5 2. g4: black to move, mate in one. *)
Definition before_fools_mate_fen : string :=
  "rnbqkbnr/pppp1ppp/8/4p3/6P1/5P2/PPPPP2P/RNBQKBNR b KQkq - 0 2".

(** A host with two loaded frames (windows 1 and 2) holding position [c]. *)
Definition hostAt (c : string) : GameHost.State :=
  {| GameHost.chess := c; GameHost.currentTurnText := EmptyString;
     GameHost.overlayVisible := false; GameHost.overlayText := EmptyString;
     GameHost.origin := here; GameHost.window1 := Some 1;
     GameHost.window2 := Some 2; GameHost.storage := emptyStore 4096;
     GameHost.posted := [] |}.

(** A same-origin message from window [src]. *)
Definition from (src : Window) (m : WireMessage) : MessageEvent :=
  {| ev_origin := here; ev_source := Some src; ev_data := Msg m |}.

(** The handlers over the doubles. *)
Definition hostOnMessage : MessageEvent -> GameHost.State -> GameHost.State :=
  GameHost.onMessage.

Definition joinGame : option OnlineGame.GameDoc -> OnlineGame.State -> OnlineGame.State :=
  OnlineGame.joinGame.

Definition onUserMove : OnlineGame.State -> OnlineGame.State :=
  OnlineGame.onUserMove.

(** The host after black (window 2) reported the fool's mate. *)
Definition hostMated : GameHost.State :=
  hostOnMessage (from 2 (BOARD_UPDATE fools_mate_fen)) (hostAt before_fools_mate_fen).

(** A child component in the state [ngAfterViewInit] leaves it in. *)
Definition child : BoardEmbed.State :=
  BoardEmbed.ngAfterViewInit
    (BoardEmbed.init {| shown := start_fen; flipped := false |} here).

(** The report that arrives after the game is over: white (window 1), the
    mated side, reports the start position. *)
Definition lateUpdate : MessageEvent := from 1 (BOARD_UPDATE start_fen).

(** A same-origin message from the parent. *)
Definition fromParent (m : WireMessage) : MessageEvent :=
  {| ev_origin := here; ev_source := Some 0; ev_data := Msg m |}.

(** An online component in a live room, as [role], with the view showing [f]. *)
Definition playerAt (r : Role) (c f : string) : OnlineGame.State :=
  {| OnlineGame.code := "AB12CD"; OnlineGame.statusText := EmptyString;
     OnlineGame.overlayVisible := false; OnlineGame.overlayText := EmptyString;
     OnlineGame.chess := c; OnlineGame.role := Some r;
     OnlineGame.applyingRemote := false; OnlineGame.bothJoined := true;
     OnlineGame.moveDisabled := false;
     OnlineGame.isReversed := bool_decide (r = black);
     OnlineGame.gameRef := Some "games/AB12CD"; OnlineGame.unsub := Some "games/AB12CD";
     OnlineGame.clientId := "tab-1";
     OnlineGame.board := {| shown := f; flipped := bool_decide (r = black) |};
     OnlineGame.calls := []; OnlineGame.storage := emptyStore 4096;
     OnlineGame.writes := [] |}.

(** An online component before create/join, with the code typed in. *)
Definition visitor (id : string) : OnlineGame.State :=
  {| OnlineGame.code := "AB12CD"; OnlineGame.statusText := "Create a game or join one.";
     OnlineGame.overlayVisible := false; OnlineGame.overlayText := EmptyString;
     OnlineGame.chess := start_fen; OnlineGame.role := None;
     OnlineGame.applyingRemote := false; OnlineGame.bothJoined := false;
     OnlineGame.moveDisabled := true; OnlineGame.isReversed := false;
     OnlineGame.gameRef := None; OnlineGame.unsub := None;
     OnlineGame.clientId := id;
     OnlineGame.board := {| shown := start_fen; flipped := false |};
     OnlineGame.calls := []; OnlineGame.storage := emptyStore 4096;
     OnlineGame.writes := [] |}.

(** A room document with the given players, at the start position. *)
Definition room (ps : OnlineGame.PlayersDoc) (st : OnlineGame.Status) : OnlineGame.GameDoc :=
  {| OnlineGame.doc_fen := start_fen; OnlineGame.doc_pgn := Some EmptyString;
     OnlineGame.doc_turn := w; OnlineGame.doc_status := Some st;
     OnlineGame.doc_winner := None; OnlineGame.doc_players := Some ps |}.

(** The host's storage service over the doubles. *)
Definition storageLoad : LocalStorage -> option GameHost.SavedState :=
  StorageService.load GameHost.STORAGE_KEY.

Definition storageSave : GameHost.SavedState -> LocalStorage -> LocalStorage :=
  StorageService.save GameHost.STORAGE_KEY.

Definition toJson : GameHost.SavedState -> string := stringify.

Definition fromJson : string -> option GameHost.SavedState := parse.

Definition savedStart : GameHost.SavedState := {| GameHost.fen := start_fen |}.

(** A room whose host left: white is free, black is still held by tab-2. *)
Definition vacatedRoom : OnlineGame.GameDoc :=
  room {| OnlineGame.white_slot := None; OnlineGame.black_slot := Some "tab-2" |}
       OnlineGame.waiting.

(** How a room gets there: tab-0 creates it, tab-2 joins, tab-0 leaves. *)
Definition created : OnlineGame.State :=
  OnlineGame.createGame "AB12CD" (visitor "tab-0").

Definition roomCreated : option OnlineGame.GameDoc :=
  OnlineGame.afterHandler None (visitor "tab-0") created.

Definition roomJoined : option OnlineGame.GameDoc :=
  OnlineGame.afterHandler roomCreated (visitor "tab-2")
    (joinGame roomCreated (visitor "tab-2")).

Definition roomLeft : option OnlineGame.GameDoc :=
  OnlineGame.afterHandler roomJoined created
    (OnlineGame.leaveGame (OnlineGame.Resolved roomJoined) (OnlineGame.Resolved tt) created).

(** tab-1 joins the vacated room. *)
Definition rejoined : OnlineGame.State := joinGame (Some vacatedRoom) (visitor "tab-1").

(** What tab-1 writes when it joins the vacated room. *)
Definition rejoinPatch : OnlineGame.Patch :=
  {| OnlineGame.patch_fen := None; OnlineGame.patch_pgn := None;
     OnlineGame.patch_turn := None;
     OnlineGame.patch_status := Some OnlineGame.waiting;
     OnlineGame.patch_winner := None;
     OnlineGame.patch_players :=
       Some {| OnlineGame.white_slot := Some "tab-1";
               OnlineGame.black_slot := Some "tab-2" |} |}.

(** White, in a live game, has just dragged the queen to f7. *)
Definition whiteMates : OnlineGame.State :=
  playerAt white before_mate_fen scholars_mate_fen.

(** White, in a live game, with the view reporting a position whose first
    rank is one square short. *)
Definition whiteBlunders : OnlineGame.State :=
  playerAt white start_fen "rnbqkbnr/pppppppp/8/8/8/8/PPPPPPPP/RNBQKBN b KQkq - 0 1".

(** The position after 1. e4: black to move. *)
Definition after_e4_fen : string :=
  "rnbqkbnr/pppppppp/8/8/4P3/8/PPPP1PPP/RNBQKBNR b KQkq - 0 1".

(** A view as the widget first draws it, and the component around it. *)
Definition startView : View := {| shown := start_fen; flipped := false |}.

Definition childRun (inputs : list BoardEmbed.Input) : BoardEmbed.State :=
  BoardEmbed.run inputs (BoardEmbed.init startView here).

(** Black's child is set up, then the board is reset. *)
Definition blackSession : list BoardEmbed.Input :=
  [BoardEmbed.ViewInit;
   BoardEmbed.Message (fromParent (ROLE_ASSIGN black));
   BoardEmbed.Message (fromParent (SYNC_STATE start_fen None));
   BoardEmbed.Message (fromParent RESET)].

(** White's child is given its role and the turn. *)
Definition whiteToMove : list BoardEmbed.Input :=
  [BoardEmbed.Message (fromParent (ROLE_ASSIGN white));
   BoardEmbed.Message (fromParent (TURN w))].

(** A live room after 1. e4, and the room after the scholar's mate. *)
Definition bothPlayers : OnlineGame.PlayersDoc :=
  {| OnlineGame.white_slot := Some "tab-1"; OnlineGame.black_slot := Some "tab-2" |}.

Definition liveRoom : OnlineGame.GameDoc :=
  {| OnlineGame.doc_fen := after_e4_fen; OnlineGame.doc_pgn := Some EmptyString;
     OnlineGame.doc_turn := b; OnlineGame.doc_status := Some OnlineGame.live;
     OnlineGame.doc_winner := None; OnlineGame.doc_players := Some bothPlayers |}.

Definition endedRoom : OnlineGame.GameDoc :=
  {| OnlineGame.doc_fen := scholars_mate_fen; OnlineGame.doc_pgn := Some EmptyString;
     OnlineGame.doc_turn := b; OnlineGame.doc_status := Some OnlineGame.ended;
     OnlineGame.doc_winner := Some white; OnlineGame.doc_players := Some bothPlayers |}.

(** Black, waiting for white's first move. *)
Definition blackWaits : OnlineGame.State := playerAt black start_fen start_fen.

(** White has dragged the king's pawn to e4. *)
Definition whiteOpens : OnlineGame.State := playerAt white start_fen after_e4_fen.

(** A freshly loaded host page that finds the store the mated host left. *)
Definition reloadedHost : GameHost.State :=
  {| GameHost.chess := start_fen; GameHost.currentTurnText := EmptyString;
     GameHost.overlayVisible := false; GameHost.overlayText := EmptyString;
     GameHost.origin := here; GameHost.window1 := Some 1;
     GameHost.window2 := Some 2; GameHost.storage := GameHost.storage hostMated;
     GameHost.posted := [] |}.

Definition hostAfterViewInit : GameHost.State -> GameHost.State :=
  GameHost.ngAfterViewInit.

End Fixtures.

(** * Properties *)

(** ** Local Sync Host *)

Section HostFacts.
Context {E : RulesEngine} {C : JsonCodec GameHost.SavedState}.

Lemma posted_postTo (t : option Window) (m : WireMessage) (s : GameHost.State) :
  GameHost.posted (GameHost.postTo t m s)
  = GameHost.posted s ++ match t with Some x => [(x, m)] | None => [] end.
Proof. destruct t; simpl; [reflexivity | symmetry; apply app_nil_r]. Qed.

Lemma posted_postToBoth (m : WireMessage) (s : GameHost.State) :
  GameHost.posted (GameHost.postToBoth m s)
  = GameHost.posted s ++ GameHost.bothChildren m s.
Proof.
  unfold GameHost.postToBoth, GameHost.bothChildren.
  rewrite !posted_postTo. symmetry. apply app_assoc.
Qed.

Lemma frame_postTo (t : option Window) (m : WireMessage) (s : GameHost.State) :
  GameHost.chess (GameHost.postTo t m s) = GameHost.chess s
  /\ GameHost.storage (GameHost.postTo t m s) = GameHost.storage s
  /\ GameHost.window1 (GameHost.postTo t m s) = GameHost.window1 s
  /\ GameHost.window2 (GameHost.postTo t m s) = GameHost.window2 s.
Proof. destruct t; repeat split. Qed.

Lemma frame_postToBoth (m : WireMessage) (s : GameHost.State) :
  GameHost.chess (GameHost.postToBoth m s) = GameHost.chess s
  /\ GameHost.storage (GameHost.postToBoth m s) = GameHost.storage s
  /\ GameHost.window1 (GameHost.postToBoth m s) = GameHost.window1 s
  /\ GameHost.window2 (GameHost.postToBoth m s) = GameHost.window2 s.
Proof.
  unfold GameHost.postToBoth.
  destruct (frame_postTo (GameHost.window2 s) m (GameHost.postTo (GameHost.window1 s) m s))
    as (-> & -> & -> & ->).
  apply frame_postTo.
Qed.

Lemma frame_broadcastTurn (s : GameHost.State) :
  GameHost.chess (GameHost.broadcastTurn s) = GameHost.chess s
  /\ GameHost.storage (GameHost.broadcastTurn s) = GameHost.storage s
  /\ GameHost.posted (GameHost.broadcastTurn s)
     = GameHost.posted s ++ GameHost.bothChildren (TURN (chess_turn (GameHost.chess s))) s.
Proof.
  unfold GameHost.broadcastTurn.
  match goal with
  | |- context [GameHost.postToBoth ?m ?x] =>
      destruct (frame_postToBoth m x) as (-> & -> & _); rewrite (posted_postToBoth m x)
  end.
  repeat split.
Qed.

Lemma off_turn_unchanged (s : GameHost.State) (e : MessageEvent) (f : string) :
  ev_data e = Msg (BOARD_UPDATE f) ->
  (forall src, ev_source e = Some src -> GameHost.currentTurnWindow s <> Some src) ->
  GameHost.onMessage e s = s.
Proof.
  intros Hdata Hoff. unfold GameHost.onMessage.
  destruct (negb (bool_decide (ev_origin e = GameHost.origin s))); [reflexivity|].
  destruct (ev_source e) as [src|] eqn:Hsrc; [|reflexivity].
  rewrite Hdata.
  rewrite bool_decide_eq_false_2; [reflexivity|].
  intros Heq. apply (Hoff src eq_refl). symmetry. exact Heq.
Qed.

Lemma rejected_unchanged (s : GameHost.State) (e : MessageEvent) (f : string) :
  ev_data e = Msg (BOARD_UPDATE f) ->
  chess_load (GameHost.chess s) f = None ->
  GameHost.onMessage e s = s.
Proof.
  intros Hdata Hrej. unfold GameHost.onMessage.
  destruct (negb (bool_decide (ev_origin e = GameHost.origin s))); [reflexivity|].
  destruct (ev_source e) as [src|]; [|reflexivity].
  rewrite Hdata, Hrej.
  destruct (negb (bool_decide (Some src = GameHost.currentTurnWindow s))); reflexivity.
Qed.

(** An accepted report that gives checkmate: the new position is loaded and
    GAME_OVER, with the side not to move as winner, goes to both children. *)
Lemma accepted_checkmate (s : GameHost.State) (e : MessageEvent)
    (f : string) (src : Window) (c : Chess) :
  ev_origin e = GameHost.origin s ->
  ev_source e = Some src ->
  ev_data e = Msg (BOARD_UPDATE f) ->
  GameHost.currentTurnWindow s = Some src ->
  chess_load (GameHost.chess s) f = Some c ->
  chess_isCheckmate c = true ->
  GameHost.chess (GameHost.onMessage e s) = c
  /\ GameHost.posted (GameHost.onMessage e s)
     = GameHost.posted s
       ++ GameHost.bothChildren
            (GAME_OVER (match chess_turn c with w => black | b => white end) "checkmate") s.
Proof.
  intros Horg Hsrc Hdata Hturn Hload Hmate. unfold GameHost.onMessage.
  rewrite bool_decide_eq_true_2 by exact Horg. simpl.
  rewrite Hsrc, Hdata, Hturn.
  rewrite bool_decide_eq_true_2 by reflexivity. simpl.
  rewrite Hload. simpl. rewrite Hmate. simpl.
  split; [apply frame_postToBoth|].
  rewrite posted_postToBoth. simpl.
  unfold GameHost.winnerOf, GameHost.bothChildren. simpl.
  destruct (chess_turn c); reflexivity.
Qed.

Lemma wiring_postTo (t : option Window) (m : WireMessage) (s : GameHost.State) :
  GameHost.wiring (GameHost.postTo t m s) = GameHost.wiring s.
Proof. destruct t; reflexivity. Qed.

Lemma wiring_postToBoth (m : WireMessage) (s : GameHost.State) :
  GameHost.wiring (GameHost.postToBoth m s) = GameHost.wiring s.
Proof. unfold GameHost.postToBoth. rewrite !wiring_postTo. reflexivity. Qed.

Lemma wiring_broadcastTurn (s : GameHost.State) :
  GameHost.wiring (GameHost.broadcastTurn s) = GameHost.wiring s.
Proof. unfold GameHost.broadcastTurn. rewrite wiring_postToBoth. reflexivity. Qed.

(** No message changes which windows the host talks to. *)
Lemma wiring_kept (e : MessageEvent) (s : GameHost.State) :
  GameHost.wiring (GameHost.onMessage e s) = GameHost.wiring s.
Proof.
  unfold GameHost.onMessage.
  destruct (negb _); [reflexivity|].
  destruct (ev_source e) as [src|]; [|reflexivity].
  destruct (ev_data e) as [|[]]; try reflexivity.
  - rewrite wiring_broadcastTurn. unfold GameHost.syncStateTo.
    rewrite !wiring_postTo. reflexivity.
  - rewrite wiring_broadcastTurn. unfold GameHost.syncStateTo.
    rewrite !wiring_postTo. reflexivity.
  - destruct (negb _); [reflexivity|].
    destruct (chess_load _ _); [|reflexivity].
    destruct (chess_isCheckmate _).
    + change (GameHost.wiring (GameHost.set_overlayVisible true ?x))
        with (GameHost.wiring x).
      change (GameHost.wiring (GameHost.set_overlayText ?t ?x))
        with (GameHost.wiring x).
      rewrite wiring_postToBoth. reflexivity.
    + rewrite wiring_broadcastTurn, wiring_postTo. reflexivity.
Qed.

(** C1: a BOARD_UPDATE whose sender is not the window mapped to the side to
    move leaves the whole host state as it was: position, persisted storage
    and the list of posted messages included. *)
Theorem board_update_off_turn_ignored (s : GameHost.State) (e : MessageEvent) (f : string) :
  ev_data e = Msg (BOARD_UPDATE f) ->
  (forall src, ev_source e = Some src -> GameHost.currentTurnWindow s <> Some src) ->
  GameHost.onMessage e s = s
  /\ GameHost.chess (GameHost.onMessage e s) = GameHost.chess s
  /\ GameHost.storage (GameHost.onMessage e s) = GameHost.storage s
  /\ GameHost.posted (GameHost.onMessage e s) = GameHost.posted s.
Proof.
  intros Hdata Hoff.
  rewrite (off_turn_unchanged s e f Hdata Hoff). repeat split.
Qed.

(** C2: a BOARD_UPDATE whose position the rules engine rejects leaves the
    whole host state as it was: nothing is loaded, saved or posted. *)
Theorem board_update_rejected_ignored (s : GameHost.State) (e : MessageEvent) (f : string) :
  ev_data e = Msg (BOARD_UPDATE f) ->
  chess_load (GameHost.chess s) f = None ->
  GameHost.onMessage e s = s
  /\ GameHost.chess (GameHost.onMessage e s) = GameHost.chess s
  /\ GameHost.storage (GameHost.onMessage e s) = GameHost.storage s
  /\ GameHost.posted (GameHost.onMessage e s) = GameHost.posted s.
Proof.
  intros Hdata Hrej.
  rewrite (rejected_unchanged s e f Hdata Hrej). repeat split.
Qed.

End HostFacts.

Lemma board_update_off_turn_ignored_witness :
  GameHost.currentTurnWindow (Fixtures.hostAt Doubles.start_fen) = Some 1
  /\ Fixtures.hostOnMessage (Fixtures.from 2 (BOARD_UPDATE Doubles.fools_mate_fen))
       (Fixtures.hostAt Doubles.start_fen)
     = Fixtures.hostAt Doubles.start_fen.
Proof.
  split; [reflexivity|].
  apply (board_update_off_turn_ignored
           (Fixtures.hostAt Doubles.start_fen)
           (Fixtures.from 2 (BOARD_UPDATE Doubles.fools_mate_fen))
           Doubles.fools_mate_fen).
  - reflexivity.
  - intros src Hsrc. injection Hsrc as <-. vm_compute. discriminate.
Defined.

Lemma board_update_rejected_ignored_witness :
  chess_load (GameHost.chess (Fixtures.hostAt Doubles.start_fen)) "8/8/8 w" = None
  /\ Fixtures.hostOnMessage (Fixtures.from 1 (BOARD_UPDATE "8/8/8 w"))
       (Fixtures.hostAt Doubles.start_fen)
     = Fixtures.hostAt Doubles.start_fen.
Proof.
  split; [vm_compute; reflexivity|].
  apply (board_update_rejected_ignored
           (Fixtures.hostAt Doubles.start_fen)
           (Fixtures.from 1 (BOARD_UPDATE "8/8/8 w")) "8/8/8 w").
  - reflexivity.
  - vm_compute. reflexivity.
Defined.

(** ** Embedded Board Controller *)

Section EmbedFacts.
Context {W : BoardWidget}.

Lemma ensureOrientation_frame (s : BoardEmbed.State) :
  BoardEmbed.role (BoardEmbed.ensureOrientation s) = BoardEmbed.role s
  /\ BoardEmbed.moveDisabled (BoardEmbed.ensureOrientation s) = BoardEmbed.moveDisabled s
  /\ BoardEmbed.applyingRemote (BoardEmbed.ensureOrientation s) = BoardEmbed.applyingRemote s
  /\ BoardEmbed.origin (BoardEmbed.ensureOrientation s) = BoardEmbed.origin s.
Proof.
  unfold BoardEmbed.ensureOrientation.
  destruct (negb _); repeat split.
Qed.

Lemma ensureOrientation_flag (s : BoardEmbed.State) :
  BoardEmbed.isReversed (BoardEmbed.ensureOrientation s) = is_role (BoardEmbed.role s) black.
Proof.
  unfold BoardEmbed.ensureOrientation.
  destruct (is_role (BoardEmbed.role s) black) eqn:Hr,
           (BoardEmbed.isReversed s) eqn:Hf; simpl; congruence.
Qed.

Lemma ensureOrientation_idem (s : BoardEmbed.State) :
  BoardEmbed.ensureOrientation (BoardEmbed.ensureOrientation s)
  = BoardEmbed.ensureOrientation s.
Proof.
  unfold BoardEmbed.ensureOrientation at 1.
  rewrite ensureOrientation_flag.
  destruct (ensureOrientation_frame s) as (-> & _).
  rewrite eqb_reflx. reflexivity.
Qed.

Lemma ensureOrientation_reverted (s : BoardEmbed.State) :
  BoardEmbed.isReversed s = reverted (BoardEmbed.board s) ->
  reverted (BoardEmbed.board (BoardEmbed.ensureOrientation s))
  = is_role (BoardEmbed.role s) black.
Proof.
  intros Hsync. unfold BoardEmbed.ensureOrientation.
  destruct (is_role (BoardEmbed.role s) black) eqn:Hr,
           (BoardEmbed.isReversed s) eqn:Hf; simpl;
    rewrite ?reverted_reverse, <- ?Hsync; reflexivity.
Qed.

Lemma ensureOrientation_flips (s : BoardEmbed.State) :
  BoardEmbed.flips (BoardEmbed.ensureOrientation s)
  = BoardEmbed.flips s
    + (if eqb (is_role (BoardEmbed.role s) black) (BoardEmbed.isReversed s) then 0 else 1).
Proof.
  unfold BoardEmbed.ensureOrientation, BoardEmbed.flips.
  destruct (eqb _ _); simpl; [lia|].
  rewrite List.filter_app, length_app. reflexivity.
Qed.

Lemma onMessage_roleless_disabled (e : MessageEvent) (s : BoardEmbed.State) :
  BoardEmbed.roleless_disabled s -> BoardEmbed.roleless_disabled (BoardEmbed.onMessage e s).
Proof.
  unfold BoardEmbed.roleless_disabled, BoardEmbed.onMessage. intros Inv.
  destruct (negb _); [exact Inv|].
  destruct (ev_data e) as [|[]]; try exact Inv; simpl.
  - destruct (ensureOrientation_frame
                (BoardEmbed.set_role (Some role) s)) as (-> & _). discriminate.
  - match goal with
    | |- context [BoardEmbed.ensureOrientation ?x] =>
        destruct (ensureOrientation_frame x) as (-> & -> & _)
    end. exact Inv.
  - destruct (BoardEmbed.role s) eqn:Hr; [simpl; congruence | intros _; apply Inv; reflexivity].
  - match goal with
    | |- context [BoardEmbed.ensureOrientation ?x] =>
        destruct (ensureOrientation_frame x) as (-> & _)
    end. simpl. intros ->. reflexivity.
  - reflexivity.
Qed.

Lemma run_roleless_disabled (inputs : list BoardEmbed.Input) (s : BoardEmbed.State) :
  BoardEmbed.roleless_disabled s -> BoardEmbed.roleless_disabled (BoardEmbed.run inputs s).
Proof.
  revert s. induction inputs as [|i inputs IH]; intros s Inv; [exact Inv|].
  apply IH. destruct i; simpl.
  - apply onMessage_roleless_disabled, Inv.
  - unfold BoardEmbed.onUserMove. destruct (BoardEmbed.applyingRemote s); exact Inv.
  - exact Inv.
Qed.

(** C8: a TURN message that passes the same-origin guard is ignored while
    the role is unset, and the state is then unchanged; moves are disabled
    in every state the component can reach without a role; with a role, moves
    are enabled afterwards iff the announced turn is that role's side. *)
Theorem turn_message_gates_moves (s : BoardEmbed.State) (e : MessageEvent) (t : Turn) :
  ev_origin e = BoardEmbed.origin s ->
  ev_data e = Msg (TURN t) ->
  (BoardEmbed.role s = None -> BoardEmbed.onMessage e s = s)
  /\ (forall bd org inputs,
        s = BoardEmbed.run inputs (BoardEmbed.init bd org) ->
        BoardEmbed.role s = None ->
        BoardEmbed.moveDisabled s = true
        /\ BoardEmbed.moveDisabled (BoardEmbed.onMessage e s) = true)
  /\ (forall r,
        BoardEmbed.role s = Some r ->
        (BoardEmbed.moveDisabled (BoardEmbed.onMessage e s) = false
         <-> (r = white /\ t = w) \/ (r = black /\ t = b))
        /\ BoardEmbed.role (BoardEmbed.onMessage e s) = Some r
        /\ BoardEmbed.board (BoardEmbed.onMessage e s) = BoardEmbed.board s
        /\ BoardEmbed.sent (BoardEmbed.onMessage e s) = BoardEmbed.sent s).
Proof.
  intros Horg Hdata.
  assert (Hstep : BoardEmbed.onMessage e s
                  = match BoardEmbed.role s with
                    | None => s
                    | Some r => BoardEmbed.set_moveDisabled (negb (BoardEmbed.isMyTurn r t)) s
                    end).
  { unfold BoardEmbed.onMessage.
    rewrite bool_decide_eq_true_2 by exact Horg. simpl. rewrite Hdata. reflexivity. }
  rewrite Hstep. split; [|split].
  - intros ->. reflexivity.
  - intros bd org inputs -> Hnone. rewrite Hnone.
    assert (Hinv : BoardEmbed.moveDisabled
                     (BoardEmbed.run inputs (BoardEmbed.init bd org)) = true).
    { apply (run_roleless_disabled inputs (BoardEmbed.init bd org)); [|exact Hnone].
      intros _. reflexivity. }
    split; exact Hinv.
  - intros r Hr. rewrite Hr. simpl. repeat split; try reflexivity; try exact Hr.
    + destruct r, t; simpl; intros Hen; try discriminate; [left | right]; split; reflexivity.
    + intros [[-> ->] | [-> ->]]; reflexivity.
Qed.

End EmbedFacts.

Lemma turn_message_gates_moves_witness :
  ev_origin (Fixtures.fromParent (TURN w))
  = BoardEmbed.origin
      (BoardEmbed.onMessage (Fixtures.fromParent (ROLE_ASSIGN white)) Fixtures.child)
  /\ BoardEmbed.onMessage (Fixtures.fromParent (TURN w)) Fixtures.child = Fixtures.child
  /\ BoardEmbed.moveDisabled
       (BoardEmbed.onMessage (Fixtures.fromParent (TURN w))
          (BoardEmbed.onMessage (Fixtures.fromParent (ROLE_ASSIGN white)) Fixtures.child))
     = false.
Proof.
  split; [reflexivity|]. split.
  - destruct (turn_message_gates_moves Fixtures.child
                (Fixtures.fromParent (TURN w)) w eq_refl eq_refl) as (Hnone & _).
    apply Hnone. reflexivity.
  - destruct (turn_message_gates_moves
                (BoardEmbed.onMessage (Fixtures.fromParent (ROLE_ASSIGN white)) Fixtures.child)
                (Fixtures.fromParent (TURN w)) w eq_refl eq_refl) as (_ & _ & Hset).
    destruct (Hset white eq_refl) as (Hiff & _).
    apply Hiff. left. split; reflexivity.
Defined.

(** ** Offline mode: host and children together *)

Section OfflineFacts.
Context {E : RulesEngine} {W : BoardWidget} {C : JsonCodec GameHost.SavedState}.

Lemma embed_origin_kept (e : MessageEvent) (s : BoardEmbed.State) :
  BoardEmbed.origin (BoardEmbed.onMessage e s) = BoardEmbed.origin s.
Proof.
  unfold BoardEmbed.onMessage.
  destruct (negb _); [reflexivity|].
  destruct (ev_data e) as [|[]]; try reflexivity; simpl.
  - apply (ensureOrientation_frame (BoardEmbed.set_role (Some role) s)).
  - match goal with
    | |- context [BoardEmbed.ensureOrientation ?x] =>
        destruct (ensureOrientation_frame x) as (_ & _ & _ & ->)
    end. reflexivity.
  - destruct (BoardEmbed.role s); reflexivity.
  - match goal with
    | |- context [BoardEmbed.ensureOrientation ?x] =>
        destruct (ensureOrientation_frame x) as (_ & _ & _ & ->)
    end. reflexivity.
Qed.

(** ROLE_ASSIGN stores the role and leaves the flag saying whether it is black. *)
Lemma role_assign_effect (e : MessageEvent) (s : BoardEmbed.State) (r : Role) :
  ev_origin e = BoardEmbed.origin s ->
  ev_data e = Msg (ROLE_ASSIGN r) ->
  BoardEmbed.onMessage e s = BoardEmbed.ensureOrientation (BoardEmbed.set_role (Some r) s).
Proof.
  intros Horg Hdata. unfold BoardEmbed.onMessage.
  rewrite bool_decide_eq_true_2 by exact Horg. simpl. rewrite Hdata. reflexivity.
Qed.

(** SYNC_STATE redraws the board and leaves it turned to the role's side. *)
(** What SYNC_STATE does whatever the position it carries. *)
Lemma sync_state_frame (e : MessageEvent) (s : BoardEmbed.State) (f : string) (p : option string) :
  ev_origin e = BoardEmbed.origin s ->
  ev_data e = Msg (SYNC_STATE f p) ->
  BoardEmbed.role (BoardEmbed.onMessage e s) = BoardEmbed.role s
  /\ BoardEmbed.isReversed (BoardEmbed.onMessage e s) = is_role (BoardEmbed.role s) black
  /\ BoardEmbed.applyingRemote (BoardEmbed.onMessage e s) = false.
Proof.
  intros Horg Hdata. unfold BoardEmbed.onMessage.
  rewrite bool_decide_eq_true_2 by exact Horg. simpl. rewrite Hdata.
  set (s3 := BoardEmbed.set_isReversed false
               (BoardEmbed.callBoard (CallSetFEN f) (BoardEmbed.set_applyingRemote true s))).
  assert (Hrole : BoardEmbed.role s3 = BoardEmbed.role s) by reflexivity.
  split; [|split]; simpl.
  - destruct (ensureOrientation_frame s3) as (-> & _). exact Hrole.
  - rewrite ensureOrientation_flag, Hrole. reflexivity.
  - reflexivity.
Qed.

Lemma sync_state_effect (e : MessageEvent) (s : BoardEmbed.State) (f : string) (p : option string) :
  ev_origin e = BoardEmbed.origin s ->
  ev_data e = Msg (SYNC_STATE f p) ->
  f <> EmptyString ->
  BoardEmbed.role (BoardEmbed.onMessage e s) = BoardEmbed.role s
  /\ BoardEmbed.isReversed (BoardEmbed.onMessage e s) = is_role (BoardEmbed.role s) black
  /\ reverted (BoardEmbed.board (BoardEmbed.onMessage e s)) = is_role (BoardEmbed.role s) black
  /\ BoardEmbed.applyingRemote (BoardEmbed.onMessage e s) = false
  /\ BoardEmbed.flips (BoardEmbed.onMessage e s)
     = BoardEmbed.flips s + (if is_role (BoardEmbed.role s) black then 1 else 0).
Proof.
  intros Horg Hdata Hfen. unfold BoardEmbed.onMessage.
  rewrite bool_decide_eq_true_2 by exact Horg. simpl. rewrite Hdata.
  set (s3 := BoardEmbed.set_isReversed false
               (BoardEmbed.callBoard (CallSetFEN f) (BoardEmbed.set_applyingRemote true s))).
  assert (Hrole : BoardEmbed.role s3 = BoardEmbed.role s) by reflexivity.
  split; [|split; [|split; [|split]]]; simpl.
  - destruct (ensureOrientation_frame s3) as (-> & _). exact Hrole.
  - rewrite ensureOrientation_flag, Hrole. reflexivity.
  - rewrite ensureOrientation_reverted, Hrole; [reflexivity|].
    simpl. symmetry. apply reverted_setFEN, Hfen.
  - reflexivity.
  - change (BoardEmbed.flips (BoardEmbed.ensureOrientation s3)
            = BoardEmbed.flips s + (if is_role (BoardEmbed.role s) black then 1 else 0)).
    rewrite ensureOrientation_flips, Hrole.
    assert (Hf : BoardEmbed.flips s3 = BoardEmbed.flips s).
    { unfold BoardEmbed.flips. simpl. rewrite List.filter_app, length_app. simpl. lia. }
    rewrite Hf. simpl. destruct (is_role (BoardEmbed.role s) black); reflexivity.
Qed.

(** GAME_OVER disables moves, so neither colour can be dragged. *)
Lemma game_over_freezes (e : MessageEvent) (s : BoardEmbed.State) (winner : Role) (reason : string) :
  ev_origin e = BoardEmbed.origin s ->
  ev_data e = Msg (GAME_OVER winner reason) ->
  BoardEmbed.moveDisabled (BoardEmbed.onMessage e s) = true
  /\ BoardEmbed.darkDisabled (BoardEmbed.onMessage e s) = true
  /\ BoardEmbed.lightDisabled (BoardEmbed.onMessage e s) = true.
Proof.
  intros Horg Hdata. unfold BoardEmbed.onMessage.
  rewrite bool_decide_eq_true_2 by exact Horg. simpl. rewrite Hdata.
  unfold BoardEmbed.darkDisabled, BoardEmbed.lightDisabled. simpl.
  rewrite !orb_true_r. repeat split.
Qed.

(** TURN touches neither the role nor the board. *)
Lemma turn_keeps_board (e : MessageEvent) (s : BoardEmbed.State) (t : Turn) :
  ev_data e = Msg (TURN t) ->
  BoardEmbed.role (BoardEmbed.onMessage e s) = BoardEmbed.role s
  /\ BoardEmbed.board (BoardEmbed.onMessage e s) = BoardEmbed.board s.
Proof.
  intros Hdata. unfold BoardEmbed.onMessage.
  destruct (negb _); [split; reflexivity|].
  rewrite Hdata. destruct (BoardEmbed.role s) eqn:Hr; split; simpl; congruence.
Qed.

(** What a child ends up with after the messages it gets on IFRAME_READY. *)
Lemma handshake_effect (k : BoardEmbed.State) (r : Role) (f : string) (t : Turn) :
  f <> EmptyString ->
  BoardEmbed.role
    (BoardEmbed.deliver (BoardEmbed.origin k) [ROLE_ASSIGN r; SYNC_STATE f None; TURN t] k)
  = Some r
  /\ reverted
       (BoardEmbed.board
          (BoardEmbed.deliver (BoardEmbed.origin k)
             [ROLE_ASSIGN r; SYNC_STATE f None; TURN t] k))
     = bool_decide (r = black).
Proof.
  intros Hfen. unfold BoardEmbed.deliver. simpl.
  set (e1 := {| ev_origin := BoardEmbed.origin k; ev_source := None;
                ev_data := Msg (ROLE_ASSIGN r) |}).
  set (e2 := {| ev_origin := BoardEmbed.origin k; ev_source := None;
                ev_data := Msg (SYNC_STATE f None) |}).
  set (e3 := {| ev_origin := BoardEmbed.origin k; ev_source := None;
                ev_data := Msg (TURN t) |}).
  set (k1 := BoardEmbed.onMessage e1 k).
  assert (Hk1 : BoardEmbed.role k1 = Some r).
  { unfold k1. rewrite (role_assign_effect e1 k r eq_refl eq_refl).
    apply (ensureOrientation_frame (BoardEmbed.set_role (Some r) k)). }
  assert (Ho1 : BoardEmbed.origin k1 = BoardEmbed.origin k) by apply embed_origin_kept.
  destruct (sync_state_effect e2 k1 f None (eq_sym Ho1) eq_refl Hfen) as (Hr2 & _ & Hv2 & _).
  set (k2 := BoardEmbed.onMessage e2 k1) in *.
  rewrite Hk1 in Hr2, Hv2.
  destruct (turn_keeps_board e3 k2 t eq_refl) as (-> & ->).
  split; [exact Hr2 | exact Hv2].
Qed.

(** C3 (amended): when an accepted BOARD_UPDATE gives checkmate, the host
    posts GAME_OVER to both children, and a child that handles GAME_OVER has
    moves disabled for both colours.  The host itself keeps no game-over
    flag: a later BOARD_UPDATE leaves it unchanged when its sender is not the
    window of the side to move or when the engine rejects its position. *)
Theorem checkmate_freezes_children_only
    (s : GameHost.State) (e : MessageEvent) (f : string) (src : Window) (c : Chess) :
  ev_origin e = GameHost.origin s ->
  ev_source e = Some src ->
  ev_data e = Msg (BOARD_UPDATE f) ->
  GameHost.currentTurnWindow s = Some src ->
  chess_load (GameHost.chess s) f = Some c ->
  chess_isCheckmate c = true ->
  (exists winner,
      GameHost.posted (GameHost.onMessage e s)
      = GameHost.posted s ++ GameHost.bothChildren (GAME_OVER winner "checkmate") s)
  /\ (forall (k : BoardEmbed.State) (e' : MessageEvent) winner reason,
        ev_origin e' = BoardEmbed.origin k ->
        ev_data e' = Msg (GAME_OVER winner reason) ->
        BoardEmbed.moveDisabled (BoardEmbed.onMessage e' k) = true
        /\ BoardEmbed.darkDisabled (BoardEmbed.onMessage e' k) = true
        /\ BoardEmbed.lightDisabled (BoardEmbed.onMessage e' k) = true)
  /\ (forall (e2 : MessageEvent) (f2 : string),
        ev_data e2 = Msg (BOARD_UPDATE f2) ->
        (forall src2, ev_source e2 = Some src2 ->
                      GameHost.currentTurnWindow (GameHost.onMessage e s) <> Some src2)
        \/ chess_load c f2 = None ->
        GameHost.onMessage e2 (GameHost.onMessage e s) = GameHost.onMessage e s).
Proof.
  intros Horg Hsrc Hdata Hturn Hload Hmate.
  destruct (accepted_checkmate s e f src c Horg Hsrc Hdata Hturn Hload Hmate)
    as (Hchess & Hposted).
  split; [|split].
  - eexists. exact Hposted.
  - intros k e' winner reason Ho Hd. exact (game_over_freezes e' k winner reason Ho Hd).
  - intros e2 f2 Hd2 [Hoff | Hrej].
    + exact (off_turn_unchanged _ e2 f2 Hd2 Hoff).
    + apply (rejected_unchanged _ e2 f2 Hd2). rewrite Hchess. exact Hrej.
Qed.

(** C7 (amended): the role follows the frame, not the order of arrival.  An
    IFRAME_READY from the first frame's window is answered with ROLE_ASSIGN
    white, one from any other window with ROLE_ASSIGN black; each IFRAME_READY
    gets exactly one ROLE_ASSIGN, followed by the position and the turn; and a
    child that handles these messages has its board reversed iff the role is
    black. *)
Theorem role_follows_frame (s : GameHost.State) (e : MessageEvent) (src : Window) :
  ev_origin e = GameHost.origin s ->
  ev_source e = Some src ->
  ev_data e = Msg IFRAME_READY ->
  exists role,
    (GameHost.window1 s = Some src -> role = white)
    /\ (GameHost.window1 s <> Some src -> role = black)
    /\ GameHost.posted (GameHost.onMessage e s)
       = GameHost.posted s
         ++ [(src, ROLE_ASSIGN role); (src, SYNC_STATE (chess_fen (GameHost.chess s)) None)]
         ++ GameHost.bothChildren (TURN (chess_turn (GameHost.chess s))) s
    /\ GameHost.chess (GameHost.onMessage e s) = GameHost.chess s
    /\ GameHost.storage (GameHost.onMessage e s) = GameHost.storage s
    /\ GameHost.wiring (GameHost.onMessage e s) = GameHost.wiring s
    /\ (forall k : BoardEmbed.State,
          BoardEmbed.role
            (BoardEmbed.deliver (BoardEmbed.origin k)
               [ROLE_ASSIGN role; SYNC_STATE (chess_fen (GameHost.chess s)) None;
                TURN (chess_turn (GameHost.chess s))] k)
          = Some role
          /\ (reverted
                (BoardEmbed.board
                   (BoardEmbed.deliver (BoardEmbed.origin k)
                      [ROLE_ASSIGN role; SYNC_STATE (chess_fen (GameHost.chess s)) None;
                       TURN (chess_turn (GameHost.chess s))] k))
              = true
              <-> role = black)).
Proof.
  intros Horg Hsrc Hdata.
  set (role := if bool_decide (Some src = GameHost.window1 s) then white else black).
  set (s2 := GameHost.syncStateTo src (GameHost.postTo (Some src) (ROLE_ASSIGN role) s)).
  assert (Hstep : GameHost.onMessage e s = GameHost.broadcastTurn s2).
  { unfold GameHost.onMessage.
    rewrite bool_decide_eq_true_2 by exact Horg. simpl. rewrite Hsrc, Hdata. reflexivity. }
  exists role. unfold role at 1 2.
  split; [|split; [|split; [|split; [|split; [|split]]]]].
  - intros Hw. rewrite bool_decide_eq_true_2 by (symmetry; exact Hw). reflexivity.
  - intros Hw. rewrite bool_decide_eq_false_2; [reflexivity|].
    intros Heq. apply Hw. symmetry. exact Heq.
  - rewrite Hstep. destruct (frame_broadcastTurn s2) as (_ & _ & ->).
    unfold s2. simpl. rewrite <- !app_assoc. reflexivity.
  - rewrite Hstep. destruct (frame_broadcastTurn s2) as (-> & _). reflexivity.
  - rewrite Hstep. destruct (frame_broadcastTurn s2) as (_ & -> & _). reflexivity.
  - apply wiring_kept.
  - intros k.
    destruct (handshake_effect k role
                (chess_fen (GameHost.chess s)) (chess_turn (GameHost.chess s))
                (chess_fen_nonempty (GameHost.chess s)))
      as (Hrole & Hrev).
    split; [exact Hrole|]. rewrite Hrev.
    destruct role; simpl; split; intros Hx; try reflexivity; discriminate.
Qed.

End OfflineFacts.

(** C3, as stated, fails: after the fool's mate was reported and GAME_OVER
    broadcast, the mated side's window reports the start position, and the
    host loads it, saves it and posts SYNC_STATE and TURN again. *)
Lemma frozen_after_checkmate_counterexample :
  chess_isCheckmate (GameHost.chess Fixtures.hostMated) = true
  /\ GameHost.posted Fixtures.hostMated
     = [(1, GAME_OVER black "checkmate"); (2, GAME_OVER black "checkmate")]
  /\ GameHost.chess (Fixtures.hostOnMessage Fixtures.lateUpdate Fixtures.hostMated)
     = Doubles.start_fen
  /\ GameHost.chess (Fixtures.hostOnMessage Fixtures.lateUpdate Fixtures.hostMated)
     <> GameHost.chess Fixtures.hostMated
  /\ items (GameHost.storage (Fixtures.hostOnMessage Fixtures.lateUpdate Fixtures.hostMated))
       !! GameHost.STORAGE_KEY
     <> items (GameHost.storage Fixtures.hostMated) !! GameHost.STORAGE_KEY
  /\ GameHost.posted (Fixtures.hostOnMessage Fixtures.lateUpdate Fixtures.hostMated)
     = GameHost.posted Fixtures.hostMated
       ++ [(2, SYNC_STATE Doubles.start_fen None); (1, TURN w); (2, TURN w)].
Proof.
  repeat split; try (vm_compute; reflexivity); vm_compute; discriminate.
Qed.

Lemma checkmate_freezes_children_only_witness :
  GameHost.currentTurnWindow (Fixtures.hostAt Fixtures.before_fools_mate_fen) = Some 2
  /\ chess_load (GameHost.chess (Fixtures.hostAt Fixtures.before_fools_mate_fen))
       Doubles.fools_mate_fen = Some Doubles.fools_mate_fen
  /\ chess_isCheckmate (RulesEngine:=Doubles.TableEngine) Doubles.fools_mate_fen = true
  /\ Fixtures.hostOnMessage (Fixtures.from 2 (BOARD_UPDATE Doubles.start_fen))
       Fixtures.hostMated
     = Fixtures.hostMated.
Proof.
  split; [reflexivity|]. split; [vm_compute; reflexivity|]. split; [reflexivity|].
  destruct (checkmate_freezes_children_only (W:=Doubles.PlainBoard) (C:=Doubles.SavedStateCodec)
              (Fixtures.hostAt Fixtures.before_fools_mate_fen)
              (Fixtures.from 2 (BOARD_UPDATE Doubles.fools_mate_fen))
              Doubles.fools_mate_fen 2 Doubles.fools_mate_fen
              eq_refl eq_refl eq_refl eq_refl eq_refl eq_refl)
    as (_ & _ & Hlater).
  apply (Hlater (Fixtures.from 2 (BOARD_UPDATE Doubles.start_fen)) Doubles.start_fen eq_refl).
  left. intros src2 Hsrc2. injection Hsrc2 as <-. vm_compute. discriminate.
Defined.

(** The freeze lasts until the next TURN: after the game is over, a
    REQUEST_SYNC (a reloaded frame sends one) makes the host announce the turn
    again, and the child of the side to move can drag its pieces again. *)
Example freeze_undone_by_turn :
  GameHost.deliveredTo 1
    (Fixtures.hostOnMessage (Fixtures.from 2 REQUEST_SYNC) Fixtures.hostMated)
  = [GAME_OVER black "checkmate"; TURN w]
  /\ BoardEmbed.lightDisabled
       (BoardEmbed.deliver Fixtures.here
          [ROLE_ASSIGN white; GAME_OVER black "checkmate"] Fixtures.child)
     = true
  /\ BoardEmbed.lightDisabled
       (BoardEmbed.deliver Fixtures.here
          [ROLE_ASSIGN white; GAME_OVER black "checkmate"; TURN w] Fixtures.child)
     = false.
Proof. repeat split; vm_compute; reflexivity. Qed.

(** C7, as stated, fails: when the second frame's child announces readiness
    first it is assigned black, its board ends up reversed, and the child
    that announces second, in the first frame, is assigned white. *)
Lemma first_ready_gets_white_counterexample :
  GameHost.deliveredTo 2
    (Fixtures.hostOnMessage (Fixtures.from 2 IFRAME_READY)
       (Fixtures.hostAt Doubles.start_fen))
  = [ROLE_ASSIGN black; SYNC_STATE Doubles.start_fen None; TURN w]
  /\ reverted
       (BoardEmbed.board
          (BoardEmbed.deliver Fixtures.here
             (GameHost.deliveredTo 2
                (Fixtures.hostOnMessage (Fixtures.from 2 IFRAME_READY)
                   (Fixtures.hostAt Doubles.start_fen)))
             Fixtures.child))
     = true
  /\ GameHost.deliveredTo 1
       (Fixtures.hostOnMessage (Fixtures.from 1 IFRAME_READY)
          (Fixtures.hostOnMessage (Fixtures.from 2 IFRAME_READY)
             (Fixtures.hostAt Doubles.start_fen)))
     = [TURN w; ROLE_ASSIGN white; SYNC_STATE Doubles.start_fen None; TURN w].
Proof. repeat split; vm_compute; reflexivity. Qed.

Lemma role_follows_frame_witness :
  exists role,
    role = black
    /\ GameHost.posted
         (Fixtures.hostOnMessage (Fixtures.from 2 IFRAME_READY)
            (Fixtures.hostAt Doubles.start_fen))
       = [(2, ROLE_ASSIGN role); (2, SYNC_STATE Doubles.start_fen None);
          (1, TURN w); (2, TURN w)].
Proof.
  destruct (role_follows_frame (W:=Doubles.PlainBoard) (C:=Doubles.SavedStateCodec)
              (Fixtures.hostAt Doubles.start_fen) (Fixtures.from 2 IFRAME_READY) 2
              eq_refl eq_refl eq_refl)
    as (role & _ & Hblack & Hposted & _).
  exists role. split.
  - apply Hblack. vm_compute. discriminate.
  - exact Hposted.
Defined.

(** ** Online Sync Controller *)

Section OnlineFacts.
Context {E : RulesEngine} {W : BoardWidget} {C : JsonCodec OnlineGame.OnlineLocalState}.

Lemma is_role_black (o : option Role) : is_role o black = true <-> o = Some black.
Proof.
  destruct o as [[]|]; simpl; split; intros Hx; try reflexivity; discriminate.
Qed.

Lemma orientForRole_frame (s : OnlineGame.State) :
  OnlineGame.role (OnlineGame.orientForRole s) = OnlineGame.role s
  /\ OnlineGame.chess (OnlineGame.orientForRole s) = OnlineGame.chess s
  /\ OnlineGame.writes (OnlineGame.orientForRole s) = OnlineGame.writes s
  /\ OnlineGame.storage (OnlineGame.orientForRole s) = OnlineGame.storage s
  /\ OnlineGame.applyingRemote (OnlineGame.orientForRole s) = OnlineGame.applyingRemote s.
Proof.
  unfold OnlineGame.orientForRole.
  destruct (negb _); repeat split.
Qed.

Lemma orientForRole_flag (s : OnlineGame.State) :
  OnlineGame.isReversed (OnlineGame.orientForRole s) = is_role (OnlineGame.role s) black.
Proof.
  unfold OnlineGame.orientForRole.
  destruct (is_role (OnlineGame.role s) black) eqn:Hr,
           (OnlineGame.isReversed s) eqn:Hf; simpl; congruence.
Qed.

Lemma orientForRole_idem (s : OnlineGame.State) :
  OnlineGame.orientForRole (OnlineGame.orientForRole s) = OnlineGame.orientForRole s.
Proof.
  unfold OnlineGame.orientForRole at 1.
  rewrite orientForRole_flag.
  destruct (orientForRole_frame s) as (-> & _).
  rewrite eqb_reflx. reflexivity.
Qed.

Lemma orientForRole_reverted (s : OnlineGame.State) :
  OnlineGame.isReversed s = reverted (OnlineGame.board s) ->
  reverted (OnlineGame.board (OnlineGame.orientForRole s))
  = is_role (OnlineGame.role s) black.
Proof.
  intros Hsync. unfold OnlineGame.orientForRole.
  destruct (is_role (OnlineGame.role s) black) eqn:Hr,
           (OnlineGame.isReversed s) eqn:Hf; simpl;
    rewrite ?reverted_reverse, <- ?Hsync; reflexivity.
Qed.

(** After a call of [setFEN] and the clearing of the flag, [orientForRole]
    makes at most one call, [reverse], and only for black. *)
Lemma orientForRole_fresh (s : OnlineGame.State) :
  OnlineGame.isReversed s = false ->
  OnlineGame.board (OnlineGame.orientForRole s)
  = (if is_role (OnlineGame.role s) black
     then reverse (OnlineGame.board s) else OnlineGame.board s)
  /\ OnlineGame.calls (OnlineGame.orientForRole s)
     = OnlineGame.calls s
       ++ (if is_role (OnlineGame.role s) black
           then [(CallReverse, OnlineGame.applyingRemote s)] else []).
Proof.
  intros Hflag. unfold OnlineGame.orientForRole. rewrite Hflag.
  destruct (is_role (OnlineGame.role s) black); simpl; split;
    try reflexivity; symmetry; apply app_nil_r.
Qed.

Lemma onUserMove_guarded (s : OnlineGame.State) :
  OnlineGame.mayReport s ->
  OnlineGame.onUserMove s
  = match chess_load (OnlineGame.chess s) (getFEN (OnlineGame.board s)) with
    | None =>
        OnlineGame.set_applyingRemote false
          (OnlineGame.orientForRole
             (OnlineGame.set_isReversed false
                (OnlineGame.callBoard (CallSetFEN (chess_fen (OnlineGame.chess s)))
                   (OnlineGame.set_applyingRemote true s))))
    | Some c =>
        if chess_isCheckmate c then
          OnlineGame.remoteUpdate
            {| OnlineGame.patch_fen := Some (getFEN (OnlineGame.board s));
               OnlineGame.patch_pgn := Some (chess_pgn c);
               OnlineGame.patch_turn := Some (chess_turn c);
               OnlineGame.patch_status := Some OnlineGame.ended;
               OnlineGame.patch_winner := Some (OnlineGame.winnerOf (chess_turn c));
               OnlineGame.patch_players := None |}
            (OnlineGame.set_chess c s)
        else
          OnlineGame.remoteUpdate
            {| OnlineGame.patch_fen := Some (getFEN (OnlineGame.board s));
               OnlineGame.patch_pgn := Some (chess_pgn c);
               OnlineGame.patch_turn := Some (chess_turn c);
               OnlineGame.patch_status := Some OnlineGame.live;
               OnlineGame.patch_winner := None;
               OnlineGame.patch_players := None |}
            (OnlineGame.set_chess c s)
    end.
Proof.
  intros (Hg & Href & Hrole & Hboth & Hmove).
  unfold OnlineGame.onUserMove, OnlineGame.onUserMoveAwait.
  rewrite Hg, Hboth, Hmove.
  rewrite !bool_decide_eq_true_2 by assumption. simpl.
  destruct (chess_load _ _) as [c|]; [|reflexivity].
  destruct (chess_isCheckmate c); reflexivity.
Qed.


(** Read the role and the remote writes through a final [orientForRole]. *)
Ltac through_orientForRole Hr Hw :=
  match goal with
  | |- context [OnlineGame.orientForRole ?x] =>
      destruct (orientForRole_frame x) as (Hr & _ & Hw & _)
  end.

(** The outcomes of [joinGame] once the room document was fetched. *)
Lemma joinGame_outcomes (s : OnlineGame.State) (snap : option OnlineGame.GameDoc) :
  OnlineGame.role s = None ->
  OnlineGame.code s <> EmptyString ->
  match snap with
  | None =>
      OnlineGame.statusText (OnlineGame.joinGame snap s) = "Game not found."
      /\ OnlineGame.writes (OnlineGame.joinGame snap s) = OnlineGame.writes s
      /\ OnlineGame.role (OnlineGame.joinGame snap s) = None
  | Some val =>
      let ps := OnlineGame.playersOf val in
      if OnlineGame.taken (OnlineGame.white_slot ps) then
        if OnlineGame.taken (OnlineGame.black_slot ps) then
          OnlineGame.statusText (OnlineGame.joinGame snap s)
          = "This game already has two players."
          /\ OnlineGame.writes (OnlineGame.joinGame snap s) = OnlineGame.writes s
          /\ OnlineGame.role (OnlineGame.joinGame snap s) = None
        else
          OnlineGame.role (OnlineGame.joinGame snap s) = Some black
          /\ OnlineGame.writes (OnlineGame.joinGame snap s)
             = OnlineGame.writes s
               ++ [OnlineGame.RemoteUpdate ("games/" +:+ OnlineGame.code s)
                     {| OnlineGame.patch_fen := None; OnlineGame.patch_pgn := None;
                        OnlineGame.patch_turn := None;
                        OnlineGame.patch_status := Some OnlineGame.live;
                        OnlineGame.patch_winner := None;
                        OnlineGame.patch_players :=
                          Some {| OnlineGame.white_slot := OnlineGame.white_slot ps;
                                  OnlineGame.black_slot := Some (OnlineGame.clientId s) |} |}]
      else
        OnlineGame.role (OnlineGame.joinGame snap s) = Some white
        /\ OnlineGame.writes (OnlineGame.joinGame snap s)
           = OnlineGame.writes s
             ++ [OnlineGame.RemoteUpdate ("games/" +:+ OnlineGame.code s)
                   {| OnlineGame.patch_fen := None; OnlineGame.patch_pgn := None;
                      OnlineGame.patch_turn := None;
                      OnlineGame.patch_status := Some OnlineGame.waiting;
                      OnlineGame.patch_winner := None;
                      OnlineGame.patch_players :=
                        Some {| OnlineGame.white_slot := Some (OnlineGame.clientId s);
                                OnlineGame.black_slot := OnlineGame.black_slot ps |} |}]
  end.
Proof.
  intros Hrole Hcode. unfold OnlineGame.joinGame. rewrite Hrole.
  rewrite bool_decide_eq_false_2 by exact Hcode.
  destruct snap as [val|]; [|repeat split; exact Hrole].
  cbv zeta.
  destruct (OnlineGame.taken (OnlineGame.white_slot (OnlineGame.playersOf val))),
           (OnlineGame.taken (OnlineGame.black_slot (OnlineGame.playersOf val)));
    cbn [andb negb].
  - repeat split. exact Hrole.
  - through_orientForRole Hr Hw. split; [exact Hr | exact Hw].
  - through_orientForRole Hr Hw. split; [exact Hr | exact Hw].
  - through_orientForRole Hr Hw. split; [exact Hr | exact Hw].
Qed.

(** An accepted move that gives checkmate: one write, with status ended and
    the side not to move as winner. *)
Lemma reported_checkmate (s : OnlineGame.State) (path : string) (c : Chess) :
  OnlineGame.mayReport s ->
  OnlineGame.gameRef s = Some path ->
  chess_load (OnlineGame.chess s) (getFEN (OnlineGame.board s)) = Some c ->
  chess_isCheckmate c = true ->
  OnlineGame.writes (OnlineGame.onUserMove s)
  = OnlineGame.writes s
    ++ [OnlineGame.RemoteUpdate path
          {| OnlineGame.patch_fen := Some (getFEN (OnlineGame.board s));
             OnlineGame.patch_pgn := Some (chess_pgn c);
             OnlineGame.patch_turn := Some (chess_turn c);
             OnlineGame.patch_status := Some OnlineGame.ended;
             OnlineGame.patch_winner :=
               Some (match chess_turn c with w => black | b => white end);
             OnlineGame.patch_players := None |}].
Proof.
  intros Hmay Href Hload Hmate.
  rewrite (onUserMove_guarded s Hmay), Hload, Hmate.
  unfold OnlineGame.remoteUpdate. simpl. rewrite Href. simpl.
  unfold OnlineGame.winnerOf. destruct (chess_turn c); reflexivity.
Qed.

(** C9: when the engine rejects the position the view reports, nothing is
    written to the room document and the engine keeps its position; and when
    the report got past the guards, the view is given the engine's position
    again and turned to the role's side, each call on the view being made
    with [applyingRemote] set, which is cleared afterwards. *)
Theorem rejected_move_reverts_view (s : OnlineGame.State) :
  chess_load (OnlineGame.chess s) (getFEN (OnlineGame.board s)) = None ->
  OnlineGame.writes (OnlineGame.onUserMove s) = OnlineGame.writes s
  /\ OnlineGame.chess (OnlineGame.onUserMove s) = OnlineGame.chess s
  /\ (OnlineGame.mayReport s ->
      OnlineGame.board (OnlineGame.onUserMove s)
      = (if is_role (OnlineGame.role s) black
         then reverse (setFEN (OnlineGame.board s) (chess_fen (OnlineGame.chess s)))
         else setFEN (OnlineGame.board s) (chess_fen (OnlineGame.chess s)))
      /\ OnlineGame.calls (OnlineGame.onUserMove s)
         = OnlineGame.calls s
           ++ (CallSetFEN (chess_fen (OnlineGame.chess s)), true)
              :: (if is_role (OnlineGame.role s) black then [(CallReverse, true)] else [])
      /\ reverted (OnlineGame.board (OnlineGame.onUserMove s))
         = is_role (OnlineGame.role s) black
      /\ OnlineGame.isReversed (OnlineGame.onUserMove s)
         = is_role (OnlineGame.role s) black
      /\ OnlineGame.applyingRemote (OnlineGame.onUserMove s) = false).
Proof.
  intros Hrej.
  set (s3 := OnlineGame.set_isReversed false
               (OnlineGame.callBoard (CallSetFEN (chess_fen (OnlineGame.chess s)))
                  (OnlineGame.set_applyingRemote true s))).
  assert (Hstep : OnlineGame.onUserMove s = s
                  \/ OnlineGame.onUserMove s
                     = OnlineGame.set_applyingRemote false (OnlineGame.orientForRole s3)).
  { unfold OnlineGame.onUserMove, OnlineGame.onUserMoveAwait. rewrite Hrej.
    destruct (_ || _ || _); [left; reflexivity|].
    destruct (_ || _); [left; reflexivity | right; reflexivity]. }
  split; [|split].
  - destruct Hstep as [-> | ->]; [reflexivity|]. simpl.
    destruct (orientForRole_frame s3) as (_ & _ & -> & _). reflexivity.
  - destruct Hstep as [-> | ->]; [reflexivity|]. simpl.
    destruct (orientForRole_frame s3) as (_ & -> & _). reflexivity.
  - intros Hmay. rewrite (onUserMove_guarded s Hmay), Hrej. fold s3. simpl.
    destruct (orientForRole_fresh s3 eq_refl) as (Hboard & Hcalls).
    rewrite Hboard, Hcalls, orientForRole_flag.
    change (OnlineGame.role s3) with (OnlineGame.role s).
    repeat split.
    + destruct (is_role (OnlineGame.role s) black); simpl;
        rewrite <- app_assoc; reflexivity.
    + destruct (is_role (OnlineGame.role s) black); simpl;
        rewrite ?reverted_reverse, reverted_setFEN by apply chess_fen_nonempty;
        reflexivity.
Qed.

End OnlineFacts.

Lemma rejected_move_reverts_view_witness :
  chess_load (OnlineGame.chess Fixtures.whiteBlunders)
    (getFEN (OnlineGame.board Fixtures.whiteBlunders)) = None
  /\ OnlineGame.writes (Fixtures.onUserMove Fixtures.whiteBlunders) = []
  /\ OnlineGame.board (Fixtures.onUserMove Fixtures.whiteBlunders)
     = {| Doubles.shown := Doubles.start_fen; Doubles.flipped := false |}.
Proof.
  destruct (rejected_move_reverts_view Fixtures.whiteBlunders eq_refl)
    as (Hwrites & _ & Hview).
  split; [reflexivity|]. split; [exact Hwrites|].
  destruct Hview as (Hboard & _).
  - repeat split; try reflexivity; eexists; reflexivity.
  - exact Hboard.
Defined.

(** The vacated room is what create, join and leave produce. *)
Lemma vacated_room_reachable :
  OnlineGame.doc_status <$> Fixtures.roomCreated = Some (Some OnlineGame.waiting)
  /\ OnlineGame.doc_status <$> Fixtures.roomJoined = Some (Some OnlineGame.live)
  /\ Fixtures.roomLeft = Some Fixtures.vacatedRoom.
Proof. repeat split; vm_compute; reflexivity. Qed.

(** C5, at the input where it fails: tab-1 joins a room whose white slot was
    vacated while tab-2 still holds black.  It takes white and writes status
    waiting, and in the room document as written both slots are occupied. *)
Lemma join_vacated_white_writes_waiting :
  OnlineGame.role Fixtures.rejoined = Some white
  /\ OnlineGame.writes Fixtures.rejoined
     = [OnlineGame.RemoteUpdate "games/AB12CD" Fixtures.rejoinPatch]
  /\ OnlineGame.patch_status Fixtures.rejoinPatch = Some OnlineGame.waiting
  /\ OnlineGame.doc_status (OnlineGame.applyPatch Fixtures.rejoinPatch Fixtures.vacatedRoom)
     = Some OnlineGame.waiting
  /\ OnlineGame.bothTaken
       (OnlineGame.playersOf
          (OnlineGame.applyPatch Fixtures.rejoinPatch Fixtures.vacatedRoom))
     = true.
Proof. repeat split. Qed.

(** ** Properties shared by the offline and the online mode *)

Section SharedFacts.
Context {E : RulesEngine} {W : BoardWidget}.
Context {CH : JsonCodec GameHost.SavedState} {CO : JsonCodec OnlineGame.OnlineLocalState}.

(** C4: when an accepted move gives checkmate, the winner recorded is the
    side that is not to move: black iff white is to move, white iff black is.
    The host posts GAME_OVER with that winner to both children; the online
    controller writes status ended with that winner to the room document. *)
Theorem checkmate_winner_not_to_move :
  (forall (s : GameHost.State) (e : MessageEvent) (f : string) (src : Window) (c : Chess),
      ev_origin e = GameHost.origin s ->
      ev_source e = Some src ->
      ev_data e = Msg (BOARD_UPDATE f) ->
      GameHost.currentTurnWindow s = Some src ->
      chess_load (GameHost.chess s) f = Some c ->
      chess_isCheckmate c = true ->
      exists winner,
        (winner = black <-> chess_turn c = w)
        /\ (winner = white <-> chess_turn c = b)
        /\ GameHost.posted (GameHost.onMessage e s)
           = GameHost.posted s
             ++ GameHost.bothChildren (GAME_OVER winner "checkmate") s)
  /\ (forall (s : OnlineGame.State) (path : string) (c : Chess),
        OnlineGame.mayReport s ->
        OnlineGame.gameRef s = Some path ->
        chess_load (OnlineGame.chess s) (getFEN (OnlineGame.board s)) = Some c ->
        chess_isCheckmate c = true ->
        exists winner,
          (winner = black <-> chess_turn c = w)
          /\ (winner = white <-> chess_turn c = b)
          /\ OnlineGame.writes (OnlineGame.onUserMove s)
             = OnlineGame.writes s
               ++ [OnlineGame.RemoteUpdate path
                     {| OnlineGame.patch_fen := Some (getFEN (OnlineGame.board s));
                        OnlineGame.patch_pgn := Some (chess_pgn c);
                        OnlineGame.patch_turn := Some (chess_turn c);
                        OnlineGame.patch_status := Some OnlineGame.ended;
                        OnlineGame.patch_winner := Some winner;
                        OnlineGame.patch_players := None |}]).
Proof.
  assert (Hside : forall t : Turn,
             ((match t with w => black | b => white end) = black <-> t = w)
             /\ ((match t with w => black | b => white end) = white <-> t = b)).
  { intros []; split; split; intros Hx; try reflexivity; discriminate. }
  split.
  - intros s e f src c Horg Hsrc Hdata Hturn Hload Hmate.
    exists (match chess_turn c with w => black | b => white end).
    destruct (Hside (chess_turn c)) as (Hb & Hw).
    split; [exact Hb|]. split; [exact Hw|].
    apply (accepted_checkmate s e f src c Horg Hsrc Hdata Hturn Hload Hmate).
  - intros s path c Hmay Href Hload Hmate.
    exists (match chess_turn c with w => black | b => white end).
    destruct (Hside (chess_turn c)) as (Hb & Hw).
    split; [exact Hb|]. split; [exact Hw|].
    apply (reported_checkmate s path c Hmay Href Hload Hmate).
Qed.

End SharedFacts.

Lemma checkmate_winner_not_to_move_witness :
  GameHost.posted Fixtures.hostMated
  = [(1, GAME_OVER black "checkmate"); (2, GAME_OVER black "checkmate")]
  /\ OnlineGame.writes (Fixtures.onUserMove Fixtures.whiteMates)
     = [OnlineGame.RemoteUpdate "games/AB12CD"
          {| OnlineGame.patch_fen := Some Doubles.scholars_mate_fen;
             OnlineGame.patch_pgn := Some EmptyString;
             OnlineGame.patch_turn := Some b;
             OnlineGame.patch_status := Some OnlineGame.ended;
             OnlineGame.patch_winner := Some white;
             OnlineGame.patch_players := None |}].
Proof.
  destruct (checkmate_winner_not_to_move
              (E:=Doubles.TableEngine) (W:=Doubles.PlainBoard)
              (CH:=Doubles.SavedStateCodec))
    as (Hhost & Honline).
  split.
  - destruct (Hhost (Fixtures.hostAt Fixtures.before_fools_mate_fen)
                (Fixtures.from 2 (BOARD_UPDATE Doubles.fools_mate_fen))
                Doubles.fools_mate_fen 2 Doubles.fools_mate_fen
                eq_refl eq_refl eq_refl eq_refl eq_refl eq_refl)
      as (winner & Hblack & _ & Hposted).
    rewrite (proj2 Hblack eq_refl) in Hposted. exact Hposted.
  - assert (Hmay : OnlineGame.mayReport Fixtures.whiteMates).
    { repeat split; try reflexivity; eexists; reflexivity. }
    destruct (Honline Fixtures.whiteMates "games/AB12CD" Doubles.scholars_mate_fen
                Hmay eq_refl eq_refl eq_refl)
      as (winner & _ & Hwhite & Hwrites).
    rewrite (proj2 Hwhite eq_refl) in Hwrites. exact Hwrites.
Defined.

(** ** Orientation *)

Section OrientationFacts.
Context {E : RulesEngine} {W : BoardWidget}.

Lemma set_role_same (s : BoardEmbed.State) (r : Role) :
  BoardEmbed.role s = Some r -> BoardEmbed.set_role (Some r) s = s.
Proof. destruct s; simpl; intros ->; reflexivity. Qed.

(** A second delivery of the same ROLE_ASSIGN changes nothing. *)
Lemma role_assign_twice (s : BoardEmbed.State) (e : MessageEvent) (r : Role) :
  ev_data e = Msg (ROLE_ASSIGN r) ->
  BoardEmbed.onMessage e (BoardEmbed.onMessage e s) = BoardEmbed.onMessage e s.
Proof.
  intros Hdata.
  destruct (decide (ev_origin e = BoardEmbed.origin s)) as [Horg | Horg].
  - assert (Horg' : ev_origin e = BoardEmbed.origin (BoardEmbed.onMessage e s)).
    { rewrite embed_origin_kept. exact Horg. }
    rewrite (role_assign_effect e (BoardEmbed.onMessage e s) r Horg' Hdata).
    rewrite (role_assign_effect e s r Horg Hdata).
    rewrite set_role_same; [apply ensureOrientation_idem|].
    apply (ensureOrientation_frame (BoardEmbed.set_role (Some r) s)).
  - assert (Hdrop : BoardEmbed.onMessage e s = s).
    { unfold BoardEmbed.onMessage.
      rewrite bool_decide_eq_false_2 by exact Horg. reflexivity. }
    rewrite !Hdrop. reflexivity.
Qed.

(** C6 (amended): a second application of [ensureOrientation] (and of
    [orientForRole]) changes nothing, so it makes no further call of
    [reverse]; after one application the reversed flag is set iff the role is
    black, and so is the view's orientation when the flag agreed with the
    view before.  A second delivery of the same ROLE_ASSIGN changes nothing.
    A second delivery of the same SYNC_STATE with a position that is not
    empty leaves the view turned as the first did, reversed iff the role is
    black, but it is not free of flips: each delivery to a black child calls
    [reverse] once more, and none for any other child. *)
Theorem orientation_restore_idempotent :
  (forall s : BoardEmbed.State,
      BoardEmbed.ensureOrientation (BoardEmbed.ensureOrientation s)
      = BoardEmbed.ensureOrientation s
      /\ BoardEmbed.flips (BoardEmbed.ensureOrientation (BoardEmbed.ensureOrientation s))
         = BoardEmbed.flips (BoardEmbed.ensureOrientation s)
      /\ (BoardEmbed.isReversed (BoardEmbed.ensureOrientation s) = true
          <-> BoardEmbed.role s = Some black)
      /\ (BoardEmbed.isReversed s = reverted (BoardEmbed.board s) ->
          (reverted (BoardEmbed.board (BoardEmbed.ensureOrientation s)) = true
           <-> BoardEmbed.role s = Some black)))
  /\ (forall s : OnlineGame.State,
        OnlineGame.orientForRole (OnlineGame.orientForRole s)
        = OnlineGame.orientForRole s
        /\ OnlineGame.flips (OnlineGame.orientForRole (OnlineGame.orientForRole s))
           = OnlineGame.flips (OnlineGame.orientForRole s)
        /\ (OnlineGame.isReversed (OnlineGame.orientForRole s) = true
            <-> OnlineGame.role s = Some black)
        /\ (OnlineGame.isReversed s = reverted (OnlineGame.board s) ->
            (reverted (OnlineGame.board (OnlineGame.orientForRole s)) = true
             <-> OnlineGame.role s = Some black)))
  /\ (forall (s : BoardEmbed.State) (e : MessageEvent) (r : Role),
        ev_data e = Msg (ROLE_ASSIGN r) ->
        BoardEmbed.onMessage e (BoardEmbed.onMessage e s) = BoardEmbed.onMessage e s
        /\ BoardEmbed.flips (BoardEmbed.onMessage e (BoardEmbed.onMessage e s))
           = BoardEmbed.flips (BoardEmbed.onMessage e s))
  /\ (forall (s : BoardEmbed.State) (e : MessageEvent) (f : string) (p : option string),
        ev_origin e = BoardEmbed.origin s ->
        ev_data e = Msg (SYNC_STATE f p) ->
        f <> EmptyString ->
        reverted (BoardEmbed.board (BoardEmbed.onMessage e (BoardEmbed.onMessage e s)))
        = reverted (BoardEmbed.board (BoardEmbed.onMessage e s))
        /\ BoardEmbed.isReversed (BoardEmbed.onMessage e (BoardEmbed.onMessage e s))
           = BoardEmbed.isReversed (BoardEmbed.onMessage e s)
        /\ (reverted (BoardEmbed.board (BoardEmbed.onMessage e s)) = true
            <-> BoardEmbed.role s = Some black)
        /\ BoardEmbed.flips (BoardEmbed.onMessage e (BoardEmbed.onMessage e s))
           = BoardEmbed.flips (BoardEmbed.onMessage e s)
             + (if is_role (BoardEmbed.role s) black then 1 else 0)).
Proof.
  split; [|split; [|split]].
  - intros s. rewrite ensureOrientation_idem. split; [reflexivity|]. split; [reflexivity|].
    split.
    + rewrite ensureOrientation_flag. apply is_role_black.
    + intros Hsync. rewrite (ensureOrientation_reverted s Hsync). apply is_role_black.
  - intros s. rewrite orientForRole_idem. split; [reflexivity|]. split; [reflexivity|].
    split.
    + rewrite orientForRole_flag. apply is_role_black.
    + intros Hsync. rewrite (orientForRole_reverted s Hsync). apply is_role_black.
  - intros s e r Hdata. rewrite (role_assign_twice s e r Hdata). split; reflexivity.
  - intros s e f p Horg Hdata Hfen.
    destruct (sync_state_effect e s f p Horg Hdata Hfen) as (Hr1 & Hf1 & Hv1 & _).
    assert (Horg' : ev_origin e = BoardEmbed.origin (BoardEmbed.onMessage e s)).
    { rewrite embed_origin_kept. exact Horg. }
    destruct (sync_state_effect e (BoardEmbed.onMessage e s) f p Horg' Hdata Hfen)
      as (_ & Hf2 & Hv2 & _ & Hn2).
    rewrite Hv2, Hf2, Hn2, Hr1, Hv1, Hf1.
    split; [reflexivity|]. split; [reflexivity|].
    split; [apply is_role_black | reflexivity].
Qed.

End OrientationFacts.

(** C6, where it fails.  A black child that has its role is sent the same
    SYNC_STATE twice: each delivery redraws the board and calls [reverse]
    again, so the second delivery is a further flip (two calls after the
    first delivery, three after the second).  And the reversed flag can part
    from the view: after ROLE_ASSIGN black and a SYNC_STATE with an empty
    position the flag is set while the view is not reversed, and from there
    [ensureOrientation], once or twice, leaves black's board unreversed. *)
Lemma orientation_restore_counterexample :
  BoardEmbed.flips
    (BoardEmbed.deliver Fixtures.here
       [ROLE_ASSIGN black; SYNC_STATE Doubles.start_fen None] Fixtures.child) = 2
  /\ BoardEmbed.flips
       (BoardEmbed.deliver Fixtures.here
          [ROLE_ASSIGN black; SYNC_STATE Doubles.start_fen None;
           SYNC_STATE Doubles.start_fen None] Fixtures.child) = 3
  /\ BoardEmbed.role
       (BoardEmbed.deliver Fixtures.here
          [ROLE_ASSIGN black; SYNC_STATE EmptyString None] Fixtures.child) = Some black
  /\ BoardEmbed.isReversed
       (BoardEmbed.deliver Fixtures.here
          [ROLE_ASSIGN black; SYNC_STATE EmptyString None] Fixtures.child) = true
  /\ reverted
       (BoardEmbed.board
          (BoardEmbed.deliver Fixtures.here
             [ROLE_ASSIGN black; SYNC_STATE EmptyString None] Fixtures.child)) = false
  /\ reverted
       (BoardEmbed.board
          (BoardEmbed.ensureOrientation
             (BoardEmbed.ensureOrientation
                (BoardEmbed.deliver Fixtures.here
                   [ROLE_ASSIGN black; SYNC_STATE EmptyString None] Fixtures.child))))
     = false.
Proof. repeat split; vm_compute; reflexivity. Qed.

Lemma orientation_restore_idempotent_witness :
  BoardEmbed.isReversed (BoardEmbed.set_role (Some black) Fixtures.child)
  = reverted (BoardEmbed.board (BoardEmbed.set_role (Some black) Fixtures.child))
  /\ reverted
       (BoardEmbed.board
          (BoardEmbed.ensureOrientation (BoardEmbed.set_role (Some black) Fixtures.child)))
     = true
  /\ BoardEmbed.flips
       (BoardEmbed.ensureOrientation
          (BoardEmbed.ensureOrientation (BoardEmbed.set_role (Some black) Fixtures.child)))
     = 1
  /\ Doubles.start_fen <> EmptyString
  /\ BoardEmbed.flips
       (BoardEmbed.onMessage (Fixtures.fromParent (SYNC_STATE Doubles.start_fen None))
          (BoardEmbed.onMessage (Fixtures.fromParent (SYNC_STATE Doubles.start_fen None))
             (BoardEmbed.set_role (Some black) Fixtures.child)))
     = 2.
Proof.
  assert (Hfen : Doubles.start_fen <> EmptyString) by discriminate.
  destruct (orientation_restore_idempotent (E:=Doubles.TableEngine) (W:=Doubles.PlainBoard))
    as (Hembed & _ & _ & Hsync).
  destruct (Hembed (BoardEmbed.set_role (Some black) Fixtures.child))
    as (_ & Hflips & _ & Hview).
  destruct (Hsync (BoardEmbed.set_role (Some black) Fixtures.child)
              (Fixtures.fromParent (SYNC_STATE Doubles.start_fen None))
              Doubles.start_fen None eq_refl eq_refl Hfen)
    as (_ & _ & _ & Hagain).
  split; [reflexivity|]. split; [|split; [|split]].
  - apply (Hview eq_refl). reflexivity.
  - rewrite Hflips. reflexivity.
  - exact Hfen.
  - rewrite Hagain. reflexivity.
Defined.

(** ** Storage Adapter *)

Section StorageFacts.
Context {T : Type} {C : JsonCodec T}.
Variable key : string.

Lemma load_after_clear (ls : LocalStorage) :
  StorageService.load (T:=T) key (StorageService.clear key ls) = None.
Proof.
  unfold StorageService.load, StorageService.clear, removeItem, getItem.
  destruct (denied ls) eqn:Hd; simpl; rewrite ?Hd; [reflexivity|].
  rewrite lookup_delete_eq. reflexivity.
Qed.

Lemma load_after_save (ls : LocalStorage) (state : T) :
  parse (stringify state) = Some state ->
  is_Some (setItem ls key (stringify state)) ->
  StorageService.load key (StorageService.save key state ls) = Some state.
Proof.
  intros Hjson [ls' Hset].
  unfold StorageService.save. rewrite Hset.
  unfold setItem in Hset.
  destruct (denied ls) eqn:Hd; [discriminate|].
  destruct (Nat.leb _ _); [|discriminate].
  injection Hset as <-.
  unfold StorageService.load, getItem. simpl.
  rewrite lookup_insert_eq.
  rewrite bool_decide_eq_false_2.
  - rewrite Hjson. reflexivity.
  - intros Hempty. rewrite Hempty, parse_empty in Hjson. discriminate.
Qed.

(** A refused write is swallowed: the store is left as it was. *)
Lemma save_refused (ls : LocalStorage) (state : T) :
  setItem ls key (stringify state) = None ->
  StorageService.save key state ls = ls.
Proof. intros Hset. unfold StorageService.save. rewrite Hset. reflexivity. Qed.

(** C10 (amended): for a value that survives stringify and parse unchanged,
    [load] after [save] returns that value provided the store accepted the
    write ([setItem] did not throw); and [load] after [clear] returns null. *)
Theorem save_load_roundtrip (ls : LocalStorage) (state : T) :
  parse (stringify state) = Some state ->
  (is_Some (setItem ls key (stringify state)) ->
   StorageService.load key (StorageService.save key state ls) = Some state)
  /\ StorageService.load (T:=T) key (StorageService.clear key ls) = None.
Proof.
  intros Hjson. split.
  - apply load_after_save. exact Hjson.
  - apply load_after_clear.
Qed.

End StorageFacts.

(** C10, as stated, fails: on a store that has no room left the write is
    refused and swallowed, and [load] after [save] returns null although the
    value survives stringify and parse. *)
Lemma save_load_roundtrip_counterexample :
  Fixtures.fromJson (Fixtures.toJson Fixtures.savedStart) = Some Fixtures.savedStart
  /\ Fixtures.storageLoad (Fixtures.storageSave Fixtures.savedStart (Doubles.emptyStore 0))
     = None
  /\ Fixtures.storageLoad (Fixtures.storageSave Fixtures.savedStart (Doubles.emptyStore 0))
     <> Some Fixtures.savedStart.
Proof.
  split; [vm_compute; reflexivity|].
  split; [vm_compute; reflexivity|].
  vm_compute. discriminate.
Qed.

Lemma save_load_roundtrip_witness :
  Fixtures.fromJson (Fixtures.toJson Fixtures.savedStart) = Some Fixtures.savedStart
  /\ is_Some (setItem (Doubles.emptyStore 4096) GameHost.STORAGE_KEY
                (Fixtures.toJson Fixtures.savedStart))
  /\ Fixtures.storageLoad (Fixtures.storageSave Fixtures.savedStart (Doubles.emptyStore 4096))
     = Some Fixtures.savedStart.
Proof.
  assert (Hjson : Fixtures.fromJson (Fixtures.toJson Fixtures.savedStart)
                  = Some Fixtures.savedStart) by (vm_compute; reflexivity).
  assert (Hfits : is_Some (setItem (Doubles.emptyStore 4096) GameHost.STORAGE_KEY
                             (Fixtures.toJson Fixtures.savedStart))).
  { vm_compute. eexists. reflexivity. }
  split; [exact Hjson|]. split; [exact Hfits|].
  destruct (save_load_roundtrip (C:=Doubles.SavedStateCodec) GameHost.STORAGE_KEY
              (Doubles.emptyStore 4096) Fixtures.savedStart Hjson)
    as (Hround & _).
  exact (Hround Hfits).
Defined.

(** * Further properties of the handlers *)

(** ** Storage Adapter: two services on one store *)

Section StorageKeys.
Context {T U : Type} {CT : JsonCodec T} {CU : JsonCodec U}.

(** X1: two storage services with different keys do not see each other's
    writes: saving or clearing under one key leaves what [load] returns
    under another key as it was. *)
Theorem storage_keys_independent (k k' : string) (ls : LocalStorage) (v : T) :
  k <> k' ->
  StorageService.load (T:=U) k' (StorageService.save k v ls)
  = StorageService.load (T:=U) k' ls
  /\ StorageService.load (T:=U) k' (StorageService.clear k ls)
     = StorageService.load (T:=U) k' ls.
Proof.
  intros Hne. split.
  - unfold StorageService.save, setItem.
    destruct (denied ls) eqn:Hd; [reflexivity|].
    destruct (Nat.leb _ _); [|reflexivity].
    unfold StorageService.load, getItem. simpl. rewrite Hd.
    rewrite lookup_insert_ne by exact Hne. reflexivity.
  - unfold StorageService.clear, removeItem.
    destruct (denied ls) eqn:Hd; [reflexivity|].
    unfold StorageService.load, getItem. simpl. rewrite Hd.
    rewrite lookup_delete_ne by exact Hne. reflexivity.
Qed.

End StorageKeys.

Lemma storage_keys_independent_witness :
  GameHost.STORAGE_KEY <> OnlineGame.STORAGE_KEY
  /\ StorageService.load (C:=Doubles.OnlineLocalStateCodec) OnlineGame.STORAGE_KEY
       (Fixtures.storageSave Fixtures.savedStart (Doubles.emptyStore 4096))
     = StorageService.load (C:=Doubles.OnlineLocalStateCodec) OnlineGame.STORAGE_KEY
         (Doubles.emptyStore 4096).
Proof.
  assert (Hne : GameHost.STORAGE_KEY <> OnlineGame.STORAGE_KEY) by discriminate.
  split; [exact Hne|].
  apply (storage_keys_independent (CT:=Doubles.SavedStateCodec)
           (CU:=Doubles.OnlineLocalStateCodec)
           GameHost.STORAGE_KEY OnlineGame.STORAGE_KEY
           (Doubles.emptyStore 4096) Fixtures.savedStart Hne).
Defined.

(** ** Local Sync Host: accepted moves, reload, new game *)

Section HostMoreFacts.
Context {E : RulesEngine} {C : JsonCodec GameHost.SavedState}.

(** What an accepted report does, up to the checkmate test. *)
Lemma accepted_report (s : GameHost.State) (e : MessageEvent)
    (f : string) (src : Window) (c : Chess) :
  ev_origin e = GameHost.origin s ->
  ev_source e = Some src ->
  ev_data e = Msg (BOARD_UPDATE f) ->
  GameHost.currentTurnWindow s = Some src ->
  chess_load (GameHost.chess s) f = Some c ->
  GameHost.chess (GameHost.onMessage e s) = c
  /\ GameHost.storage (GameHost.onMessage e s)
     = StorageService.save GameHost.STORAGE_KEY {| GameHost.fen := f |} (GameHost.storage s).
Proof.
  intros Horg Hsrc Hdata Hturn Hload. unfold GameHost.onMessage.
  rewrite bool_decide_eq_true_2 by exact Horg. simpl.
  rewrite Hsrc, Hdata, Hturn.
  rewrite bool_decide_eq_true_2 by reflexivity. simpl.
  rewrite Hload. simpl.
  destruct (chess_isCheckmate c); simpl.
  - match goal with
    | |- context [GameHost.postToBoth ?m ?x] =>
        destruct (frame_postToBoth m x) as (-> & -> & _)
    end. split; reflexivity.
  - match goal with
    | |- context [GameHost.broadcastTurn ?x] =>
        destruct (frame_broadcastTurn x) as (-> & -> & _)
    end.
    match goal with
    | |- context [GameHost.postTo ?t ?m ?x] =>
        destruct (frame_postTo t m x) as (-> & -> & _)
    end. split; reflexivity.
Qed.

(** X2: refresh-resume: the position of an accepted report, once the store took
    it, is the one a freshly loaded host page finds and loads in
    [ngAfterViewInit]. *)
Theorem host_resumes_saved_position (s s0 : GameHost.State) (e : MessageEvent)
    (f : string) (src : Window) (c c0 : Chess) :
  ev_origin e = GameHost.origin s ->
  ev_source e = Some src ->
  ev_data e = Msg (BOARD_UPDATE f) ->
  GameHost.currentTurnWindow s = Some src ->
  chess_load (GameHost.chess s) f = Some c ->
  f <> EmptyString ->
  parse (stringify {| GameHost.fen := f |}) = Some {| GameHost.fen := f |} ->
  is_Some (setItem (GameHost.storage s) GameHost.STORAGE_KEY
             (stringify {| GameHost.fen := f |})) ->
  GameHost.storage s0 = GameHost.storage (GameHost.onMessage e s) ->
  chess_load (GameHost.chess s0) f = Some c0 ->
  GameHost.chess (GameHost.ngAfterViewInit s0) = c0
  /\ GameHost.posted (GameHost.ngAfterViewInit s0) = GameHost.posted s0
  /\ GameHost.storage (GameHost.ngAfterViewInit s0) = GameHost.storage s0.
Proof.
  intros Horg Hsrc Hdata Hturn Hload Hf Hjson Hfits Hstore Hload0.
  destruct (accepted_report s e f src c Horg Hsrc Hdata Hturn Hload) as (_ & Hsaved).
  assert (Hfound : StorageService.load GameHost.STORAGE_KEY (GameHost.storage s0)
                   = Some {| GameHost.fen := f |}).
  { rewrite Hstore, Hsaved.
    apply (load_after_save GameHost.STORAGE_KEY (GameHost.storage s)
             {| GameHost.fen := f |} Hjson Hfits). }
  unfold GameHost.ngAfterViewInit. rewrite Hfound.
  simpl. rewrite bool_decide_eq_false_2 by exact Hf.
  rewrite Hload0. repeat split.
Qed.

End HostMoreFacts.

Lemma host_resumes_saved_position_witness :
  GameHost.storage Fixtures.reloadedHost = GameHost.storage Fixtures.hostMated
  /\ GameHost.chess Fixtures.reloadedHost = Doubles.start_fen
  /\ GameHost.chess (Fixtures.hostAfterViewInit Fixtures.reloadedHost)
     = Doubles.fools_mate_fen.
Proof.
  split; [reflexivity|]. split; [reflexivity|].
  assert (Hfits : is_Some (setItem (GameHost.storage
                                      (Fixtures.hostAt Fixtures.before_fools_mate_fen))
                             GameHost.STORAGE_KEY
                             (Fixtures.toJson {| GameHost.fen := Doubles.fools_mate_fen |}))).
  { vm_compute. eexists. reflexivity. }
  apply (host_resumes_saved_position (C:=Doubles.SavedStateCodec)
           (Fixtures.hostAt Fixtures.before_fools_mate_fen) Fixtures.reloadedHost
           (Fixtures.from 2 (BOARD_UPDATE Doubles.fools_mate_fen))
           Doubles.fools_mate_fen 2 Doubles.fools_mate_fen Doubles.fools_mate_fen
           eq_refl eq_refl eq_refl eq_refl eq_refl).
  - discriminate.
  - vm_compute. reflexivity.
  - exact Hfits.
  - reflexivity.
  - reflexivity.
Defined.

Section HostPostingFacts.
Context {E : RulesEngine} {C : JsonCodec GameHost.SavedState}.

Lemma in_bothChildren (t : Window) (m m' : WireMessage) (s : GameHost.State) :
  In (t, m') (GameHost.bothChildren m s) ->
  (GameHost.window1 s = Some t \/ GameHost.window2 s = Some t) /\ m' = m.
Proof.
  unfold GameHost.bothChildren.
  destruct (GameHost.window1 s) as [t1|], (GameHost.window2 s) as [t2|]; simpl;
    intros Hin; repeat destruct Hin as [Hin | Hin]; try contradiction;
    injection Hin as <- <-; split; auto.
Qed.

Lemma otherWindow_not_sender (src : Window) (s : GameHost.State) :
  GameHost.window1 s <> GameHost.window2 s ->
  GameHost.currentTurnWindow s = Some src ->
  GameHost.otherWindow src s <> Some src.
Proof.
  intros Hdistinct Hturn. unfold GameHost.otherWindow.
  destruct (bool_decide (Some src = GameHost.window1 s)) eqn:Hfirst.
  - apply bool_decide_eq_true_1 in Hfirst. intros Hsecond.
    apply Hdistinct. rewrite <- Hfirst, Hsecond. reflexivity.
  - apply bool_decide_eq_false_1 in Hfirst. intros Heq. apply Hfirst.
    symmetry. exact Heq.
Qed.

Lemma overlay_postTo (t : option Window) (m : WireMessage) (s : GameHost.State) :
  GameHost.overlayVisible (GameHost.postTo t m s) = GameHost.overlayVisible s
  /\ GameHost.overlayText (GameHost.postTo t m s) = GameHost.overlayText s.
Proof. destruct t; split; reflexivity. Qed.

Lemma overlay_postToBoth (m : WireMessage) (s : GameHost.State) :
  GameHost.overlayVisible (GameHost.postToBoth m s) = GameHost.overlayVisible s
  /\ GameHost.overlayText (GameHost.postToBoth m s) = GameHost.overlayText s.
Proof.
  unfold GameHost.postToBoth.
  rewrite (proj1 (overlay_postTo _ _ _)), (proj2 (overlay_postTo _ _ _)).
  apply overlay_postTo.
Qed.

Lemma overlay_broadcastTurn (s : GameHost.State) :
  GameHost.overlayVisible (GameHost.broadcastTurn s) = GameHost.overlayVisible s
  /\ GameHost.overlayText (GameHost.broadcastTurn s) = GameHost.overlayText s.
Proof.
  unfold GameHost.broadcastTurn.
  rewrite (proj1 (overlay_postToBoth _ _)), (proj2 (overlay_postToBoth _ _)).
  split; reflexivity.
Qed.

(** X3: an accepted report that does not give checkmate is loaded and saved,
    mirrored with SYNC_STATE to the other frame only, and followed by the new
    turn to both frames; with two distinct frames, everything the sender gets
    back is the TURN message. *)
Theorem accepted_move_mirrored (s : GameHost.State) (e : MessageEvent)
    (f : string) (src : Window) (c : Chess) :
  ev_origin e = GameHost.origin s ->
  ev_source e = Some src ->
  ev_data e = Msg (BOARD_UPDATE f) ->
  GameHost.currentTurnWindow s = Some src ->
  chess_load (GameHost.chess s) f = Some c ->
  chess_isCheckmate c = false ->
  GameHost.chess (GameHost.onMessage e s) = c
  /\ GameHost.storage (GameHost.onMessage e s)
     = StorageService.save GameHost.STORAGE_KEY {| GameHost.fen := f |} (GameHost.storage s)
  /\ GameHost.posted (GameHost.onMessage e s)
     = GameHost.posted s
       ++ match GameHost.otherWindow src s with
          | Some t => [(t, SYNC_STATE f None)]
          | None => []
          end
       ++ GameHost.bothChildren (TURN (chess_turn c)) s
  /\ (GameHost.window1 s <> GameHost.window2 s ->
      forall m,
        In (src, m) (drop (length (GameHost.posted s))
                       (GameHost.posted (GameHost.onMessage e s))) ->
        m = TURN (chess_turn c))
  /\ GameHost.overlayVisible (GameHost.onMessage e s) = GameHost.overlayVisible s.
Proof.
  intros Horg Hsrc Hdata Hturn Hload Hmate.
  destruct (accepted_report s e f src c Horg Hsrc Hdata Hturn Hload) as (Hchess & Hsaved).
  assert (Hposted : GameHost.posted (GameHost.onMessage e s)
                    = GameHost.posted s
                      ++ match GameHost.otherWindow src s with
                         | Some t => [(t, SYNC_STATE f None)]
                         | None => []
                         end
                      ++ GameHost.bothChildren (TURN (chess_turn c)) s).
  { unfold GameHost.onMessage.
    rewrite bool_decide_eq_true_2 by exact Horg. simpl.
    rewrite Hsrc, Hdata, Hturn.
    rewrite bool_decide_eq_true_2 by reflexivity. simpl.
    rewrite Hload. simpl. rewrite Hmate.
    match goal with
    | |- context [GameHost.broadcastTurn ?x] =>
        destruct (frame_broadcastTurn x) as (_ & _ & ->)
    end.
    rewrite posted_postTo. simpl.
    match goal with
    | |- context [GameHost.postTo ?t ?m ?x] =>
        destruct (frame_postTo t m x) as (-> & _)
    end. simpl.
    unfold GameHost.bothChildren, GameHost.otherWindow, GameHost.postTo. simpl.
    destruct (bool_decide (Some src = GameHost.window1 s));
      destruct (GameHost.window1 s) eqn:Hw1, (GameHost.window2 s) eqn:Hw2; simpl;
      rewrite ?Hw1, ?Hw2, <- ?app_assoc; reflexivity. }
  split; [exact Hchess|]. split; [exact Hsaved|]. split; [exact Hposted|]. split.
  - intros Hdistinct m. rewrite Hposted, drop_app_length.
    intros Hin. apply in_app_or in Hin as [Hin | Hin].
    + pose proof (otherWindow_not_sender src s Hdistinct Hturn) as Hother.
      destruct (GameHost.otherWindow src s) as [t|]; [|contradiction].
      destruct Hin as [Hin | []]. injection Hin as -> _. contradiction Hother. reflexivity.
    + apply in_bothChildren in Hin as (_ & ->). reflexivity.
  - unfold GameHost.onMessage.
    rewrite bool_decide_eq_true_2 by exact Horg. simpl.
    rewrite Hsrc, Hdata, Hturn.
    rewrite bool_decide_eq_true_2 by reflexivity. simpl.
    rewrite Hload. simpl. rewrite Hmate.
    rewrite (proj1 (overlay_broadcastTurn _)), (proj1 (overlay_postTo _ _ _)).
    reflexivity.
Qed.

(** X4: only a report changes the game: any other message leaves the position,
    the persisted state and the overlay as they were. *)
Theorem only_reports_change_position (s : GameHost.State) (e : MessageEvent) :
  (forall f, ev_data e <> Msg (BOARD_UPDATE f)) ->
  GameHost.chess (GameHost.onMessage e s) = GameHost.chess s
  /\ GameHost.storage (GameHost.onMessage e s) = GameHost.storage s
  /\ GameHost.overlayVisible (GameHost.onMessage e s) = GameHost.overlayVisible s
  /\ GameHost.overlayText (GameHost.onMessage e s) = GameHost.overlayText s.
Proof.
  intros Hother. unfold GameHost.onMessage.
  destruct (negb _); [repeat split|].
  destruct (ev_source e) as [src|]; [|repeat split].
  destruct (ev_data e) as [|[]]; try (repeat split; fail).
  - destruct (frame_broadcastTurn
                (GameHost.syncStateTo src
                   (GameHost.postTo (Some src)
                      (ROLE_ASSIGN
                         (if bool_decide (Some src = GameHost.window1 s)
                          then white else black)) s)))
      as (-> & -> & _).
    rewrite (proj1 (overlay_broadcastTurn _)), (proj2 (overlay_broadcastTurn _)).
    repeat split.
  - destruct (frame_broadcastTurn (GameHost.syncStateTo src s)) as (-> & -> & _).
    rewrite (proj1 (overlay_broadcastTurn _)), (proj2 (overlay_broadcastTurn _)).
    repeat split.
  - contradiction (Hother fen eq_refl).
Qed.

End HostPostingFacts.

Section HostOutboxFacts.
Context {E : RulesEngine} {C : JsonCodec GameHost.SavedState}.

Lemma in_postTo (t : option Window) (m : WireMessage) (x : Window * WireMessage) :
  In x (match t with Some y => [(y, m)] | None => [] end) -> t = Some (fst x).
Proof.
  destruct t as [y|]; simpl; [|contradiction].
  intros [<- | []]. reflexivity.
Qed.

(** X5: the host only ever adds to the list of posted messages, and whatever it
    adds goes to one of its two frames or back to the sender of the message it
    is handling. *)
Theorem host_posts_to_children_or_sender (s : GameHost.State) (e : MessageEvent) :
  exists added,
    GameHost.posted (GameHost.onMessage e s) = GameHost.posted s ++ added
    /\ forall t m,
         In (t, m) added ->
         GameHost.window1 s = Some t \/ GameHost.window2 s = Some t
         \/ ev_source e = Some t.
Proof.
  assert (Hnone : exists added,
             GameHost.posted s = GameHost.posted s ++ added
             /\ forall t m, In (t, m) added ->
                  GameHost.window1 s = Some t \/ GameHost.window2 s = Some t
                  \/ ev_source e = Some t).
  { exists []. split; [symmetry; apply app_nil_r | intros t m []]. }
  unfold GameHost.onMessage.
  destruct (negb _); [exact Hnone|].
  destruct (ev_source e) as [src|] eqn:Hsrc; [|exact Hnone].
  destruct (ev_data e) as [|[]]; try exact Hnone.
  - match goal with
    | |- context [GameHost.broadcastTurn ?x] =>
        destruct (frame_broadcastTurn x) as (_ & _ & Hp); rewrite Hp; clear Hp
    end.
    unfold GameHost.syncStateTo. rewrite !posted_postTo. simpl.
    eexists. split; [rewrite <- !app_assoc; reflexivity|].
    intros t m Hin. simpl in Hin.
    destruct Hin as [Hin | [Hin | Hin]].
    + injection Hin as <- _. right; right; reflexivity.
    + injection Hin as <- _. right; right; reflexivity.
    + apply in_bothChildren in Hin as ([Hw | Hw] & _); simpl in Hw; auto.
  - match goal with
    | |- context [GameHost.broadcastTurn ?x] =>
        destruct (frame_broadcastTurn x) as (_ & _ & Hp); rewrite Hp; clear Hp
    end.
    unfold GameHost.syncStateTo. rewrite !posted_postTo. simpl.
    eexists. split; [rewrite <- !app_assoc; reflexivity|].
    intros t m Hin. simpl in Hin.
    destruct Hin as [Hin | Hin].
    + injection Hin as <- _. right; right; reflexivity.
    + apply in_bothChildren in Hin as ([Hw | Hw] & _); simpl in Hw; auto.
  - destruct (negb _); [exact Hnone|].
    destruct (chess_load _ _) as [c|]; [|exact Hnone].
    destruct (chess_isCheckmate _).
    + simpl. rewrite posted_postToBoth. simpl.
      eexists. split; [reflexivity|].
      intros t m Hin. apply in_bothChildren in Hin as ([Hw | Hw] & _); simpl in Hw; auto.
    + match goal with
      | |- context [GameHost.broadcastTurn ?x] =>
          destruct (frame_broadcastTurn x) as (_ & _ & Hp); rewrite Hp; clear Hp
      end.
      rewrite posted_postTo. simpl.
      eexists. split; [rewrite <- !app_assoc; reflexivity|].
      intros t m Hin. apply in_app_or in Hin as [Hin | Hin].
      * apply in_postTo in Hin. simpl in Hin. unfold GameHost.otherWindow in Hin.
        simpl in Hin. destruct (bool_decide _); auto.
      * apply in_bothChildren in Hin as (Hw & _).
        match type of Hw with
        | context [GameHost.postTo ?t0 ?m0 ?x0] =>
            destruct (frame_postTo t0 m0 x0) as (_ & _ & Hw1 & Hw2)
        end.
        rewrite Hw1, Hw2 in Hw. simpl in Hw. destruct Hw; auto.
Qed.

(** X6: [newGame] starts over: a fresh position, nothing left in the store for
    the next page load to restore, the overlay hidden, and RESET, the fresh
    position and the turn posted, in that order, to each loaded frame. *)
Theorem newGame_starts_over (s : GameHost.State) :
  GameHost.chess (GameHost.newGame s) = newChess
  /\ StorageService.load (T:=GameHost.SavedState) GameHost.STORAGE_KEY
       (GameHost.storage (GameHost.newGame s)) = None
  /\ GameHost.overlayVisible (GameHost.newGame s) = false
  /\ GameHost.overlayText (GameHost.newGame s) = EmptyString
  /\ GameHost.posted (GameHost.newGame s)
     = GameHost.posted s
       ++ GameHost.bothChildren RESET s
       ++ GameHost.bothChildren (SYNC_STATE (chess_fen newChess) None) s
       ++ GameHost.bothChildren (TURN (chess_turn newChess)) s
  /\ (forall s0,
        GameHost.storage s0 = GameHost.storage (GameHost.newGame s) ->
        GameHost.ngAfterViewInit s0 = s0).
Proof.
  set (s4 := GameHost.set_overlayText EmptyString
               (GameHost.set_overlayVisible false
                  (GameHost.set_storage
                     (StorageService.clear GameHost.STORAGE_KEY (GameHost.storage s))
                     (GameHost.set_chess newChess s)))).
  set (s5 := GameHost.postToBoth RESET s4).
  set (s6 := GameHost.postToBoth (SYNC_STATE (chess_fen newChess) None) s5).
  assert (Hstep : GameHost.newGame s = GameHost.broadcastTurn s6) by reflexivity.
  assert (Hw5 : GameHost.wiring s5 = GameHost.wiring s).
  { unfold s5. rewrite wiring_postToBoth. reflexivity. }
  assert (Hw6 : GameHost.wiring s6 = GameHost.wiring s).
  { unfold s6. rewrite wiring_postToBoth. exact Hw5. }
  assert (Hboth : forall m x, GameHost.wiring x = GameHost.wiring s ->
                    GameHost.bothChildren m x = GameHost.bothChildren m s).
  { intros m x Hx. unfold GameHost.bothChildren.
    injection Hx as -> -> _. reflexivity. }
  destruct (frame_postToBoth RESET s4) as (Hc5 & Hs5 & _).
  destruct (frame_postToBoth (SYNC_STATE (chess_fen newChess) None) s5) as (Hc6 & Hs6 & _).
  destruct (frame_broadcastTurn s6) as (Hc7 & Hs7 & Hp7).
  assert (Hstore : GameHost.storage (GameHost.newGame s)
                   = StorageService.clear GameHost.STORAGE_KEY (GameHost.storage s)).
  { rewrite Hstep, Hs7. fold s6. unfold s6. rewrite Hs6. fold s5. unfold s5.
    rewrite Hs5. reflexivity. }
  assert (Hchess : GameHost.chess s6 = newChess).
  { unfold s6. rewrite Hc6. unfold s5. rewrite Hc5. reflexivity. }
  split; [rewrite Hstep, Hc7; exact Hchess|].
  split; [rewrite Hstore; apply load_after_clear|].
  split.
  { rewrite Hstep, (proj1 (overlay_broadcastTurn _)). unfold s6.
    rewrite (proj1 (overlay_postToBoth _ _)). unfold s5.
    rewrite (proj1 (overlay_postToBoth _ _)). reflexivity. }
  split.
  { rewrite Hstep, (proj2 (overlay_broadcastTurn _)). unfold s6.
    rewrite (proj2 (overlay_postToBoth _ _)). unfold s5.
    rewrite (proj2 (overlay_postToBoth _ _)). reflexivity. }
  split.
  { rewrite Hstep, Hp7, Hchess, (Hboth _ s6 Hw6).
    unfold s6. rewrite posted_postToBoth, (Hboth _ s5 Hw5).
    unfold s5. rewrite posted_postToBoth.
    assert (Hw4 : GameHost.wiring s4 = GameHost.wiring s) by reflexivity.
    rewrite (Hboth _ s4 Hw4). rewrite <- !app_assoc. reflexivity. }
  intros s0 Hs0. unfold GameHost.ngAfterViewInit.
  rewrite Hs0, Hstore, load_after_clear. reflexivity.
Qed.

End HostOutboxFacts.

Lemma accepted_move_mirrored_witness :
  chess_isCheckmate (RulesEngine:=Doubles.TableEngine) Fixtures.after_e4_fen = false
  /\ GameHost.posted
       (Fixtures.hostOnMessage (Fixtures.from 1 (BOARD_UPDATE Fixtures.after_e4_fen))
          (Fixtures.hostAt Doubles.start_fen))
     = [(2, SYNC_STATE Fixtures.after_e4_fen None); (1, TURN b); (2, TURN b)].
Proof.
  split; [reflexivity|].
  destruct (accepted_move_mirrored (C:=Doubles.SavedStateCodec)
              (Fixtures.hostAt Doubles.start_fen)
              (Fixtures.from 1 (BOARD_UPDATE Fixtures.after_e4_fen))
              Fixtures.after_e4_fen 1 Fixtures.after_e4_fen
              eq_refl eq_refl eq_refl eq_refl eq_refl eq_refl)
    as (_ & _ & Hposted & _).
  exact Hposted.
Defined.

Lemma only_reports_change_position_witness :
  GameHost.chess (Fixtures.hostOnMessage (Fixtures.from 2 REQUEST_SYNC) Fixtures.hostMated)
  = Doubles.fools_mate_fen
  /\ GameHost.storage (Fixtures.hostOnMessage (Fixtures.from 2 REQUEST_SYNC) Fixtures.hostMated)
     = GameHost.storage Fixtures.hostMated.
Proof.
  destruct (only_reports_change_position (C:=Doubles.SavedStateCodec)
              Fixtures.hostMated (Fixtures.from 2 REQUEST_SYNC))
    as (Hchess & Hstore & _).
  - intros f Hf. discriminate Hf.
  - split; [exact Hchess | exact Hstore].
Defined.

Lemma newGame_starts_over_witness :
  GameHost.chess (GameHost.newGame Fixtures.hostMated) = newChess
  /\ GameHost.ngAfterViewInit (C:=Doubles.SavedStateCodec)
       (GameHost.newGame Fixtures.hostMated)
     = GameHost.newGame Fixtures.hostMated.
Proof.
  destruct (newGame_starts_over (C:=Doubles.SavedStateCodec) Fixtures.hostMated)
    as (Hchess & _ & _ & _ & _ & Hreload).
  split; [exact Hchess|].
  exact (Hreload (GameHost.newGame Fixtures.hostMated) eq_refl).
Defined.

(** ** Embedded Board Controller: what every reachable state satisfies *)

Section EmbedInvariants.
Context {W : BoardWidget}.

Lemma run_preserves (P : BoardEmbed.State -> Prop) :
  (forall s i, P s -> P (BoardEmbed.step s i)) ->
  forall inputs s, P s -> P (BoardEmbed.run inputs s).
Proof.
  intros Hstep inputs. induction inputs as [|i inputs IH]; intros s Hs; [exact Hs|].
  apply IH, Hstep, Hs.
Qed.

Lemma ensureOrientation_calls (s : BoardEmbed.State) :
  BoardEmbed.calls (BoardEmbed.ensureOrientation s)
  = BoardEmbed.calls s
    ++ (if eqb (is_role (BoardEmbed.role s) black) (BoardEmbed.isReversed s)
        then [] else [(CallReverse, BoardEmbed.applyingRemote s)])
  /\ BoardEmbed.board (BoardEmbed.ensureOrientation s)
     = (if eqb (is_role (BoardEmbed.role s) black) (BoardEmbed.isReversed s)
        then BoardEmbed.board s else reverse (BoardEmbed.board s))
  /\ BoardEmbed.sent (BoardEmbed.ensureOrientation s) = BoardEmbed.sent s.
Proof.
  unfold BoardEmbed.ensureOrientation.
  destruct (eqb _ _); simpl; repeat split. symmetry. apply app_nil_r.
Qed.

Lemma run_preserves_where (Q : BoardEmbed.Input -> Prop) (P : BoardEmbed.State -> Prop) :
  (forall s i, Q i -> P s -> P (BoardEmbed.step s i)) ->
  forall inputs s, Forall Q inputs -> P s -> P (BoardEmbed.run inputs s).
Proof.
  intros Hstep inputs. induction inputs as [|i inputs IH]; intros s Hall Hs; [exact Hs|].
  inversion Hall as [|i' inputs' Hi Hrest]; subst.
  apply IH; [exact Hrest|]. apply Hstep; assumption.
Qed.

(** What RESET does to a child. *)
Lemma reset_effect (e : MessageEvent) (s : BoardEmbed.State) :
  ev_origin e = BoardEmbed.origin s ->
  ev_data e = Msg RESET ->
  BoardEmbed.role (BoardEmbed.onMessage e s) = BoardEmbed.role s
  /\ BoardEmbed.board (BoardEmbed.onMessage e s)
     = (if is_role (BoardEmbed.role s) black
        then reverse (reset (BoardEmbed.board s)) else reset (BoardEmbed.board s))
  /\ BoardEmbed.isReversed (BoardEmbed.onMessage e s) = is_role (BoardEmbed.role s) black
  /\ BoardEmbed.moveDisabled (BoardEmbed.onMessage e s)
     = negb (is_role (BoardEmbed.role s) white)
  /\ BoardEmbed.applyingRemote (BoardEmbed.onMessage e s) = false
  /\ BoardEmbed.calls (BoardEmbed.onMessage e s)
     = BoardEmbed.calls s
       ++ (CallReset, true)
          :: (if is_role (BoardEmbed.role s) black then [(CallReverse, false)] else [])
  /\ BoardEmbed.sent (BoardEmbed.onMessage e s) = BoardEmbed.sent s.
Proof.
  intros Horg Hdata. unfold BoardEmbed.onMessage.
  rewrite bool_decide_eq_true_2 by exact Horg. simpl. rewrite Hdata.
  set (s4 := BoardEmbed.set_isReversed false
               (BoardEmbed.set_applyingRemote false
                  (BoardEmbed.callBoard CallReset (BoardEmbed.set_applyingRemote true s)))).
  destruct (ensureOrientation_frame s4) as (Hr & _ & Ha & _).
  destruct (ensureOrientation_calls s4) as (Hc & Hb & Hs).
  pose proof (ensureOrientation_flag s4) as Hf.
  change (BoardEmbed.role s4) with (BoardEmbed.role s) in *.
  change (BoardEmbed.isReversed s4) with false in *.
  simpl. rewrite Hr, Hb, Hf, Ha, Hc, Hs.
  destruct (is_role (BoardEmbed.role s) black); simpl;
    repeat split; rewrite <- app_assoc; reflexivity.
Qed.

(** X8: the view is turned to the side of the role: in every state the
    component reaches from a view that starts unreversed, by inputs among
    which no SYNC_STATE carries the empty string for a position, the view is
    reversed iff the role is black, and the flag says so. *)
Theorem view_follows_role (bd : Board) (org : string) (inputs : list BoardEmbed.Input) :
  reverted bd = false ->
  Forall BoardEmbed.carriesPosition inputs ->
  (reverted (BoardEmbed.board (BoardEmbed.run inputs (BoardEmbed.init bd org))) = true
   <-> BoardEmbed.role (BoardEmbed.run inputs (BoardEmbed.init bd org)) = Some black)
  /\ BoardEmbed.isReversed (BoardEmbed.run inputs (BoardEmbed.init bd org))
     = reverted (BoardEmbed.board (BoardEmbed.run inputs (BoardEmbed.init bd org))).
Proof.
  intros Hstart Hfens.
  set (Inv := fun s : BoardEmbed.State =>
                BoardEmbed.isReversed s = is_role (BoardEmbed.role s) black
                /\ reverted (BoardEmbed.board s) = is_role (BoardEmbed.role s) black).
  assert (Hinv : Inv (BoardEmbed.run inputs (BoardEmbed.init bd org))).
  { apply (run_preserves_where BoardEmbed.carriesPosition); [|exact Hfens|].
    - intros s [e| |] Hfen (Hflag & Hview); unfold Inv; simpl.
      + destruct (decide (ev_origin e = BoardEmbed.origin s)) as [Horg | Horg].
        * destruct (ev_data e) as [|m] eqn:Hdata.
          { unfold BoardEmbed.onMessage.
            rewrite bool_decide_eq_true_2 by exact Horg. simpl. rewrite Hdata.
            split; assumption. }
          destruct m.
          -- unfold BoardEmbed.onMessage.
             rewrite bool_decide_eq_true_2 by exact Horg. simpl. rewrite Hdata.
             split; assumption.
          -- rewrite (role_assign_effect e s role Horg Hdata).
             destruct (ensureOrientation_frame (BoardEmbed.set_role (Some role) s))
               as (-> & _).
             split; [apply ensureOrientation_flag|].
             apply ensureOrientation_reverted. simpl. congruence.
          -- unfold BoardEmbed.onMessage.
             rewrite bool_decide_eq_true_2 by exact Horg. simpl. rewrite Hdata.
             split; assumption.
          -- simpl in Hfen. rewrite Hdata in Hfen.
             destruct (sync_state_effect e s fen pgn Horg Hdata Hfen)
               as (-> & -> & -> & _). split; reflexivity.
          -- unfold BoardEmbed.onMessage.
             rewrite bool_decide_eq_true_2 by exact Horg. simpl. rewrite Hdata.
             split; assumption.
          -- destruct (turn_keeps_board e s turn Hdata) as (-> & ->).
             split; [|exact Hview].
             unfold BoardEmbed.onMessage.
             rewrite bool_decide_eq_true_2 by exact Horg. simpl. rewrite Hdata.
             destruct (BoardEmbed.role s); exact Hflag.
          -- destruct (reset_effect e s Horg Hdata) as (-> & -> & -> & _).
             split; [reflexivity|].
             destruct (is_role (BoardEmbed.role s) black);
               rewrite ?reverted_reverse, reverted_reset; reflexivity.
          -- unfold BoardEmbed.onMessage.
             rewrite bool_decide_eq_true_2 by exact Horg. simpl. rewrite Hdata.
             split; assumption.
        * unfold BoardEmbed.onMessage.
          rewrite bool_decide_eq_false_2 by exact Horg. split; assumption.
      + unfold BoardEmbed.onUserMove.
        destruct (BoardEmbed.applyingRemote s); split; assumption.
      + split; assumption.
    - split; [reflexivity | exact Hstart]. }
  destruct Hinv as (Hflag & Hview). split.
  - rewrite Hview. apply is_role_black.
  - congruence.
Qed.

(** X9: applying a command from the host is never taken for a move by the user.
    No handler of a host message posts anything to the parent.  While the
    guard [applyingRemote] is set, a move-completed notification is dropped:
    [onUserMove] changes nothing; with the guard released it posts exactly
    one BOARD_UPDATE with the view's position.  In every reachable state the
    guard is released again, and every call that redraws the view ([setFEN],
    [reset]) was made with the guard set, so that a notification the view
    raises during that call, in whatever state, is dropped. *)
Theorem remote_updates_never_echo :
  (forall (e : MessageEvent) (s : BoardEmbed.State),
      BoardEmbed.sent (BoardEmbed.onMessage e s) = BoardEmbed.sent s)
  /\ (forall s : BoardEmbed.State,
        BoardEmbed.applyingRemote s = true -> BoardEmbed.onUserMove s = s)
  /\ (forall s : BoardEmbed.State,
        BoardEmbed.applyingRemote s = false ->
        BoardEmbed.sent (BoardEmbed.onUserMove s)
        = BoardEmbed.sent s ++ [BOARD_UPDATE (getFEN (BoardEmbed.board s))])
  /\ (forall (bd : Board) (org : string) (inputs : list BoardEmbed.Input),
        BoardEmbed.applyingRemote (BoardEmbed.run inputs (BoardEmbed.init bd org)) = false
        /\ Forall (fun cg =>
                     fst cg = CallReverse
                     \/ (snd cg = true
                         /\ forall x : BoardEmbed.State,
                              BoardEmbed.applyingRemote x = snd cg ->
                              BoardEmbed.onUserMove x = x))
             (BoardEmbed.calls (BoardEmbed.run inputs (BoardEmbed.init bd org)))).
Proof.
  assert (Hdrop : forall s : BoardEmbed.State,
             BoardEmbed.applyingRemote s = true -> BoardEmbed.onUserMove s = s).
  { intros s Hguard. unfold BoardEmbed.onUserMove. rewrite Hguard. reflexivity. }
  assert (Hpost : forall s : BoardEmbed.State,
             BoardEmbed.applyingRemote s = false ->
             BoardEmbed.sent (BoardEmbed.onUserMove s)
             = BoardEmbed.sent s ++ [BOARD_UPDATE (getFEN (BoardEmbed.board s))]).
  { intros s Hguard. unfold BoardEmbed.onUserMove. rewrite Hguard. reflexivity. }
  assert (Hredraw : forall c : BoardCall,
             (c, true).1 = CallReverse
             \/ ((c, true).2 = true
                 /\ forall x : BoardEmbed.State,
                      BoardEmbed.applyingRemote x = (c, true).2 ->
                      BoardEmbed.onUserMove x = x)).
  { intros c. right. split; [reflexivity | exact Hdrop]. }
  assert (Hsent : forall (e : MessageEvent) (s : BoardEmbed.State),
             BoardEmbed.sent (BoardEmbed.onMessage e s) = BoardEmbed.sent s).
  { intros e s. unfold BoardEmbed.onMessage.
    destruct (negb _); [reflexivity|].
    destruct (ev_data e) as [|[]]; try reflexivity; simpl.
    - match goal with
      | |- context [BoardEmbed.ensureOrientation ?x] =>
          destruct (ensureOrientation_calls x) as (_ & _ & ->)
      end. reflexivity.
    - match goal with
      | |- context [BoardEmbed.ensureOrientation ?x] =>
          destruct (ensureOrientation_calls x) as (_ & _ & ->)
      end. reflexivity.
    - destruct (BoardEmbed.role s); reflexivity.
    - match goal with
      | |- context [BoardEmbed.ensureOrientation ?x] =>
          destruct (ensureOrientation_calls x) as (_ & _ & ->)
      end. reflexivity. }
  split; [exact Hsent|]. split; [exact Hdrop|]. split; [exact Hpost|].
  intros bd org inputs.
  apply (run_preserves
           (fun s => BoardEmbed.applyingRemote s = false
                     /\ Forall (fun cg =>
                                  fst cg = CallReverse
                                  \/ (snd cg = true
                                      /\ forall x : BoardEmbed.State,
                                           BoardEmbed.applyingRemote x = snd cg ->
                                           BoardEmbed.onUserMove x = x))
                          (BoardEmbed.calls s))).
  - intros s [e| |] (Hguard & Hcalls); simpl.
    + unfold BoardEmbed.onMessage.
      destruct (negb _); [split; assumption|].
      destruct (ev_data e) as [|[]]; try (split; assumption); simpl.
      * match goal with
        | |- context [BoardEmbed.ensureOrientation ?x] =>
            destruct (ensureOrientation_calls x) as (-> & _);
            destruct (ensureOrientation_frame x) as (_ & _ & -> & _)
        end.
        split; [exact Hguard|]. simpl.
        apply Forall_app. split; [exact Hcalls|].
        destruct (eqb _ _); repeat constructor.
      * split; [reflexivity|].
        match goal with
        | |- context [BoardEmbed.ensureOrientation ?x] =>
            destruct (ensureOrientation_calls x) as (-> & _)
        end. simpl.
        apply Forall_app. split.
        -- apply Forall_app. split; [exact Hcalls|].
           constructor; [apply Hredraw | constructor].
        -- destruct (eqb _ _); repeat constructor.
      * destruct (BoardEmbed.role s); split; assumption.
      * match goal with
        | |- context [BoardEmbed.ensureOrientation ?x] =>
            destruct (ensureOrientation_calls x) as (-> & _);
            destruct (ensureOrientation_frame x) as (_ & _ & -> & _)
        end.
        split; [reflexivity|]. simpl.
        apply Forall_app. split.
        -- apply Forall_app. split; [exact Hcalls|].
           constructor; [apply Hredraw | constructor].
        -- destruct (eqb _ _); repeat constructor.
    + unfold BoardEmbed.onUserMove. rewrite Hguard. split; assumption.
    + split; assumption.
  - split; [reflexivity | constructor].
Qed.

End EmbedInvariants.

Lemma remote_updates_never_echo_witness :
  BoardEmbed.applyingRemote (BoardEmbed.set_applyingRemote true Fixtures.child) = true
  /\ BoardEmbed.sent
       (BoardEmbed.onUserMove (BoardEmbed.set_applyingRemote true Fixtures.child))
     = [IFRAME_READY; REQUEST_SYNC]
  /\ BoardEmbed.sent (BoardEmbed.onUserMove Fixtures.child)
     = [IFRAME_READY; REQUEST_SYNC; BOARD_UPDATE Doubles.start_fen].
Proof.
  destruct (remote_updates_never_echo (W:=Doubles.PlainBoard)) as (_ & Hdrop & Hpost & _).
  split; [reflexivity|]. split.
  - rewrite (Hdrop (BoardEmbed.set_applyingRemote true Fixtures.child) eq_refl).
    reflexivity.
  - rewrite (Hpost Fixtures.child eq_refl). reflexivity.
Defined.

Lemma view_follows_role_witness :
  reverted (BoardEmbed.board (Fixtures.childRun Fixtures.blackSession)) = true.
Proof.
  assert (Hfens : Forall BoardEmbed.carriesPosition Fixtures.blackSession).
  { repeat constructor. simpl. discriminate. }
  destruct (view_follows_role (W:=Doubles.PlainBoard)
              Fixtures.startView Fixtures.here Fixtures.blackSession eq_refl Hfens)
    as (Hview & _).
  apply (proj2 Hview). reflexivity.
Defined.

Section EmbedGating.
Context {W : BoardWidget}.

(** X10: only the role's own side can ever be dragged: in every reachable state,
    light pieces are draggable only for white, dark pieces only for black,
    and never both; without a role nothing can be dragged. *)
Theorem only_own_side_draggable (bd : Board) (org : string) (inputs : list BoardEmbed.Input) :
  (BoardEmbed.lightDisabled (BoardEmbed.run inputs (BoardEmbed.init bd org)) = false ->
   BoardEmbed.role (BoardEmbed.run inputs (BoardEmbed.init bd org)) = Some white)
  /\ (BoardEmbed.darkDisabled (BoardEmbed.run inputs (BoardEmbed.init bd org)) = false ->
      BoardEmbed.role (BoardEmbed.run inputs (BoardEmbed.init bd org)) = Some black)
  /\ (BoardEmbed.lightDisabled (BoardEmbed.run inputs (BoardEmbed.init bd org)) = true
      \/ BoardEmbed.darkDisabled (BoardEmbed.run inputs (BoardEmbed.init bd org)) = true).
Proof.
  assert (Hinv : BoardEmbed.roleless_disabled
                   (BoardEmbed.run inputs (BoardEmbed.init bd org))).
  { apply run_roleless_disabled. intros _. reflexivity. }
  unfold BoardEmbed.roleless_disabled in Hinv.
  unfold BoardEmbed.lightDisabled, BoardEmbed.darkDisabled.
  destruct (BoardEmbed.role (BoardEmbed.run inputs (BoardEmbed.init bd org)))
    as [[]|] eqn:Hrole; simpl.
  - split; [reflexivity|]. split; [discriminate|]. right. reflexivity.
  - split; [discriminate|]. split; [reflexivity|]. left. reflexivity.
  - rewrite (Hinv eq_refl). simpl. split; [discriminate|]. split; [discriminate|].
    left. reflexivity.
Qed.

(** X11: after the three messages of a new game (RESET, the fresh position, the
    turn) a child keeps its role, shows the board from its side (the position
    sent being one, not the empty string) with the guard released, has
    reported nothing, and can move iff the announced turn is its own; a child
    without a role cannot move. *)
Theorem child_follows_new_game (k : BoardEmbed.State) (f : string) (t : Turn) :
  BoardEmbed.role
    (BoardEmbed.deliver (BoardEmbed.origin k) [RESET; SYNC_STATE f None; TURN t] k)
  = BoardEmbed.role k
  /\ (f <> EmptyString ->
      reverted
        (BoardEmbed.board
           (BoardEmbed.deliver (BoardEmbed.origin k) [RESET; SYNC_STATE f None; TURN t] k))
      = is_role (BoardEmbed.role k) black)
  /\ BoardEmbed.applyingRemote
       (BoardEmbed.deliver (BoardEmbed.origin k) [RESET; SYNC_STATE f None; TURN t] k)
     = false
  /\ BoardEmbed.sent
       (BoardEmbed.deliver (BoardEmbed.origin k) [RESET; SYNC_STATE f None; TURN t] k)
     = BoardEmbed.sent k
  /\ (forall r,
        BoardEmbed.role k = Some r ->
        BoardEmbed.moveDisabled
          (BoardEmbed.deliver (BoardEmbed.origin k) [RESET; SYNC_STATE f None; TURN t] k)
        = negb (BoardEmbed.isMyTurn r t))
  /\ (BoardEmbed.role k = None ->
      BoardEmbed.moveDisabled
        (BoardEmbed.deliver (BoardEmbed.origin k) [RESET; SYNC_STATE f None; TURN t] k)
      = true).
Proof.
  unfold BoardEmbed.deliver. simpl.
  set (e1 := {| ev_origin := BoardEmbed.origin k; ev_source := None; ev_data := Msg RESET |}).
  set (e2 := {| ev_origin := BoardEmbed.origin k; ev_source := None;
                ev_data := Msg (SYNC_STATE f None) |}).
  set (e3 := {| ev_origin := BoardEmbed.origin k; ev_source := None;
                ev_data := Msg (TURN t) |}).
  destruct (reset_effect e1 k eq_refl eq_refl) as (Hr1 & _ & _ & Hm1 & _ & _ & Hs1).
  set (k1 := BoardEmbed.onMessage e1 k) in *.
  assert (Ho1 : ev_origin e2 = BoardEmbed.origin k1).
  { unfold k1. rewrite embed_origin_kept. reflexivity. }
  destruct (sync_state_frame e2 k1 f None Ho1 eq_refl) as (Hr2 & _ & Ha2).
  assert (Hv2 : f <> EmptyString ->
                reverted (BoardEmbed.board (BoardEmbed.onMessage e2 k1))
                = is_role (BoardEmbed.role k1) black).
  { intros Hfen. apply (sync_state_effect e2 k1 f None Ho1 eq_refl Hfen). }
  assert (Hm2 : BoardEmbed.moveDisabled (BoardEmbed.onMessage e2 k1)
                = BoardEmbed.moveDisabled k1).
  { unfold BoardEmbed.onMessage.
    rewrite bool_decide_eq_true_2 by exact Ho1. simpl.
    match goal with
    | |- context [BoardEmbed.ensureOrientation ?x] =>
        destruct (ensureOrientation_frame x) as (_ & -> & _)
    end. reflexivity. }
  assert (Hs2 : BoardEmbed.sent (BoardEmbed.onMessage e2 k1) = BoardEmbed.sent k1).
  { unfold BoardEmbed.onMessage.
    rewrite bool_decide_eq_true_2 by exact Ho1. simpl.
    match goal with
    | |- context [BoardEmbed.ensureOrientation ?x] =>
        destruct (ensureOrientation_calls x) as (_ & _ & ->)
    end. reflexivity. }
  set (k2 := BoardEmbed.onMessage e2 k1) in *.
  assert (Ho2 : ev_origin e3 = BoardEmbed.origin k2).
  { unfold k2. rewrite embed_origin_kept. unfold k1. rewrite embed_origin_kept. reflexivity. }
  rewrite Hr1 in Hr2, Hv2.
  assert (Hstep : BoardEmbed.onMessage e3 k2
                  = match BoardEmbed.role k with
                    | None => k2
                    | Some r => BoardEmbed.set_moveDisabled (negb (BoardEmbed.isMyTurn r t)) k2
                    end).
  { unfold BoardEmbed.onMessage.
    rewrite bool_decide_eq_true_2 by exact Ho2. simpl. rewrite Hr2. reflexivity. }
  rewrite Hstep.
  destruct (BoardEmbed.role k) as [r|] eqn:Hrole; simpl.
  - repeat split; try assumption.
    + congruence.
    + intros r' Hr'. injection Hr' as <-. reflexivity.
    + discriminate.
  - repeat split; try assumption.
    + congruence.
    + discriminate.
    + intros _. rewrite Hm2, Hm1. reflexivity.
Qed.

End EmbedGating.

Lemma only_own_side_draggable_witness :
  BoardEmbed.lightDisabled (Fixtures.childRun Fixtures.whiteToMove) = false
  /\ BoardEmbed.role (Fixtures.childRun Fixtures.whiteToMove) = Some white
  /\ BoardEmbed.darkDisabled (Fixtures.childRun Fixtures.whiteToMove) = true.
Proof.
  destruct (only_own_side_draggable (W:=Doubles.PlainBoard)
              Fixtures.startView Fixtures.here Fixtures.whiteToMove)
    as (Hlight & _ & [Hl | Hdark]).
  - discriminate Hl.
  - split; [reflexivity|]. split; [exact (Hlight eq_refl) | exact Hdark].
Defined.

Lemma child_follows_new_game_witness :
  BoardEmbed.moveDisabled
    (BoardEmbed.deliver Fixtures.here [RESET; SYNC_STATE Doubles.start_fen None; TURN w]
       (BoardEmbed.set_role (Some black) Fixtures.child))
  = true
  /\ Doubles.start_fen <> EmptyString
  /\ reverted
       (BoardEmbed.board
          (BoardEmbed.deliver Fixtures.here
             [RESET; SYNC_STATE Doubles.start_fen None; TURN w]
             (BoardEmbed.set_role (Some black) Fixtures.child)))
     = true.
Proof.
  destruct (child_follows_new_game (BoardEmbed.set_role (Some black) Fixtures.child)
              Doubles.start_fen w)
    as (_ & Hview & _ & _ & Hmove & _).
  split; [exact (Hmove black eq_refl)|].
  split; [discriminate|]. apply Hview. discriminate.
Defined.

(** ** Online Sync Controller: the subscription callback *)

Section SnapshotFacts.
Context {E : RulesEngine} {W : BoardWidget} {C : JsonCodec OnlineGame.OnlineLocalState}.

Lemma orientForRole_keeps (s : OnlineGame.State) :
  OnlineGame.bothJoined (OnlineGame.orientForRole s) = OnlineGame.bothJoined s
  /\ OnlineGame.moveDisabled (OnlineGame.orientForRole s) = OnlineGame.moveDisabled s
  /\ OnlineGame.gameRef (OnlineGame.orientForRole s) = OnlineGame.gameRef s
  /\ OnlineGame.overlayVisible (OnlineGame.orientForRole s) = OnlineGame.overlayVisible s
  /\ OnlineGame.code (OnlineGame.orientForRole s) = OnlineGame.code s
  /\ OnlineGame.clientId (OnlineGame.orientForRole s) = OnlineGame.clientId s
  /\ OnlineGame.unsub (OnlineGame.orientForRole s) = OnlineGame.unsub s.
Proof.
  unfold OnlineGame.orientForRole.
  destruct (negb _); repeat split.
Qed.

Lemma syncBoard_effect (val : OnlineGame.GameDoc) (s : OnlineGame.State) :
  OnlineGame.doc_fen val <> EmptyString ->
  OnlineGame.role (OnlineGame.syncBoard val s) = OnlineGame.role s
  /\ OnlineGame.bothJoined (OnlineGame.syncBoard val s) = OnlineGame.bothJoined s
  /\ OnlineGame.board (OnlineGame.syncBoard val s)
     = (if is_role (OnlineGame.role s) black
        then reverse (setFEN (OnlineGame.board s) (OnlineGame.doc_fen val))
        else setFEN (OnlineGame.board s) (OnlineGame.doc_fen val))
  /\ OnlineGame.isReversed (OnlineGame.syncBoard val s) = is_role (OnlineGame.role s) black
  /\ OnlineGame.chess (OnlineGame.syncBoard val s)
     = default (OnlineGame.chess s)
         (chess_load (OnlineGame.chess s) (OnlineGame.doc_fen val))
  /\ OnlineGame.calls (OnlineGame.syncBoard val s)
     = OnlineGame.calls s
       ++ (CallSetFEN (OnlineGame.doc_fen val), true)
          :: (if is_role (OnlineGame.role s) black then [(CallReverse, true)] else [])
  /\ OnlineGame.applyingRemote (OnlineGame.syncBoard val s) = false
  /\ OnlineGame.writes (OnlineGame.syncBoard val s) = OnlineGame.writes s
  /\ OnlineGame.storage (OnlineGame.syncBoard val s) = OnlineGame.storage s.
Proof.
  intros Hfen. unfold OnlineGame.syncBoard.
  rewrite bool_decide_eq_false_2 by exact Hfen. cbv zeta.
  set (a3 := OnlineGame.set_isReversed false
               (OnlineGame.callBoard (CallSetFEN (OnlineGame.doc_fen val))
                  (OnlineGame.set_applyingRemote true s))).
  destruct (orientForRole_frame a3) as (Hr & Hc & Hw & Hst & _).
  destruct (orientForRole_keeps a3) as (Hbj & _).
  destruct (orientForRole_fresh a3 eq_refl) as (Hb & Hcalls).
  pose proof (orientForRole_flag a3) as Hflag.
  change (OnlineGame.role a3) with (OnlineGame.role s) in *.
  change (OnlineGame.chess a3) with (OnlineGame.chess s) in *.
  change (OnlineGame.chess (OnlineGame.set_applyingRemote false (OnlineGame.orientForRole a3)))
    with (OnlineGame.chess (OnlineGame.orientForRole a3)).
  rewrite Hc.
  destruct (chess_load (OnlineGame.chess s) (OnlineGame.doc_fen val)) as [c|]; simpl;
    rewrite ?Hr, ?Hbj, ?Hb, ?Hflag, ?Hcalls, ?Hw, ?Hst, ?Hc;
    (repeat split; try reflexivity);
    destruct (is_role (OnlineGame.role s) black); simpl;
      rewrite <- ?app_assoc; reflexivity.
Qed.

(** The last two blocks touch neither the view, the engine nor the room. *)
Lemma gate_announce_frame (val : OnlineGame.GameDoc) (s : OnlineGame.State) :
  OnlineGame.role (OnlineGame.announce val (OnlineGame.gateTurn val s)) = OnlineGame.role s
  /\ OnlineGame.bothJoined (OnlineGame.announce val (OnlineGame.gateTurn val s))
     = OnlineGame.bothJoined s
  /\ OnlineGame.board (OnlineGame.announce val (OnlineGame.gateTurn val s))
     = OnlineGame.board s
  /\ OnlineGame.isReversed (OnlineGame.announce val (OnlineGame.gateTurn val s))
     = OnlineGame.isReversed s
  /\ OnlineGame.chess (OnlineGame.announce val (OnlineGame.gateTurn val s))
     = OnlineGame.chess s
  /\ OnlineGame.calls (OnlineGame.announce val (OnlineGame.gateTurn val s))
     = OnlineGame.calls s
  /\ OnlineGame.applyingRemote (OnlineGame.announce val (OnlineGame.gateTurn val s))
     = OnlineGame.applyingRemote s
  /\ OnlineGame.writes (OnlineGame.announce val (OnlineGame.gateTurn val s))
     = OnlineGame.writes s
  /\ OnlineGame.gameRef (OnlineGame.announce val (OnlineGame.gateTurn val s))
     = OnlineGame.gameRef s.
Proof.
  unfold OnlineGame.announce, OnlineGame.gateTurn.
  destruct (OnlineGame.role s) as [r|] eqn:Hrole;
    destruct (OnlineGame.doc_status val) as [[]|], (OnlineGame.doc_winner val);
    simpl; try destruct (negb (OnlineGame.bothJoined s));
    simpl; rewrite ?Hrole; repeat split.
Qed.

(** X12: state convergence: a snapshot that carries a position puts it on the
    view, turned to the role's side, with every call on the view made under
    the guard and the guard released afterwards; it loads the position into
    the engine when the engine accepts it; and it writes nothing back. *)
Theorem snapshot_syncs_view (val : OnlineGame.GameDoc) (s : OnlineGame.State) :
  OnlineGame.doc_fen val <> EmptyString ->
  OnlineGame.board (OnlineGame.onSnapshot (Some val) s)
  = (if is_role (OnlineGame.role s) black
     then reverse (setFEN (OnlineGame.board s) (OnlineGame.doc_fen val))
     else setFEN (OnlineGame.board s) (OnlineGame.doc_fen val))
  /\ (reverted (OnlineGame.board (OnlineGame.onSnapshot (Some val) s)) = true
      <-> OnlineGame.role s = Some black)
  /\ OnlineGame.chess (OnlineGame.onSnapshot (Some val) s)
     = default (OnlineGame.chess s)
         (chess_load (OnlineGame.chess s) (OnlineGame.doc_fen val))
  /\ OnlineGame.calls (OnlineGame.onSnapshot (Some val) s)
     = OnlineGame.calls s
       ++ (CallSetFEN (OnlineGame.doc_fen val), true)
          :: (if is_role (OnlineGame.role s) black then [(CallReverse, true)] else [])
  /\ OnlineGame.applyingRemote (OnlineGame.onSnapshot (Some val) s) = false
  /\ OnlineGame.writes (OnlineGame.onSnapshot (Some val) s) = OnlineGame.writes s
  /\ OnlineGame.role (OnlineGame.onSnapshot (Some val) s) = OnlineGame.role s.
Proof.
  intros Hfen. unfold OnlineGame.onSnapshot.
  destruct (gate_announce_frame val
              (OnlineGame.syncBoard val (OnlineGame.trackPresence val s)))
    as (-> & _ & -> & _ & -> & -> & -> & -> & _).
  destruct (syncBoard_effect val (OnlineGame.trackPresence val s) Hfen)
    as (-> & _ & -> & _ & -> & -> & -> & -> & _).
  change (OnlineGame.role (OnlineGame.trackPresence val s)) with (OnlineGame.role s).
  repeat split; try reflexivity.
  - intros Hrev. apply is_role_black.
    destruct (is_role (OnlineGame.role s) black); [reflexivity|].
    simpl in Hrev. rewrite reverted_setFEN in Hrev by exact Hfen. discriminate.
  - intros Hblack. apply is_role_black in Hblack. rewrite Hblack.
    simpl. rewrite reverted_reverse, reverted_setFEN by exact Hfen. reflexivity.
Qed.

(** After the first two blocks the role is as before and presence is what
    the snapshot says. *)
Lemma presence_synced (val : OnlineGame.GameDoc) (s : OnlineGame.State) :
  OnlineGame.role (OnlineGame.syncBoard val (OnlineGame.trackPresence val s))
  = OnlineGame.role s
  /\ OnlineGame.bothJoined (OnlineGame.syncBoard val (OnlineGame.trackPresence val s))
     = OnlineGame.bothTaken (OnlineGame.playersOf val).
Proof.
  destruct (decide (OnlineGame.doc_fen val = EmptyString)) as [Hfen | Hfen].
  - unfold OnlineGame.syncBoard. rewrite bool_decide_eq_true_2 by exact Hfen.
    split; reflexivity.
  - destruct (syncBoard_effect val (OnlineGame.trackPresence val s) Hfen)
      as (Hr & Hbj & _).
    split; [exact Hr | exact Hbj].
Qed.

(** The last block leaves the gate alone unless the game is over. *)
Lemma announce_keeps_gate (val : OnlineGame.GameDoc) (s : OnlineGame.State) :
  (OnlineGame.doc_status val = Some OnlineGame.ended -> OnlineGame.doc_winner val = None) ->
  OnlineGame.moveDisabled (OnlineGame.announce val s) = OnlineGame.moveDisabled s.
Proof.
  intros Hlive. unfold OnlineGame.announce.
  destruct (OnlineGame.doc_status val) as [[]|] eqn:Hst; try (destruct (negb _); reflexivity).
  rewrite (Hlive eq_refl). destruct (negb _); reflexivity.
Qed.

(** X13: turn gating: unless the snapshot records a finished game, it leaves
    moves enabled iff both slots of the room are taken and the room's turn is
    the side of the role held; without a role moves stay disabled. *)
Theorem snapshot_gates_moves (val : OnlineGame.GameDoc) (s : OnlineGame.State) :
  (OnlineGame.doc_status val = Some OnlineGame.ended -> OnlineGame.doc_winner val = None) ->
  OnlineGame.bothJoined (OnlineGame.onSnapshot (Some val) s)
  = OnlineGame.bothTaken (OnlineGame.playersOf val)
  /\ (OnlineGame.moveDisabled (OnlineGame.onSnapshot (Some val) s) = false
      <-> OnlineGame.bothTaken (OnlineGame.playersOf val) = true
          /\ exists r, OnlineGame.role s = Some r
                       /\ OnlineGame.myTurn r (OnlineGame.doc_turn val) = true).
Proof.
  intros Hlive. unfold OnlineGame.onSnapshot.
  destruct (presence_synced val s) as (Hrole2 & Hbj2).
  set (s2 := OnlineGame.syncBoard val (OnlineGame.trackPresence val s)) in *.
  destruct (gate_announce_frame val s2) as (_ & -> & _).
  split; [exact Hbj2|].
  rewrite (announce_keeps_gate val _ Hlive).
  unfold OnlineGame.gateTurn. rewrite Hrole2.
  destruct (OnlineGame.role s) as [r|]; simpl.
  - rewrite Hbj2.
    destruct (OnlineGame.bothTaken (OnlineGame.playersOf val)),
             (OnlineGame.myTurn r (OnlineGame.doc_turn val)) eqn:Hturn; simpl; split;
      try discriminate; try (intros (Hx & _); discriminate Hx).
    + intros _. split; [reflexivity|]. exists r. split; [reflexivity | exact Hturn].
    + reflexivity.
    + intros (_ & r' & Hr' & Ht'). injection Hr' as <-. congruence.
  - split; [discriminate|]. intros (_ & r & Hr & _). discriminate Hr.
Qed.

(** X14: a snapshot of a finished game freezes the controller whoever is to move:
    moves are disabled, the result is shown, the persisted session is dropped
    so that a reload starts afresh, and a drag that follows writes nothing. *)
Theorem snapshot_game_over (val : OnlineGame.GameDoc) (s : OnlineGame.State) (winner : Role) :
  OnlineGame.doc_status val = Some OnlineGame.ended ->
  OnlineGame.doc_winner val = Some winner ->
  OnlineGame.moveDisabled (OnlineGame.onSnapshot (Some val) s) = true
  /\ OnlineGame.overlayVisible (OnlineGame.onSnapshot (Some val) s) = true
  /\ OnlineGame.overlayText (OnlineGame.onSnapshot (Some val) s)
     = toUpperCase winner +:+ " wins by checkmate"
  /\ StorageService.load (T:=OnlineGame.OnlineLocalState) OnlineGame.STORAGE_KEY
       (OnlineGame.storage (OnlineGame.onSnapshot (Some val) s)) = None
  /\ OnlineGame.onUserMove (OnlineGame.onSnapshot (Some val) s)
     = OnlineGame.onSnapshot (Some val) s
  /\ OnlineGame.writes (OnlineGame.onSnapshot (Some val) s) = OnlineGame.writes s.
Proof.
  intros Hst Hwin.
  destruct (gate_announce_frame val
              (OnlineGame.syncBoard val (OnlineGame.trackPresence val s)))
    as (_ & _ & _ & _ & _ & _ & _ & Hw & _).
  assert (Hsame : OnlineGame.writes (OnlineGame.syncBoard val (OnlineGame.trackPresence val s))
                  = OnlineGame.writes s).
  { unfold OnlineGame.syncBoard.
    destruct (bool_decide (OnlineGame.doc_fen val = EmptyString)) eqn:Hfen; [reflexivity|].
    apply bool_decide_eq_false_1 in Hfen.
    destruct (syncBoard_effect val (OnlineGame.trackPresence val s) Hfen)
      as (_ & _ & _ & _ & _ & _ & _ & Hx & _).
    unfold OnlineGame.syncBoard in Hx.
    rewrite bool_decide_eq_false_2 in Hx by exact Hfen. exact Hx. }
  unfold OnlineGame.onSnapshot in *.
  assert (Hover : OnlineGame.announce val
                    (OnlineGame.gateTurn val
                       (OnlineGame.syncBoard val (OnlineGame.trackPresence val s)))
                  = OnlineGame.handleGameOver winner
                      (OnlineGame.gateTurn val
                         (OnlineGame.syncBoard val (OnlineGame.trackPresence val s)))).
  { unfold OnlineGame.announce. rewrite Hst, Hwin. reflexivity. }
  assert (Hdis : OnlineGame.moveDisabled
                   (OnlineGame.announce val
                      (OnlineGame.gateTurn val
                         (OnlineGame.syncBoard val (OnlineGame.trackPresence val s)))) = true).
  { rewrite Hover. reflexivity. }
  split; [exact Hdis|].
  split; [rewrite Hover; reflexivity|].
  split; [rewrite Hover; reflexivity|].
  split; [rewrite Hover; apply load_after_clear|].
  split; [|rewrite Hw; exact Hsame].
  unfold OnlineGame.onUserMove, OnlineGame.onUserMoveAwait. rewrite Hdis.
  destruct (_ || _ || _); [reflexivity|].
  rewrite orb_true_r. reflexivity.
Qed.

End SnapshotFacts.

Lemma snapshot_syncs_view_witness :
  OnlineGame.doc_fen Fixtures.liveRoom <> EmptyString
  /\ OnlineGame.board (OnlineGame.onSnapshot (Some Fixtures.liveRoom) Fixtures.blackWaits)
     = {| Doubles.shown := Fixtures.after_e4_fen; Doubles.flipped := true |}
  /\ OnlineGame.chess (OnlineGame.onSnapshot (Some Fixtures.liveRoom) Fixtures.blackWaits)
     = Fixtures.after_e4_fen.
Proof.
  assert (Hfen : OnlineGame.doc_fen Fixtures.liveRoom <> EmptyString) by discriminate.
  destruct (snapshot_syncs_view Fixtures.liveRoom Fixtures.blackWaits Hfen)
    as (Hboard & _ & Hchess & _).
  split; [exact Hfen|]. split; [exact Hboard | exact Hchess].
Defined.

Lemma snapshot_gates_moves_witness :
  OnlineGame.moveDisabled (OnlineGame.onSnapshot (Some Fixtures.liveRoom) Fixtures.blackWaits)
  = false
  /\ OnlineGame.moveDisabled (OnlineGame.onSnapshot (Some Fixtures.liveRoom) Fixtures.whiteOpens)
     = true.
Proof.
  split.
  - destruct (snapshot_gates_moves Fixtures.liveRoom Fixtures.blackWaits) as (_ & Hiff).
    + intros Hended. discriminate Hended.
    + apply (proj2 Hiff). split; [reflexivity|].
      exists black. split; reflexivity.
  - destruct (snapshot_gates_moves Fixtures.liveRoom Fixtures.whiteOpens) as (_ & Hiff).
    + intros Hended. discriminate Hended.
    + destruct (OnlineGame.moveDisabled
                  (OnlineGame.onSnapshot (Some Fixtures.liveRoom) Fixtures.whiteOpens));
        [reflexivity|].
      destruct (proj1 Hiff eq_refl) as (_ & r & Hr & Hturn).
      injection Hr as <-. discriminate Hturn.
Defined.

Lemma snapshot_game_over_witness :
  OnlineGame.moveDisabled (OnlineGame.onSnapshot (Some Fixtures.endedRoom) Fixtures.blackWaits)
  = true
  /\ OnlineGame.overlayText (OnlineGame.onSnapshot (Some Fixtures.endedRoom) Fixtures.blackWaits)
     = "WHITE wins by checkmate".
Proof.
  destruct (snapshot_game_over (C:=Doubles.OnlineLocalStateCodec)
              Fixtures.endedRoom Fixtures.blackWaits white eq_refl eq_refl)
    as (Hdis & _ & Htext & _).
  split; [exact Hdis | exact Htext].
Defined.

(** ** Online Sync Controller: moves, rooms and sessions *)

Section OnlineMoveFacts.
Context {E : RulesEngine} {W : BoardWidget} {C : JsonCodec OnlineGame.OnlineLocalState}.





End OnlineMoveFacts.


Section RoomFacts.
Context {E : RulesEngine} {W : BoardWidget} {C : JsonCodec OnlineGame.OnlineLocalState}.

(** What [createGame] does for a visitor who is not in a game. *)
Lemma createGame_effect (s : OnlineGame.State) (c : string) :
  OnlineGame.role s = None ->
  OnlineGame.role (OnlineGame.createGame c s) = Some white
  /\ OnlineGame.code (OnlineGame.createGame c s) = c
  /\ OnlineGame.gameRef (OnlineGame.createGame c s) = Some ("games/" +:+ c)
  /\ OnlineGame.unsub (OnlineGame.createGame c s) = Some ("games/" +:+ c)
  /\ OnlineGame.writes (OnlineGame.createGame c s)
     = OnlineGame.writes s
       ++ [OnlineGame.RemoteSet ("games/" +:+ c)
             {| OnlineGame.doc_fen := chess_fen newChess;
                OnlineGame.doc_pgn := Some (chess_pgn newChess);
                OnlineGame.doc_turn := w;
                OnlineGame.doc_status := Some OnlineGame.waiting;
                OnlineGame.doc_winner := None;
                OnlineGame.doc_players :=
                  Some {| OnlineGame.white_slot := Some (OnlineGame.clientId s);
                          OnlineGame.black_slot := None |} |}]
  /\ OnlineGame.storage (OnlineGame.createGame c s)
     = StorageService.save OnlineGame.STORAGE_KEY
         {| OnlineGame.saved_code := c; OnlineGame.saved_role := white;
            OnlineGame.saved_clientId := OnlineGame.clientId s |}
         (OnlineGame.storage s)
  /\ OnlineGame.moveDisabled (OnlineGame.createGame c s) = true
  /\ OnlineGame.calls (OnlineGame.createGame c s) = OnlineGame.calls s.
Proof.
  intros Hrole. unfold OnlineGame.createGame. rewrite Hrole.
  unfold OnlineGame.orientForRole, OnlineGame.listenForUpdates, OnlineGame.persistSession.
  simpl. repeat split.
Qed.

(** Where a successful join leaves the session. *)
Lemma joinGame_session (s : OnlineGame.State) (snap : option OnlineGame.GameDoc) (r : Role) :
  OnlineGame.role s = None ->
  OnlineGame.role (OnlineGame.joinGame snap s) = Some r ->
  OnlineGame.storage (OnlineGame.joinGame snap s)
  = StorageService.save OnlineGame.STORAGE_KEY
      {| OnlineGame.saved_code := OnlineGame.code s; OnlineGame.saved_role := r;
         OnlineGame.saved_clientId := OnlineGame.clientId s |}
      (OnlineGame.storage s).
Proof.
  intros Hrole. unfold OnlineGame.joinGame. rewrite Hrole.
  destruct (bool_decide (OnlineGame.code s = EmptyString)); [simpl; congruence|].
  destruct snap as [val|]; [|simpl; congruence].
  cbv zeta.
  destruct (OnlineGame.taken (OnlineGame.white_slot (OnlineGame.playersOf val))),
           (OnlineGame.taken (OnlineGame.black_slot (OnlineGame.playersOf val)));
    cbn [andb negb]; try (simpl; congruence);
    match goal with
    | |- context [OnlineGame.orientForRole ?x] =>
        destruct (orientForRole_frame x) as (-> & _ & _ & -> & _)
    end;
    simpl; intros Hr; injection Hr as <-; reflexivity.
Qed.

(** X16: create, then join: the creator holds white in a waiting room; a second
    participant who joins with the code gets black and turns the room live
    with both slots taken; and from the snapshot of that room the creator may
    move while the joiner may not. *)
Theorem create_then_join_goes_live (host guest : OnlineGame.State) (c : string) :
  OnlineGame.role host = None ->
  OnlineGame.role guest = None ->
  c <> EmptyString ->
  OnlineGame.code guest = c ->
  OnlineGame.clientId host <> EmptyString ->
  OnlineGame.clientId guest <> EmptyString ->
  exists room1 room2,
    OnlineGame.afterHandler None host (OnlineGame.createGame c host) = Some room1
    /\ OnlineGame.role (OnlineGame.createGame c host) = Some white
    /\ OnlineGame.doc_status room1 = Some OnlineGame.waiting
    /\ OnlineGame.doc_players room1
       = Some {| OnlineGame.white_slot := Some (OnlineGame.clientId host);
                 OnlineGame.black_slot := None |}
    /\ OnlineGame.role (OnlineGame.joinGame (Some room1) guest) = Some black
    /\ OnlineGame.afterHandler (Some room1) guest (OnlineGame.joinGame (Some room1) guest)
       = Some room2
    /\ OnlineGame.doc_status room2 = Some OnlineGame.live
    /\ OnlineGame.doc_players room2
       = Some {| OnlineGame.white_slot := Some (OnlineGame.clientId host);
                 OnlineGame.black_slot := Some (OnlineGame.clientId guest) |}
    /\ OnlineGame.doc_fen room2 = chess_fen newChess
    /\ OnlineGame.doc_turn room2 = w
    /\ OnlineGame.moveDisabled
         (OnlineGame.onSnapshot (Some room2) (OnlineGame.createGame c host)) = false
    /\ OnlineGame.moveDisabled
         (OnlineGame.onSnapshot (Some room2) (OnlineGame.joinGame (Some room1) guest)) = true.
Proof.
  intros Hhost Hguest Hc Hcode Hidh Hidg.
  destruct (createGame_effect host c Hhost) as (Hrole1 & _ & _ & _ & Hw1 & _).
  remember {| OnlineGame.doc_fen := chess_fen newChess;
              OnlineGame.doc_pgn := Some (chess_pgn newChess);
              OnlineGame.doc_turn := w;
              OnlineGame.doc_status := Some OnlineGame.waiting;
              OnlineGame.doc_winner := None;
              OnlineGame.doc_players :=
                Some {| OnlineGame.white_slot := Some (OnlineGame.clientId host);
                        OnlineGame.black_slot := None |} |} as room1 eqn:Hroom1.
  assert (Hcode' : OnlineGame.code guest <> EmptyString) by congruence.
  pose proof (joinGame_outcomes guest (Some room1) Hguest Hcode') as Hjoin.
  cbv beta iota zeta in Hjoin.
  assert (Hps : OnlineGame.playersOf room1
                = {| OnlineGame.white_slot := Some (OnlineGame.clientId host);
                     OnlineGame.black_slot := None |}) by (subst room1; reflexivity).
  rewrite Hps in Hjoin. simpl in Hjoin.
  rewrite bool_decide_eq_false_2 in Hjoin by exact Hidh. simpl in Hjoin.
  destruct Hjoin as (Hrole2 & Hw2).
  set (room2 := {| OnlineGame.doc_fen := chess_fen newChess;
                   OnlineGame.doc_pgn := Some (chess_pgn newChess);
                   OnlineGame.doc_turn := w;
                   OnlineGame.doc_status := Some OnlineGame.live;
                   OnlineGame.doc_winner := None;
                   OnlineGame.doc_players :=
                     Some {| OnlineGame.white_slot := Some (OnlineGame.clientId host);
                             OnlineGame.black_slot := Some (OnlineGame.clientId guest) |} |}).
  assert (Hboth : OnlineGame.bothTaken (OnlineGame.playersOf room2) = true).
  { unfold OnlineGame.bothTaken. simpl.
    rewrite !bool_decide_eq_false_2 by assumption. reflexivity. }
  assert (Hlive : OnlineGame.doc_status room2 = Some OnlineGame.ended ->
                  OnlineGame.doc_winner room2 = None) by (intros _; reflexivity).
  exists room1, room2.
  split. { unfold OnlineGame.afterHandler. rewrite Hw1, drop_app_length. reflexivity. }
  split; [exact Hrole1|].
  split; [subst room1; reflexivity|]. split; [subst room1; reflexivity|].
  split; [exact Hrole2|].
  split.
  { unfold OnlineGame.afterHandler. rewrite Hw2, drop_app_length.
    subst room1. reflexivity. }
  split; [reflexivity|]. split; [reflexivity|]. split; [reflexivity|]. split; [reflexivity|].
  assert (Hgate : forall (x : OnlineGame.State) (r : Role),
             OnlineGame.role x = Some r ->
             OnlineGame.moveDisabled (OnlineGame.onSnapshot (Some room2) x)
             = negb (OnlineGame.myTurn r w)).
  { intros x r Hx. unfold OnlineGame.onSnapshot.
    rewrite (announce_keeps_gate room2 _ Hlive).
    destruct (presence_synced room2 x) as (Hr & Hbj).
    unfold OnlineGame.gateTurn. rewrite Hr, Hx. simpl. rewrite Hbj, Hboth. reflexivity. }
  split; [exact (Hgate _ white Hrole1) | exact (Hgate _ black Hrole2)].
Qed.


(** X18: refresh-resume of the online session: after a successful create or join,
    once the store took the record, [load] finds the room code, the role and
    the participant id, and [ensureClientId] reuses that id instead of the
    freshly drawn one. *)
Theorem session_survives_reload (s : OnlineGame.State) (fresh : string) :
  OnlineGame.role s = None ->
  OnlineGame.clientId s <> EmptyString ->
  (forall c : string,
      parse (stringify {| OnlineGame.saved_code := c; OnlineGame.saved_role := white;
                          OnlineGame.saved_clientId := OnlineGame.clientId s |})
      = Some {| OnlineGame.saved_code := c; OnlineGame.saved_role := white;
                OnlineGame.saved_clientId := OnlineGame.clientId s |} ->
      is_Some (setItem (OnlineGame.storage s) OnlineGame.STORAGE_KEY
                 (stringify {| OnlineGame.saved_code := c; OnlineGame.saved_role := white;
                               OnlineGame.saved_clientId := OnlineGame.clientId s |})) ->
      StorageService.load OnlineGame.STORAGE_KEY
        (OnlineGame.storage (OnlineGame.createGame c s))
      = Some {| OnlineGame.saved_code := c; OnlineGame.saved_role := white;
                OnlineGame.saved_clientId := OnlineGame.clientId s |}
      /\ OnlineGame.ensureClientId fresh (OnlineGame.storage (OnlineGame.createGame c s))
         = OnlineGame.clientId s)
  /\ (forall (snap : option OnlineGame.GameDoc) (r : Role),
        OnlineGame.role (OnlineGame.joinGame snap s) = Some r ->
        parse (stringify {| OnlineGame.saved_code := OnlineGame.code s;
                            OnlineGame.saved_role := r;
                            OnlineGame.saved_clientId := OnlineGame.clientId s |})
        = Some {| OnlineGame.saved_code := OnlineGame.code s; OnlineGame.saved_role := r;
                  OnlineGame.saved_clientId := OnlineGame.clientId s |} ->
        is_Some (setItem (OnlineGame.storage s) OnlineGame.STORAGE_KEY
                   (stringify {| OnlineGame.saved_code := OnlineGame.code s;
                                 OnlineGame.saved_role := r;
                                 OnlineGame.saved_clientId := OnlineGame.clientId s |})) ->
        StorageService.load OnlineGame.STORAGE_KEY
          (OnlineGame.storage (OnlineGame.joinGame snap s))
        = Some {| OnlineGame.saved_code := OnlineGame.code s; OnlineGame.saved_role := r;
                  OnlineGame.saved_clientId := OnlineGame.clientId s |}
        /\ OnlineGame.ensureClientId fresh (OnlineGame.storage (OnlineGame.joinGame snap s))
           = OnlineGame.clientId s).
Proof.
  intros Hrole Hid. split.
  - intros c Hjson Hfits.
    destruct (createGame_effect s c Hrole) as (_ & _ & _ & _ & _ & Hstore & _).
    assert (Hload := load_after_save OnlineGame.STORAGE_KEY (OnlineGame.storage s) _
                       Hjson Hfits).
    rewrite <- Hstore in Hload. split; [exact Hload|].
    unfold OnlineGame.ensureClientId. rewrite Hload. simpl.
    rewrite bool_decide_eq_false_2 by exact Hid. reflexivity.
  - intros snap r Hjoined Hjson Hfits.
    pose proof (joinGame_session s snap r Hrole Hjoined) as Hstore.
    assert (Hload := load_after_save OnlineGame.STORAGE_KEY (OnlineGame.storage s) _
                       Hjson Hfits).
    rewrite <- Hstore in Hload. split; [exact Hload|].
    unfold OnlineGame.ensureClientId. rewrite Hload. simpl.
    rewrite bool_decide_eq_false_2 by exact Hid. reflexivity.
Qed.

End RoomFacts.

Lemma create_then_join_goes_live_witness :
  OnlineGame.clientId (Fixtures.visitor "tab-0") <> EmptyString
  /\ OnlineGame.clientId (Fixtures.visitor "tab-2") <> EmptyString
  /\ exists room1 room2,
       Fixtures.roomCreated = Some room1
       /\ OnlineGame.afterHandler (Some room1) (Fixtures.visitor "tab-2")
            (OnlineGame.joinGame (C:=Doubles.OnlineLocalStateCodec) (Some room1)
               (Fixtures.visitor "tab-2"))
          = Some room2
       /\ OnlineGame.doc_status room2 = Some OnlineGame.live.
Proof.
  assert (Hhost : OnlineGame.clientId (Fixtures.visitor "tab-0") <> EmptyString)
    by discriminate.
  assert (Hguest : OnlineGame.clientId (Fixtures.visitor "tab-2") <> EmptyString)
    by discriminate.
  split; [exact Hhost|]. split; [exact Hguest|].
  destruct (create_then_join_goes_live (C:=Doubles.OnlineLocalStateCodec)
              (Fixtures.visitor "tab-0") (Fixtures.visitor "tab-2") "AB12CD"
              eq_refl eq_refl)
    as (room1 & room2 & Hcreated & _ & _ & _ & _ & Hjoined & Hstatus & _);
    try discriminate; try reflexivity; try assumption.
  exists room1, room2.
  split; [exact Hcreated|]. split; [exact Hjoined | exact Hstatus].
Defined.


Lemma session_survives_reload_witness :
  OnlineGame.ensureClientId (C:=Doubles.OnlineLocalStateCodec) "drawn-afresh"
    (OnlineGame.storage Fixtures.created)
  = "tab-0".
Proof.
  destruct (session_survives_reload (C:=Doubles.OnlineLocalStateCodec)
              (Fixtures.visitor "tab-0") "drawn-afresh" eq_refl)
    as (Hcreate & _).
  - discriminate.
  - destruct (Hcreate "AB12CD") as (_ & Hid).
    + vm_compute. reflexivity.
    + vm_compute. eexists. reflexivity.
    + exact Hid.
Defined.

(** ** Offline mode: resynchronising a child *)

Section ResyncFacts.
Context {E : RulesEngine} {W : BoardWidget} {C : JsonCodec GameHost.SavedState}.

Lemma sync_state_board (e : MessageEvent) (k : BoardEmbed.State) (f : string) (p : option string) :
  ev_origin e = BoardEmbed.origin k ->
  ev_data e = Msg (SYNC_STATE f p) ->
  BoardEmbed.board (BoardEmbed.onMessage e k)
  = (if is_role (BoardEmbed.role k) black
     then reverse (setFEN (BoardEmbed.board k) f) else setFEN (BoardEmbed.board k) f)
  /\ BoardEmbed.moveDisabled (BoardEmbed.onMessage e k) = BoardEmbed.moveDisabled k.
Proof.
  intros Horg Hdata. unfold BoardEmbed.onMessage.
  rewrite bool_decide_eq_true_2 by exact Horg. simpl. rewrite Hdata. simpl.
  match goal with
  | |- context [BoardEmbed.ensureOrientation ?x] =>
      destruct (ensureOrientation_calls x) as (_ & -> & _);
      destruct (ensureOrientation_frame x) as (_ & -> & _)
  end.
  simpl. destruct (is_role (BoardEmbed.role k) black); split; reflexivity.
Qed.

(** X7: a resync request is answered with the host's current position, sent to
    the requester only, and the turn, sent to both frames, and with no new
    role.  A child that handles the two messages, whatever state it was in,
    keeps its role, shows that position from its own side with the guard
    released, and can move iff the turn is its own. *)
Theorem resync_repairs_child (s : GameHost.State) (e : MessageEvent) (src : Window)
    (k : BoardEmbed.State) :
  ev_origin e = GameHost.origin s ->
  ev_source e = Some src ->
  ev_data e = Msg REQUEST_SYNC ->
  GameHost.posted (GameHost.onMessage e s)
  = GameHost.posted s
    ++ [(src, SYNC_STATE (chess_fen (GameHost.chess s)) None)]
    ++ GameHost.bothChildren (TURN (chess_turn (GameHost.chess s))) s
  /\ BoardEmbed.role
       (BoardEmbed.deliver (BoardEmbed.origin k)
          [SYNC_STATE (chess_fen (GameHost.chess s)) None;
           TURN (chess_turn (GameHost.chess s))] k)
     = BoardEmbed.role k
  /\ BoardEmbed.board
       (BoardEmbed.deliver (BoardEmbed.origin k)
          [SYNC_STATE (chess_fen (GameHost.chess s)) None;
           TURN (chess_turn (GameHost.chess s))] k)
     = (if is_role (BoardEmbed.role k) black
        then reverse (setFEN (BoardEmbed.board k) (chess_fen (GameHost.chess s)))
        else setFEN (BoardEmbed.board k) (chess_fen (GameHost.chess s)))
  /\ BoardEmbed.applyingRemote
       (BoardEmbed.deliver (BoardEmbed.origin k)
          [SYNC_STATE (chess_fen (GameHost.chess s)) None;
           TURN (chess_turn (GameHost.chess s))] k)
     = false
  /\ (forall r,
        BoardEmbed.role k = Some r ->
        BoardEmbed.moveDisabled
          (BoardEmbed.deliver (BoardEmbed.origin k)
             [SYNC_STATE (chess_fen (GameHost.chess s)) None;
              TURN (chess_turn (GameHost.chess s))] k)
        = negb (BoardEmbed.isMyTurn r (chess_turn (GameHost.chess s)))).
Proof.
  intros Horg Hsrc Hdata. split.
  { unfold GameHost.onMessage.
    rewrite bool_decide_eq_true_2 by exact Horg. simpl. rewrite Hsrc, Hdata.
    destruct (frame_broadcastTurn (GameHost.syncStateTo src s)) as (_ & _ & ->).
    unfold GameHost.syncStateTo. simpl. rewrite <- app_assoc. reflexivity. }
  unfold BoardEmbed.deliver. simpl.
  set (f := chess_fen (GameHost.chess s)). set (t := chess_turn (GameHost.chess s)).
  set (e2 := {| ev_origin := BoardEmbed.origin k; ev_source := None;
                ev_data := Msg (SYNC_STATE f None) |}).
  set (e3 := {| ev_origin := BoardEmbed.origin k; ev_source := None;
                ev_data := Msg (TURN t) |}).
  destruct (sync_state_frame e2 k f None eq_refl eq_refl) as (Hr2 & _ & Ha2).
  destruct (sync_state_board e2 k f None eq_refl eq_refl) as (Hb2 & _).
  set (k2 := BoardEmbed.onMessage e2 k) in *.
  assert (Ho2 : ev_origin e3 = BoardEmbed.origin k2).
  { unfold k2. rewrite embed_origin_kept. reflexivity. }
  assert (Hstep : BoardEmbed.onMessage e3 k2
                  = match BoardEmbed.role k with
                    | None => k2
                    | Some r => BoardEmbed.set_moveDisabled (negb (BoardEmbed.isMyTurn r t)) k2
                    end).
  { unfold BoardEmbed.onMessage.
    rewrite bool_decide_eq_true_2 by exact Ho2. simpl. rewrite Hr2. reflexivity. }
  rewrite Hstep.
  destruct (BoardEmbed.role k) as [r|] eqn:Hrole; simpl.
  - repeat split; try assumption.
    intros r' Hr'. injection Hr' as <-. reflexivity.
  - repeat split; try assumption. discriminate.
Qed.

End ResyncFacts.

Lemma resync_repairs_child_witness :
  GameHost.posted
    (Fixtures.hostOnMessage (Fixtures.from 2 REQUEST_SYNC) (Fixtures.hostAt Fixtures.after_e4_fen))
  = [(2, SYNC_STATE Fixtures.after_e4_fen None); (1, TURN b); (2, TURN b)]
  /\ BoardEmbed.moveDisabled
       (BoardEmbed.deliver Fixtures.here [SYNC_STATE Fixtures.after_e4_fen None; TURN b]
          (BoardEmbed.set_role (Some black) Fixtures.child))
     = false.
Proof.
  destruct (resync_repairs_child (C:=Doubles.SavedStateCodec)
              (Fixtures.hostAt Fixtures.after_e4_fen) (Fixtures.from 2 REQUEST_SYNC) 2
              (BoardEmbed.set_role (Some black) Fixtures.child)
              eq_refl eq_refl eq_refl)
    as (Hposted & _ & _ & _ & Hmove).
  split; [exact Hposted | exact (Hmove black eq_refl)].
Defined.
